(** * OTP verification and mail transport of the loan-application backend

    A shallow embedding of [utils/sendEmail.js] (the mail transport adapter)
    and of the OTP routes of [routes/auth.routes.js] (forgot-password,
    reset-password, send-otp, verify-otp), followed by the properties of the
    OTP life cycle.

    Conventions of the embedding.
    - A JavaScript string is a [string]; each character stands for one code
      unit below 256.  A request field or an environment variable that may be
      absent is an [option string]; [None] is [undefined].
    - A date is the number of milliseconds since the epoch, in [Z].
    - The two Mongo collections are lists of documents in insertion order;
      [findOne] returns the first match.  Persistence operations do not fail.
    - What a handler reads from outside the store (the clock, the generated
      code, the environment, the SMTP relay's answer) is passed in a [Ctx].
    - [sendEmail] catches the relay's errors itself and nothing else in the
      modelled code throws, so the [catch] branches of the handlers are not
      reached and are left out; [console] output is not modelled. *)

From Stdlib Require Import String Ascii List Bool ZArith QArith Lia.
Import ListNotations.
Local Open Scope string_scope.

(** ** JavaScript values and string operations *)
Module Js.

(** [!!v] for a string that may be undefined: only a non-empty string is truthy. *)
Definition truthy (v : option string) : bool :=
  match v with
  | Some s => negb (s =? "")
  | None => false
  end.

(** [a || b] on strings that may be undefined. *)
Definition or_else (a b : option string) : option string :=
  if truthy a then a else b.

(** [a || 'literal']. *)
Definition or_lit (a : option string) (b : string) : string :=
  match a with
  | Some s => if s =? "" then b else s
  | None => b
  end.

(** [v === 'literal'] for a value that may be undefined. *)
Definition is_lit (v : option string) (l : string) : bool :=
  match v with
  | Some s => s =? l
  | None => false
  end.

(** White space and line terminators ([\s], and what [trim] removes) among
    the code units below 256: TAB, LF, VT, FF, CR, SPACE and NBSP. *)
Definition is_space (c : ascii) : bool :=
  match N_of_ascii c with
  | 9 | 10 | 11 | 12 | 13 | 32 | 160 => true
  | _ => false
  end%N.

Fixpoint trimStart (s : string) : string :=
  match s with
  | EmptyString => EmptyString
  | String c r => if is_space c then trimStart r else s
  end.

Fixpoint trimEnd (s : string) : string :=
  match s with
  | EmptyString => EmptyString
  | String c r =>
      match trimEnd r with
      | EmptyString => if is_space c then EmptyString else String c EmptyString
      | r' => String c r'
      end
  end.

(** [s.trim()] *)
Definition trim (s : string) : string := trimEnd (trimStart s).

(** [s.includes(sub)] *)
Fixpoint includes (sub s : string) : bool :=
  if String.prefix sub s then true
  else match s with
       | EmptyString => false
       | String _ r => includes sub r
       end.

(** [s.substring(0, n)] *)
Definition substring0 (n : nat) (s : string) : string := String.substring 0 n s.

Definition lower (c : ascii) : ascii :=
  let n := N_of_ascii c in
  if ((65 <=? n) && (n <=? 90))%N then ascii_of_N (n + 32) else c.

(** ASCII letters folded to lower case, as a case-insensitive pattern without
    the [u] flag compares them. *)
Fixpoint fold_case (s : string) : string :=
  match s with
  | EmptyString => EmptyString
  | String c r => String (lower c) (fold_case r)
  end.

(** Regular expressions, matched by derivatives. *)
Inductive re : Type :=
| Void
| Eps
| Cls (p : ascii -> bool)
| Cat (r s : re)
| Alt (r s : re)
| Star (r : re).

Definition Plus (r : re) : re := Cat r (Star r).

Fixpoint nullable (r : re) : bool :=
  match r with
  | Void => false
  | Eps => true
  | Cls _ => false
  | Cat r s => nullable r && nullable s
  | Alt r s => nullable r || nullable s
  | Star _ => true
  end.

Fixpoint deriv (c : ascii) (r : re) : re :=
  match r with
  | Void => Void
  | Eps => Void
  | Cls p => if p c then Eps else Void
  | Cat r s =>
      if nullable r then Alt (Cat (deriv c r) s) (deriv c s)
      else Cat (deriv c r) s
  | Alt r s => Alt (deriv c r) (deriv c s)
  | Star r => Cat (deriv c r) (Star r)
  end.

(** [/^r$/.test(s)] *)
Fixpoint matches (r : re) (s : string) : bool :=
  match s with
  | EmptyString => nullable r
  | String c s' => matches (deriv c r) s'
  end.

Definition chr (a : ascii) : re := Cls (Ascii.eqb a).

(** [[^\s@]] *)
Definition not_space_at (c : ascii) : bool :=
  negb (is_space c) && negb (Ascii.eqb c "@").

(** [/^[^\s@]+@[^\s@]+\.[^\s@]+$/] *)
Definition email_re : re :=
  Cat (Plus (Cls not_space_at))
    (Cat (chr "@")
       (Cat (Plus (Cls not_space_at))
          (Cat (chr ".") (Plus (Cls not_space_at))))).

(** [/auth/i.test(s)]: the pattern is not anchored and ignores ASCII case. *)
Definition test_auth_i (s : string) : bool := includes "auth" (fold_case s).

(** [html.replace(/<[^>]*>/g, '')]: every [<...>] run up to its first [>]
    is removed; a [<] with no [>] after it stays. *)
Fixpoint after_gt (s : string) : option string :=
  match s with
  | EmptyString => None
  | String c r => if Ascii.eqb c ">" then Some r else after_gt r
  end.

Fixpoint strip_tags_fuel (fuel : nat) (s : string) : string :=
  match fuel with
  | O => s
  | S fuel' =>
      match s with
      | EmptyString => EmptyString
      | String c r =>
          if Ascii.eqb c "<" then
            match after_gt r with
            | Some rest => strip_tags_fuel fuel' rest
            | None => s
            end
          else String c (strip_tags_fuel fuel' r)
      end
  end.

Definition strip_tags (s : string) : string :=
  strip_tags_fuel (String.length s) s.

End Js.

(** ** The mail transport adapter ([utils/sendEmail.js]) *)
Module Mail.
Import Js.

(** [process.env], as far as the adapter and the routes read it. *)
Record Env : Type := {
  EMAIL_HOST : option string;
  EMAIL_PORT : option string;
  EMAIL_USER : option string;
  EMAIL_PASS : option string;
  EMAIL_FROM : option string;
  NODE_ENV : option string;
  SMTP_DEBUG : option string
}.

(** The object handed to [nodemailer.createTransport]. *)
Record TransportConfig : Type := {
  host : string;
  port : Z;
  secure : bool;
  auth_user : option string;
  auth_pass : option string;
  connectionTimeout : Z;
  greetingTimeout : Z;
  socketTimeout : Z;
  requireTLS : bool;
  tls_rejectUnauthorized : bool;
  tls_minVersion : string;
  debug : bool;
  logger : bool;
  service : option string
}.

(** A client: the options it was built from, and its rank among the clients
    built so far, which tells two clients built from equal options apart. *)
Record Transporter : Type := {
  serial : nat;
  options : TransportConfig
}.

(** The argument of [trans.sendMail]. *)
Record Message : Type := {
  mail_from : option string;
  mail_to : option string;
  mail_subject : option string;
  mail_html : option string;
  mail_text : option string
}.

(** What the relay answers: [info.messageId], or an error with its [message]
    and [code]. *)
Inductive Outcome : Type :=
| Sent (messageId : string)
| Rejected (message : string) (code : option string).

Definition Smtp : Type := Transporter -> Message -> Outcome.

Record ConfigView : Type := {
  cv_host : string;
  cv_port : string;
  cv_user : string
}.

(** The object [sendEmail] and [sendOTPEmail] return. *)
Record SendResult : Type := {
  success : bool;
  error : option string;
  code : option string;
  messageId : option string;
  originalError : option string;
  hint : option string;
  config : option ConfigView
}.

(** The module-level variables [transporter], [transporterInitialized] and
    [lastConfigHash], with two observations of the outside: how many clients
    have been built, and every call of [sendMail] so far. *)
Record State : Type := {
  transporter : option Transporter;
  transporterInitialized : bool;
  lastConfigHash : option string;
  built : nat;
  outbox : list (Transporter * Message)
}.

Definition initial : State :=
  {| transporter := None; transporterInitialized := false;
     lastConfigHash := None; built := 0; outbox := [] |}.

Definition is_loopback (h : string) : bool :=
  (h =? "localhost") || (h =? "127.0.0.1").

Definition diagnoseSMTPConfig (env : Env) : bool :=
  match EMAIL_HOST env with
  | None => false
  | Some h =>
      if (h =? "") || (trim h =? "") then false
      else if is_loopback h then false
      else true
  end.

Section Runtime.

(** [Number(s)]: the runtime's conversion of a string to a number; [None] is
    NaN. *)
Variable Number : string -> option Q.

Definition validateSMTPConfig (env : Env) : bool :=
  let required := [EMAIL_HOST env; EMAIL_PORT env; EMAIL_USER env; EMAIL_PASS env] in
  let missing := filter (fun v => negb (truthy v)) required in
  let empty :=
    filter (fun v => match v with
                     | Some s => negb (s =? "") && (trim s =? "")
                     | None => false
                     end) required in
  if (0 <? length missing)%nat then false
  else if (0 <? length empty)%nat then false
  else
    match EMAIL_PORT env, EMAIL_HOST env with
    | Some p, Some h =>
        match Number p with
        | None => false
        | Some n =>
            if Qle_bool n 0 then false
            else
              let h' := trim h in
              if (h' =? "") || is_loopback h' then false else true
        end
    | _, _ => false
    end.

(** [createTransporter]: the options object it hands to
    [nodemailer.createTransport], or [None] where it returns [null]. How
    nodemailer resolves the [service] option is not part of the source. *)
Definition createTransporter (env : Env) : option TransportConfig :=
  if negb (diagnoseSMTPConfig env) then None
  else if negb (validateSMTPConfig env) then None
  else
    match EMAIL_HOST env, EMAIL_PORT env with
    | Some h, Some p =>
        let host' := trim h in
        let useTLS :=
          match Number p with
          | Some n => Qeq_bool n 587
          | None => false
          end in
        let dbg := is_lit (NODE_ENV env) "development" || is_lit (SMTP_DEBUG env) "true" in
        Some {| host := "smtp-relay.brevo.com";
                port := 465;
                secure := false;
                auth_user := EMAIL_USER env;
                auth_pass := EMAIL_PASS env;
                connectionTimeout := 20000;
                greetingTimeout := 20000;
                socketTimeout := 20000;
                requireTLS := useTLS;
                tls_rejectUnauthorized := false;
                tls_minVersion := "TLSv1.2";
                debug := dbg;
                logger := dbg;
                service := if includes "gmail.com" host' then Some "gmail" else None |}
    | _, _ => None
    end.

Definition getConfigHash (env : Env) : string :=
  or_lit (EMAIL_HOST env) "" ++ "_" ++ or_lit (EMAIL_PORT env) "" ++ "_"
    ++ or_lit (EMAIL_USER env) "".

(** [lastConfigHash !== currentConfigHash] *)
Definition hash_differs (last : option string) (current : string) : bool :=
  match last with
  | Some h => negb (h =? current)
  | None => true
  end.

Definition getTransporter (env : Env) (st : State) : option Transporter * State :=
  let currentConfigHash := getConfigHash env in
  if negb (transporterInitialized st) || hash_differs (lastConfigHash st) currentConfigHash
  then
    let t := option_map (fun c => {| serial := built st; options := c |})
               (createTransporter env) in
    (t, {| transporter := t;
           transporterInitialized := true;
           lastConfigHash := Some currentConfigHash;
           built := match t with Some _ => S (built st) | None => built st end;
           outbox := outbox st |})
  else (transporter st, st).

Definition failure (err cd : string) : SendResult :=
  {| success := false; error := Some err; code := Some cd; messageId := None;
     originalError := None; hint := None; config := None |}.

Definition code_is (c : option string) (l : string) : bool := is_lit c l.

(** The [catch] branch of [sendEmail]: the error is classified by its code. *)
Definition classify (env : Env) (message : string) (c : option string) : SendResult :=
  let '(errorMessage, helpfulHint) :=
    if code_is c "EAUTH" then
      ("SMTP authentication failed. Please verify EMAIL_USER and EMAIL_PASS.",
       "For Gmail, you must use an App Password, not your regular password.")
    else if code_is c "ECONNECTION" || code_is c "ETIMEDOUT" || code_is c "ESOCKET" then
      let h := or_lit (EMAIL_HOST env) "NOT SET" in
      let p := or_lit (EMAIL_PORT env) "NOT SET" in
      if (h =? "NOT SET") || (trim h =? "") || is_loopback h then
        ("SMTP host is not configured correctly. EMAIL_HOST is missing or set to localhost.",
         "Please set EMAIL_HOST in your .env file (e.g., smtp.gmail.com for Gmail).")
      else
        ("Cannot connect to SMTP server at " ++ h ++ ":" ++ p ++ ".",
         "Please verify EMAIL_HOST and EMAIL_PORT are correct. Check your firewall and network connection.")
    else if code_is c "EENVELOPE" then
      ("Invalid email address. Please check the recipient email.", "")
    else if code_is c "ETIMEDOUT" then
      ("SMTP connection timed out.",
       "The SMTP server did not respond in time. Check your network connection and EMAIL_HOST.")
    else (message, "") in
  {| success := false;
     error := Some errorMessage;
     code := c;
     messageId := None;
     originalError := Some message;
     hint := Some helpfulHint;
     config := Some {| cv_host := or_lit (EMAIL_HOST env) "NOT SET";
                       cv_port := or_lit (EMAIL_PORT env) "NOT SET";
                       cv_user := if truthy (EMAIL_USER env)
                                  then substring0 3 (or_lit (EMAIL_USER env) "") ++ "***"
                                  else "NOT SET" |} |}.

Definition sendEmail (env : Env) (smtp : Smtp) (to subject html text : option string)
    (st : State) : SendResult * State :=
  let '(trans, st1) := getTransporter env st in
  match trans with
  | None =>
      (failure "SMTP is not configured. Please set EMAIL_HOST, EMAIL_PORT, EMAIL_USER, and EMAIL_PASS environment variables."
         "ENOCONFIG", st1)
  | Some t =>
      if negb (truthy to) || negb (truthy subject) then
        (failure "Missing required fields: to and subject are required" "EMISSING", st1)
      else
        let m := {| mail_from := or_else (EMAIL_FROM env) (EMAIL_USER env);
                    mail_to := to;
                    mail_subject := subject;
                    mail_html := html;
                    mail_text := if truthy text then text else option_map strip_tags html |} in
        let st2 := {| transporter := transporter st1;
                      transporterInitialized := transporterInitialized st1;
                      lastConfigHash := lastConfigHash st1;
                      built := built st1;
                      outbox := outbox st1 ++ [(t, m)] |} in
        match smtp t m with
        | Sent id =>
            ({| success := true; error := None; code := None; messageId := Some id;
                originalError := None; hint := None; config := None |}, st2)
        | Rejected message c => (classify env message c, st2)
        end
  end.

Definition nl : string := String "010"%char EmptyString.
Definition dq : string := String "034"%char EmptyString.

(** An opening tag with its [style] attribute. *)
Definition styled (tag css : string) : string :=
  "<" ++ tag ++ " style=" ++ dq ++ css ++ dq ++ ">".

Definition otp_html (otp purpose : string) : string :=
  nl ++ "    " ++ styled "div" "font-family:Arial, sans-serif; line-height:1.6; max-width:600px; margin:0 auto; padding:20px; background-color:#f9f9f9;"
  ++ nl ++ "      " ++ styled "div" "background-color:white; padding:30px; border-radius:10px; box-shadow:0 2px 4px rgba(0,0,0,0.1);"
  ++ nl ++ "        " ++ styled "h2" "color:#333; margin-top:0;" ++ "Your OTP Code</h2>"
  ++ nl ++ "        " ++ styled "p" "color:#666; font-size:16px;" ++ "Your OTP for <strong>" ++ purpose ++ "</strong> is:</p>"
  ++ nl ++ "        " ++ styled "div" "background-color:#fff3cd; border:2px solid #ffc107; border-radius:8px; padding:20px; text-align:center; margin:20px 0;"
  ++ nl ++ "          " ++ styled "h1" "font-size:36px; letter-spacing:8px; color:#856404; margin:0; font-weight:bold;" ++ otp ++ "</h1>"
  ++ nl ++ "        </div>"
  ++ nl ++ "        " ++ styled "p" "color:#666; font-size:14px;" ++ "This OTP will expire in 10 minutes.</p>"
  ++ nl ++ "        " ++ styled "p" "color:#999; font-size:12px; margin-top:30px; border-top:1px solid #eee; padding-top:20px;" ++ "If you didn't request this OTP, please ignore this email.</p>"
  ++ nl ++ "      </div>"
  ++ nl ++ "    </div>"
  ++ nl ++ "  ".

Definition otp_text (otp purpose : string) : string :=
  "Your OTP for " ++ purpose ++ " is: " ++ otp ++ nl ++ nl
  ++ "This OTP will expire in 10 minutes." ++ nl ++ nl
  ++ "If you didn't request this OTP, please ignore this email.".

(** [sendOTPEmail(to, otp, purpose = "verification")] *)
Definition sendOTPEmail (env : Env) (smtp : Smtp) (to : option string) (otp : string)
    (purpose : option string) (st : State) : SendResult * State :=
  let purpose := match purpose with Some p => p | None => "verification" end in
  if negb (truthy to) || negb (matches email_re (or_lit to "")) then
    (failure "Invalid email address format" "EINVALID", st)
  else
    sendEmail env smtp to (Some ("Your OTP for " ++ purpose))
      (Some (otp_html otp purpose)) (Some (otp_text otp purpose)) st.

End Runtime.
End Mail.

(** ** The OTP routes ([routes/auth.routes.js]) *)
Module Auth.
Import Js.

(** *** Documents *)

(** The OTP slot embedded in a user: [{ code, expiresAt, purpose }]. *)
Record OtpSlot : Type := {
  code : string;
  expiresAt : Z;
  purpose : string
}.

(** Modelled from the spec: the [User] schema ([models/User.model.js]); the
    OTP slot is a single optional field of the user. *)
Record User : Type := {
  user_id : nat;
  name : string;
  email : string;
  phone : string;
  password : string;
  otp : option OtpSlot;
  isVerified_email : bool;
  isVerified_phone : bool;
  isActive : bool;
  role : string
}.

(** Modelled from the spec: the [OTP] schema ([models/OTP.model.js]); a
    standalone record carries an email or a phone, and [verified] starts
    false. *)
Record OtpDoc : Type := {
  otp_id : nat;
  otp_email : option string;
  otp_phone : option string;
  otp_code : string;
  otp_purpose : string;
  otp_expiresAt : Z;
  verified : bool
}.

(** The store and the adapter's module state. [otp_seq] is the next [_id] of
    the OTP collection. *)
Record World : Type := {
  users : list User;
  otps : list OtpDoc;
  otp_seq : nat;
  mail : Mail.State
}.

Definition set_users (l : list User) (w : World) : World :=
  {| users := l; otps := otps w; otp_seq := otp_seq w; mail := mail w |}.

Definition set_otps (l : list OtpDoc) (w : World) : World :=
  {| users := users w; otps := l; otp_seq := otp_seq w; mail := mail w |}.

Definition set_mail (m : Mail.State) (w : World) : World :=
  {| users := users w; otps := otps w; otp_seq := otp_seq w; mail := m |}.

(** [user.otp = v] *)
Definition with_otp (v : option OtpSlot) (u : User) : User :=
  {| user_id := user_id u; name := name u; email := email u; phone := phone u;
     password := password u; otp := v;
     isVerified_email := isVerified_email u; isVerified_phone := isVerified_phone u;
     isActive := isActive u; role := role u |}.

(** [user.password = v] *)
Definition with_password (v : string) (u : User) : User :=
  {| user_id := user_id u; name := name u; email := email u; phone := phone u;
     password := v; otp := otp u;
     isVerified_email := isVerified_email u; isVerified_phone := isVerified_phone u;
     isActive := isActive u; role := role u |}.

(** [user.isVerified.email = true] when [e], [user.isVerified.phone = true]
    when [p]. *)
Definition with_verified (e p : bool) (u : User) : User :=
  {| user_id := user_id u; name := name u; email := email u; phone := phone u;
     password := password u; otp := otp u;
     isVerified_email := if e then true else isVerified_email u;
     isVerified_phone := if p then true else isVerified_phone u;
     isActive := isActive u; role := role u |}.

(** [otpRecord.verified = true] *)
Definition mark_verified (r : OtpDoc) : OtpDoc :=
  {| otp_id := otp_id r; otp_email := otp_email r; otp_phone := otp_phone r;
     otp_code := otp_code r; otp_purpose := otp_purpose r;
     otp_expiresAt := otp_expiresAt r; verified := true |}.

(** *** Queries *)

(** A filter object on users: a field that is [None] is not in the filter. *)
Record UserQuery : Type := {
  q_email : option string;
  q_phone : option string
}.

Definition field_is (want : option string) (have : string) : bool :=
  match want with
  | Some v => v =? have
  | None => true
  end.

Definition user_matches (q : UserQuery) (u : User) : bool :=
  field_is (q_email q) (email u) && field_is (q_phone q) (phone u).

(** A filter object on OTP records. *)
Record OtpQuery : Type := {
  oq_email : option string;
  oq_phone : option string;
  oq_purpose : option string;
  oq_verified : option bool
}.

Definition opt_field_is (want : option string) (have : option string) : bool :=
  match want with
  | Some v => is_lit have v
  | None => true
  end.

Definition otp_matches (q : OtpQuery) (r : OtpDoc) : bool :=
  opt_field_is (oq_email q) (otp_email r)
  && opt_field_is (oq_phone q) (otp_phone r)
  && field_is (oq_purpose q) (otp_purpose r)
  && match oq_verified q with
     | Some b => Bool.eqb b (verified r)
     | None => true
     end.

(** *** Responses *)

#[warnings="-register-all"]
Inductive JVal : Type :=
| JUndef
| JBool (b : bool)
| JNum (n : Z)
| JStr (s : string)
| JObj (fields : list (string * JVal)).

Record Response : Type := {
  status : Z;
  body : list (string * JVal)
}.

Definition jopt (v : option string) : JVal :=
  match v with
  | Some s => JStr s
  | None => JUndef
  end.

Fixpoint field (k : string) (o : list (string * JVal)) : JVal :=
  match o with
  | [] => JUndef
  | (k', v) :: o' => if k' =? k then v else field k o'
  end.

(** [res.status(st).json({ success: false, message: msg, ...rest })] *)
Definition fail (st : Z) (msg : string) (rest : list (string * JVal)) : Response :=
  {| status := st; body := ("success", JBool false) :: ("message", JStr msg) :: rest |}.

(** [res.json({ success: true, message: msg, ...rest })] *)
Definition ok (msg : string) (rest : list (string * JVal)) : Response :=
  {| status := 200; body := ("success", JBool true) :: ("message", JStr msg) :: rest |}.

Definition succeeded (r : Response) : bool :=
  match field "success" (body r) with
  | JBool b => b
  | _ => false
  end.

Definition message_is (r : Response) (m : string) : bool :=
  match field "message" (body r) with
  | JStr s => s =? m
  | _ => false
  end.

(** The outcome of a validation, read off the response. *)
Inductive Verdict : Type := OK | NOT_FOUND | EXPIRED | MISMATCH | OTHER.

Definition verdict (r : Response) : Verdict :=
  if succeeded r then OK
  else if message_is r "Invalid OTP or OTP not found"
          || message_is r "Invalid OTP or user not found" then NOT_FOUND
  else if message_is r "OTP has expired" then EXPIRED
  else if message_is r "Invalid OTP" then MISMATCH
  else OTHER.

(** *** Handlers as state transformers that may reply early *)

Inductive Step (A : Type) : Type :=
| Go (a : A)
| Reply (r : Response).
Arguments Go {A} a.
Arguments Reply {A} r.

Definition Route (A : Type) : Type := World -> Step A * World.

Definition ret {A} (a : A) : Route A := fun w => (Go a, w).

Definition bind {A B} (m : Route A) (k : A -> Route B) : Route B :=
  fun w =>
    match m w with
    | (Go a, w') => k a w'
    | (Reply r, w') => (Reply r, w')
    end.

(** [return res.status(..).json(..)] *)
Definition reply {A} (r : Response) : Route A := fun w => (Reply r, w).

Definition when (c : bool) (r : Response) : Route unit :=
  if c then reply r else ret tt.

(** The response and the world a handler ends with. *)
Definition run (h : Route Response) (w : World) : Response * World :=
  match h w with
  | (Go r, w') => (r, w')
  | (Reply r, w') => (r, w')
  end.

Declare Scope route_scope.
Delimit Scope route_scope with route.
Notation "x <- m ;; k" := (bind m (fun x => k))
  (at level 61, m at next level, right associativity) : route_scope.
Notation "m ;; k" := (bind m (fun _ => k))
  (at level 61, right associativity) : route_scope.
Local Open Scope route_scope.

(** *** The collections *)

(** [User.findOne(q)] *)
Definition User_findOne (q : UserQuery) : Route (option User) :=
  fun w => (Go (find (user_matches q) (users w)), w).

(** [user.save()]: the stored document with this [_id] is replaced (a
    collection holds one document per [_id]). *)
Definition save_user (u : User) (l : list User) : list User :=
  map (fun x => if (user_id x =? user_id u)%nat then u else x) l.

Definition User_save (u : User) : Route unit :=
  fun w => (Go tt, set_users (save_user u (users w)) w).

(** [OTP.findOne(q)] *)
Definition OTP_findOne (q : OtpQuery) : Route (option OtpDoc) :=
  fun w => (Go (find (otp_matches q) (otps w)), w).

(** [OTP.deleteMany(q)] *)
Definition OTP_deleteMany (q : OtpQuery) : Route unit :=
  fun w => (Go tt, set_otps (filter (fun r => negb (otp_matches q r)) (otps w)) w).

(** [OTP.create({ email, phone, code, purpose, expiresAt })] *)
Definition OTP_create (e p : option string) (c pu : string) (exp : Z) : Route unit :=
  fun w =>
    let r := {| otp_id := otp_seq w; otp_email := e; otp_phone := p; otp_code := c;
                otp_purpose := pu; otp_expiresAt := exp; verified := false |} in
    (Go tt, {| users := users w; otps := otps w ++ [r]; otp_seq := S (otp_seq w);
               mail := mail w |}).

(** [OTP.deleteOne({ _id })]: the first document with this [_id] goes. *)
Fixpoint delete_one (i : nat) (l : list OtpDoc) : list OtpDoc :=
  match l with
  | [] => []
  | r :: l' => if (otp_id r =? i)%nat then l' else r :: delete_one i l'
  end.

Definition OTP_deleteOne (i : nat) : Route unit :=
  fun w => (Go tt, set_otps (delete_one i (otps w)) w).

(** [otpRecord.save()] *)
Definition save_otp (r : OtpDoc) (l : list OtpDoc) : list OtpDoc :=
  map (fun x => if (otp_id x =? otp_id r)%nat then r else x) l.

Definition OTP_save (r : OtpDoc) : Route unit :=
  fun w => (Go tt, set_otps (save_otp r (otps w)) w).

(** What a request reads from outside the store: the environment, the clock
    ([Date.now()] or [new Date()], read once on every path), the code
    [generateOTP()] returns, and the relay's behaviour. *)
Record Ctx : Type := {
  env : Mail.Env;
  now : Z;
  generateOTP : string;
  smtp : Mail.Smtp
}.

Section Routes.

(** The collaborators of the routes: the runtime's [Number], the session
    token issuer ([utils/generateToken.js]) and the password hashing the user
    model applies when a changed password is saved. *)
Variable Number : string -> option Q.
Variable generateToken : nat -> string.
Variable hashPassword : string -> string.

(** [await sendOTPEmail(to, otp, purpose)] *)
Definition sendOTPEmail (c : Ctx) (to : option string) (otpCode : string) (label : string)
    : Route Mail.SendResult :=
  fun w =>
    let '(r, m) := Mail.sendOTPEmail Number (env c) (smtp c) to otpCode (Some label) (mail w) in
    (Go r, set_mail m w).

(** [...(process.env.NODE_ENV !== 'production' && { devOtp: otp })] *)
Definition devOtp (c : Ctx) : list (string * JVal) :=
  if negb (is_lit (Mail.NODE_ENV (env c)) "production")
  then [("devOtp", JStr (generateOTP c))] else [].

(** [new Date() > d] *)
Definition expired (c : Ctx) (d : Z) : bool := (d <? now c)%Z.

(** [Date.now() + 10 * 60 * 1000] *)
Definition ten_minutes_on (c : Ctx) : Z := (now c + 10 * 60 * 1000)%Z.

Definition by_email (e : option string) : UserQuery :=
  {| q_email := e; q_phone := None |}.

Definition by_phone (p : option string) : UserQuery :=
  {| q_email := None; q_phone := p |}.

(** POST /forgot-password *)
Definition forgot_password (c : Ctx) (reqEmail : option string) : Route Response :=
  when (negb (truthy reqEmail)) (fail 400 "Please provide email" []) ;;
  user <- User_findOne (by_email reqEmail) ;;
  match user with
  | None => reply (fail 404 "User not found with this email" [])
  | Some user =>
      let otpCode := generateOTP c in
      let user := with_otp (Some {| code := otpCode; expiresAt := ten_minutes_on c;
                                    purpose := "password_reset" |}) user in
      User_save user ;;
      emailResult <- sendOTPEmail c reqEmail otpCode "password reset" ;;
      if negb (Mail.success emailResult) then
        let authFail :=
          is_lit (Mail.code emailResult) "EAUTH"
          || test_auth_i (or_lit (Mail.error emailResult) "") in
        let baseMessage :=
          if authFail then "SMTP authentication failed."
          else or_lit (Mail.error emailResult) "Failed to send reset email." in
        reply (fail 500 baseMessage [("code", jopt (Mail.code emailResult))])
      else
        reply (ok "Password reset OTP has been sent to your email. It will expire in 10 minutes." [])
  end.

(** POST /reset-password *)
Definition reset_password (c : Ctx) (reqEmail reqOtp newPassword : option string)
    : Route Response :=
  when (negb (truthy reqEmail) || negb (truthy reqOtp) || negb (truthy newPassword))
    (fail 400 "Please provide email, OTP and new password" []) ;;
  user <- User_findOne (by_email reqEmail) ;;
  match user with
  | None => reply (fail 400 "Invalid OTP or user not found" [])
  | Some user =>
      match otp user with
      | None => reply (fail 400 "Invalid OTP or user not found" [])
      | Some slot =>
          when (negb (purpose slot =? "password_reset") || negb (is_lit reqOtp (code slot)))
            (fail 400 "Invalid OTP" []) ;;
          when (expired c (expiresAt slot)) (fail 400 "OTP has expired" []) ;;
          User_save (with_otp None (with_password (hashPassword (or_lit newPassword "")) user)) ;;
          reply (ok "Password has been reset successfully. You can now log in." [])
      end
  end.

Definition app_query (reqEmail reqPhone : option string) : OtpQuery :=
  {| oq_email := reqEmail; oq_phone := reqPhone; oq_purpose := Some "application";
     oq_verified := None |}.

(** The application branch of POST /send-otp. *)
Definition send_otp_application (c : Ctx) (reqEmail reqPhone : option string)
    : Route Response :=
  let otpCode := generateOTP c in
  let expiresAt := ten_minutes_on c in
  if truthy reqEmail then
    OTP_deleteMany (app_query reqEmail None) ;;
    OTP_create reqEmail None otpCode "application" expiresAt ;;
    emailResult <- sendOTPEmail c reqEmail otpCode "application" ;;
    if negb (Mail.success emailResult) then
      let errorMessage :=
        or_lit (Mail.error emailResult) "Failed to send OTP email."
        ++ (if truthy (Mail.hint emailResult)
            then " " ++ or_lit (Mail.hint emailResult) "" else "") in
      reply (fail 500 errorMessage
               (("smtpErrorCode", jopt (Mail.code emailResult))
                :: match Mail.config emailResult with
                   | Some v =>
                       [("smtpConfig",
                         JObj [("host", JStr (Mail.cv_host v));
                               ("port", JStr (Mail.cv_port v));
                               ("user", JStr (Mail.cv_user v))])]
                   | None => []
                   end
                ++ devOtp c))
    else
      reply (ok "OTP sent successfully to your email address. Please check your inbox."
               (("otpExpiresIn", JNum 600) :: devOtp c))
  else if truthy reqPhone then
    OTP_deleteMany (app_query None reqPhone) ;;
    OTP_create None reqPhone otpCode "application" expiresAt ;;
    reply (ok "OTP sent successfully" (("otpExpiresIn", JNum 600) :: devOtp c))
  else
    reply (fail 400 "Please provide email or phone for application OTP" []).

(** [user = await User.findOne(q); if (!user && purpose !== 'login') return 404] *)
Definition lookup_user (q : UserQuery) (reqPurpose : option string) : Route (option User) :=
  user <- User_findOne q ;;
  when (match user with None => negb (is_lit reqPurpose "login") | Some _ => false end)
    (fail 404 "User not found" []) ;;
  ret user.

(** POST /send-otp *)
Definition send_otp (c : Ctx) (reqEmail reqPhone reqPurpose : option string) : Route Response :=
  let otpCode := generateOTP c in
  let expiresAt := ten_minutes_on c in
  if is_lit reqPurpose "application" then send_otp_application c reqEmail reqPhone
  else
    user <- (if truthy reqEmail then lookup_user (by_email reqEmail) reqPurpose else ret None) ;;
    user <- (if truthy reqPhone && negb (truthy reqEmail)
             then lookup_user (by_phone reqPhone) reqPurpose else ret user) ;;
    match user with
    | Some u =>
        User_save (with_otp (Some {| code := otpCode; expiresAt := expiresAt;
                                     purpose := or_lit reqPurpose "verification" |}) u)
    | None => ret tt
    end ;;
    (if truthy reqEmail then
       emailResult <- sendOTPEmail c reqEmail otpCode (or_lit reqPurpose "verification") ;;
       when (negb (Mail.success emailResult))
         (fail 500 "Failed to send OTP email"
            [("error", jopt (Mail.error emailResult));
             ("code", jopt (Mail.code emailResult))])
     else ret tt) ;;
    reply (ok "OTP sent successfully" (("otpExpiresIn", JNum 600) :: devOtp c)).

(** [...(v && { k: v })] *)
Definition spread_if (k : string) (v : option string) : list (string * JVal) :=
  if truthy v then [(k, jopt v)] else [].

(** The application branch of POST /verify-otp. *)
Definition verify_otp_application (c : Ctx) (reqEmail reqPhone reqOtp : option string)
    : Route Response :=
  let base := {| oq_email := None; oq_phone := None; oq_purpose := Some "application";
                 oq_verified := Some false |} in
  query <- (if truthy reqEmail then
              ret {| oq_email := reqEmail; oq_phone := None;
                     oq_purpose := oq_purpose base; oq_verified := oq_verified base |}
            else if truthy reqPhone then
              ret {| oq_email := None; oq_phone := reqPhone;
                     oq_purpose := oq_purpose base; oq_verified := oq_verified base |}
            else reply (fail 400 "Please provide email or phone" [])) ;;
  otpRecord <- OTP_findOne query ;;
  match otpRecord with
  | None => reply (fail 400 "Invalid OTP or OTP not found" [])
  | Some otpRecord =>
      if expired c (otp_expiresAt otpRecord) then
        OTP_deleteOne (otp_id otpRecord) ;;
        reply (fail 400 "OTP has expired" [])
      else
        when (negb (is_lit reqOtp (otp_code otpRecord))) (fail 400 "Invalid OTP" []) ;;
        OTP_save (mark_verified otpRecord) ;;
        reply (ok "OTP verified successfully"
                 (spread_if "email" reqEmail ++ spread_if "phone" reqPhone))
  end.

(** The user-based branch of POST /verify-otp. *)
Definition verify_otp_user (c : Ctx) (reqEmail reqPhone reqOtp reqPurpose : option string)
    : Route Response :=
  let query := {| q_email := if truthy reqEmail then reqEmail else None;
                  q_phone := if truthy reqPhone then reqPhone else None |} in
  user <- User_findOne query ;;
  match user with
  | None => reply (fail 400 "Invalid OTP or OTP not found" [])
  | Some user =>
      match otp user with
      | None => reply (fail 400 "Invalid OTP or OTP not found" [])
      | Some slot =>
          when (expired c (expiresAt slot)) (fail 400 "OTP has expired" []) ;;
          when (negb (is_lit reqOtp (code slot))) (fail 400 "Invalid OTP" []) ;;
          let user :=
            with_verified
              (is_lit reqPurpose "email" || (is_lit reqPurpose "verification" && truthy reqEmail))
              (is_lit reqPurpose "phone" || (is_lit reqPurpose "verification" && truthy reqPhone))
              user in
          let user := with_otp None user in
          User_save user ;;
          reply (ok "OTP verified successfully"
                   [("token", JStr (generateToken (user_id user)));
                    ("user",
                     JObj [("id", JNum (Z.of_nat (user_id user)));
                           ("name", JStr (name user));
                           ("email", JStr (email user));
                           ("phone", JStr (phone user));
                           ("isVerified",
                            JObj [("email", JBool (isVerified_email user));
                                  ("phone", JBool (isVerified_phone user))])])])
      end
  end.

(** POST /verify-otp *)
Definition verify_otp (c : Ctx) (reqEmail reqPhone reqOtp reqPurpose : option string) : Route Response :=
  when (negb (truthy reqOtp) || (negb (truthy reqEmail) && negb (truthy reqPhone)))
    (fail 400 "Please provide OTP and email or phone" []) ;;
  if is_lit reqPurpose "application" then verify_otp_application c reqEmail reqPhone reqOtp
  else verify_otp_user c reqEmail reqPhone reqOtp reqPurpose.

(** The success response of the user-based [verify-otp]. *)
Definition verified_reply (user : User) : Response :=
  ok "OTP verified successfully"
    [("token", JStr (generateToken (user_id user)));
     ("user",
      JObj [("id", JNum (Z.of_nat (user_id user)));
            ("name", JStr (name user));
            ("email", JStr (email user));
            ("phone", JStr (phone user));
            ("isVerified",
             JObj [("email", JBool (isVerified_email user));
                   ("phone", JBool (isVerified_phone user))])])].

(** The user [verify-otp] saves on success. *)
Definition verified_user (reqEmail reqPhone reqPurpose : option string) (u : User) : User :=
  with_otp None
    (with_verified
       (is_lit reqPurpose "email" || (is_lit reqPurpose "verification" && truthy reqEmail))
       (is_lit reqPurpose "phone" || (is_lit reqPurpose "verification" && truthy reqPhone))
       u).

(** *** Requests and reachable stores *)

Inductive Request : Type :=
| ForgotPassword (reqEmail : option string)
| ResetPassword (reqEmail reqOtp newPassword : option string)
| SendOtp (reqEmail reqPhone reqPurpose : option string)
| VerifyOtp (reqEmail reqPhone reqOtp reqPurpose : option string).

Definition handle (c : Ctx) (rq : Request) : Route Response :=
  match rq with
  | ForgotPassword e => forgot_password c e
  | ResetPassword e o n => reset_password c e o n
  | SendOtp e p pu => send_otp c e p pu
  | VerifyOtp e p o pu => verify_otp c e p o pu
  end.

(** The stores the four routes reach, one request after the other, from any
    set of users and an empty OTP collection. *)
Inductive reachable : World -> Prop :=
| reach_start (us : list User) :
    reachable {| users := us; otps := []; otp_seq := 0; mail := Mail.initial |}
| reach_request (w : World) (c : Ctx) (rq : Request) :
    reachable w -> reachable (snd (run (handle c rq) w)).

End Routes.

(** *** Subjects and the shape of the OTP collection *)

(** The subject of an OTP request: its email when it has one, else its phone. *)
Inductive Subject : Type :=
| ByEmail (e : string)
| ByPhone (p : string).

Definition subject_of (reqEmail reqPhone : option string) : option Subject :=
  if truthy reqEmail then option_map ByEmail reqEmail
  else if truthy reqPhone then option_map ByPhone reqPhone
  else None.

(** The application records of a subject. *)
Definition subject_query (s : Subject) : OtpQuery :=
  match s with
  | ByEmail e => app_query (Some e) None
  | ByPhone p => app_query None (Some p)
  end.

(** The user a user-based OTP request is about. *)
Definition user_query_of (reqEmail reqPhone : option string) : UserQuery :=
  if truthy reqEmail then by_email reqEmail else by_phone reqPhone.

(** The filter [verify-otp] builds for the OTP collection. *)
Definition verify_query (reqEmail reqPhone : option string) : OtpQuery :=
  if truthy reqEmail then
    {| oq_email := reqEmail; oq_phone := None; oq_purpose := Some "application";
       oq_verified := Some false |}
  else
    {| oq_email := None; oq_phone := reqPhone; oq_purpose := Some "application";
       oq_verified := Some false |}.

(** The filter [verify-otp] builds for the users. *)
Definition verify_user_query (reqEmail reqPhone : option string) : UserQuery :=
  {| q_email := if truthy reqEmail then reqEmail else None;
     q_phone := if truthy reqPhone then reqPhone else None |}.

(** The code and the expiry of the OTP a [verify-otp] request looks up. *)
Definition pending (reqEmail reqPhone reqPurpose : option string) (w : World)
    : option (string * Z) :=
  if is_lit reqPurpose "application" then
    option_map (fun d => (otp_code d, otp_expiresAt d))
      (find (otp_matches (verify_query reqEmail reqPhone)) (otps w))
  else
    match find (user_matches (verify_user_query reqEmail reqPhone)) (users w) with
    | Some u => option_map (fun s => (code s, expiresAt s)) (otp u)
    | None => None
    end.

(** The slot an Issue writes into a user. *)
Definition issued_slot (c : Ctx) (pu : string) : OtpSlot :=
  {| code := generateOTP c; expiresAt := (now c + 600000)%Z; purpose := pu |}.

(** The record an Issue adds to the OTP collection under the [_id] [i]. *)
Definition issued_doc (c : Ctx) (i : nat) (s : Subject) : OtpDoc :=
  {| otp_id := i;
     otp_email := match s with ByEmail e => Some e | ByPhone _ => None end;
     otp_phone := match s with ByEmail _ => None | ByPhone p => Some p end;
     otp_code := generateOTP c; otp_purpose := "application";
     otp_expiresAt := (now c + 600000)%Z; verified := false |}.

(** Unconsumed and unexpired at time [t]. *)
Definition active (t : Z) (r : OtpDoc) : bool :=
  negb (verified r) && negb (otp_expiresAt r <? t)%Z.

Definition same_subject (r1 r2 : OtpDoc) : Prop :=
  (exists e, otp_email r1 = Some e /\ otp_email r2 = Some e)
  \/ (exists p, otp_phone r1 = Some p /\ otp_phone r2 = Some p).

(** No two application records share a subject. *)
Definition one_per_subject (l : list OtpDoc) : Prop :=
  forall r1 r2,
    In r1 l -> In r2 l ->
    otp_purpose r1 = "application" -> otp_purpose r2 = "application" ->
    same_subject r1 r2 -> otp_id r1 = otp_id r2.

(** The shape [OTP.create] and [OTP.deleteMany] maintain: identifiers are
    distinct and below the next one, and subjects are not shared. *)
Definition wf (w : World) : Prop :=
  NoDup (map otp_id (otps w))
  /\ (forall r, In r (otps w) -> (otp_id r < otp_seq w)%nat)
  /\ one_per_subject (otps w).

(** Every record of [l'] agrees with a record of [l] on what [wf] reads. *)
Definition drawn_from (l' l : list OtpDoc) : Prop :=
  forall x', In x' l' ->
    exists x, In x l
      /\ otp_id x' = otp_id x /\ otp_email x' = otp_email x
      /\ otp_phone x' = otp_phone x /\ otp_purpose x' = otp_purpose x.

End Auth.

(** ** Sample data for the concrete runs *)
Module Samples.
Import Js Mail Auth.

(** An instance of [Number] for the concrete runs: it reads a string
    of decimal digits and is NaN on anything else. *)
Definition digit_of (c : ascii) : option Z :=
  let n := Z.of_N (N_of_ascii c) in
  if ((48 <=? n) && (n <=? 57))%Z then Some (n - 48)%Z else None.

Fixpoint digits_value (acc : Z) (s : string) : option Z :=
  match s with
  | EmptyString => Some acc
  | String c r =>
      match digit_of c with
      | Some d => digits_value (10 * acc + d)%Z r
      | None => None
      end
  end.

Definition Number_of_digits (s : string) : option Q :=
  option_map inject_Z (digits_value 0 s).

(** A relay that accepts every message. *)
Definition relay_accepts : Smtp := fun _ _ => Sent "<1@relay>".

(** A valid configuration, with its credential as a parameter. *)
Definition env_with_pass (pass : string) : Env :=
  {| EMAIL_HOST := Some "smtp.example.com"; EMAIL_PORT := Some "587";
     EMAIL_USER := Some "bot@example.com"; EMAIL_PASS := Some pass;
     EMAIL_FROM := None; NODE_ENV := Some "production"; SMTP_DEBUG := None |}.

Definition sample_ctx (t : Z) (generated : string) : Ctx :=
  {| env := env_with_pass "secret"; now := t; generateOTP := generated;
     smtp := relay_accepts |}.

Definition sample_token (i : nat) : string := "token".

Definition no_hash (s : string) : string := s.

Definition empty_world : World :=
  {| users := []; otps := []; otp_seq := 0; mail := Mail.initial |}.

Definition alice : User :=
  {| user_id := 1; name := "Alice"; email := "a@x.com"; phone := "5550100";
     password := "old-hash"; otp := None; isVerified_email := false;
     isVerified_phone := false; isActive := true; role := "user" |}.

(** Alice after a [forgot-password] at time 1000 that generated 123456. *)
Definition alice_resetting : World :=
  snd (run (forgot_password Number_of_digits (sample_ctx 1000 "123456")
              (Some "a@x.com"))
         {| users := [alice]; otps := []; otp_seq := 0; mail := Mail.initial |}).

(** A relay that cannot be reached. *)
Definition relay_times_out : Smtp :=
  fun _ _ => Rejected "Connection timeout" (Some "ETIMEDOUT").

End Samples.

(** ** What a regular expression denotes *)
Module Regex.
Import Js.

(** The strings a regular expression matches as a whole. *)
Inductive lang : re -> string -> Prop :=
| lang_eps : lang Eps EmptyString
| lang_cls (p : ascii -> bool) (c : ascii) :
    p c = true -> lang (Cls p) (String c EmptyString)
| lang_cat (r1 r2 : re) (s1 s2 : string) :
    lang r1 s1 -> lang r2 s2 -> lang (Cat r1 r2) (s1 ++ s2)
| lang_alt_l (r1 r2 : re) (s : string) : lang r1 s -> lang (Alt r1 r2) s
| lang_alt_r (r1 r2 : re) (s : string) : lang r2 s -> lang (Alt r1 r2) s
| lang_star_nil (r : re) : lang (Star r) EmptyString
| lang_star_cons (r : re) (s1 s2 : string) :
    lang r s1 -> lang (Star r) s2 -> lang (Star r) (s1 ++ s2).

(** Every character of [s] satisfies [p]. *)
Fixpoint all_chars (p : ascii -> bool) (s : string) : bool :=
  match s with
  | EmptyString => true
  | String c r => p c && all_chars p r
  end.

(** The shape [local@domain.tld]: three non-empty parts with no white space
    and no [@] in them (the domain and the last part may contain dots). *)
Definition email_shape (s : string) : Prop :=
  exists a b c,
    s = a ++ "@" ++ b ++ "." ++ c
    /\ a <> "" /\ b <> "" /\ c <> ""
    /\ all_chars not_space_at a = true
    /\ all_chars not_space_at b = true
    /\ all_chars not_space_at c = true.

(** No character of [s] is an underscore. *)
Definition no_underscore (s : string) : Prop :=
  all_chars (fun c => negb (Ascii.eqb c "_")) s = true.

End Regex.

(** ** The connection check ([verifySMTPConnection]) and the route that
    uses it ([GET /api/test-smtp] of [server.js]) *)
Module Diagnostics.
Import Js Mail.

(** What [trans.verify()] answers: nothing, or an error with its [message]
    and [code]. *)
Definition Verifier : Type := Transporter -> option (string * option string).

(** The object [verifySMTPConnection] returns. *)
Record VerifyResult : Type := {
  v_success : bool;
  v_error : option string;
  v_code : option string;
  v_originalError : option string;
  v_details : option string
}.

(** [`${v}`] for a variable of the environment that may be unset. *)
Definition interpolate (v : option string) : string :=
  match v with
  | Some s => s
  | None => "undefined"
  end.

Section Runtime.

Variable Number : string -> option Q.

Definition verifySMTPConnection (env : Env) (verify : Verifier) (st : State)
    : VerifyResult * State :=
  let '(trans, st1) := getTransporter Number env st in
  match trans with
  | None =>
      ({| v_success := false;
          v_error := Some "SMTP configuration is invalid. Please check environment variables in .env file.";
          v_code := None;
          v_originalError := None;
          v_details := Some "Make sure EMAIL_HOST, EMAIL_PORT, EMAIL_USER, and EMAIL_PASS are set in Server/.env" |},
       st1)
  | Some t =>
      match verify t with
      | None =>
          ({| v_success := true; v_error := None; v_code := None;
              v_originalError := None; v_details := None |}, st1)
      | Some (message, c) =>
          let helpfulMessage :=
            if code_is c "ESOCKET" || code_is c "ECONNREFUSED" then
              let h := or_lit (EMAIL_HOST env) "NOT SET" in
              if (h =? "NOT SET") || (trim h =? "") || is_loopback h then
                "EMAIL_HOST is not configured or set to localhost. Please set EMAIL_HOST to your SMTP server (e.g., smtp.gmail.com)."
              else
                "Cannot connect to " ++ h ++ ":" ++ interpolate (EMAIL_PORT env)
                ++ ". Check your network and firewall settings."
            else if code_is c "EAUTH" then
              "SMTP authentication failed. For Gmail, use an App Password instead of your regular password."
            else message in
          ({| v_success := false;
              v_error := Some helpfulMessage;
              v_code := c;
              v_originalError := Some message;
              v_details := Some "Please check your EMAIL_HOST, EMAIL_PORT, EMAIL_USER, and EMAIL_PASS in Server/.env file" |},
           st1)
      end
  end.

(** What [GET /api/test-smtp] puts in its reply: the diagnosis, the result of
    the connection check, and the result of the test email when the query
    names a [testEmail]. *)
Record SmtpReport : Type := {
  configValid : bool;
  envPath : string;
  emailHost : string;
  emailPort : string;
  emailUser : string;
  emailPass : string;
  verification : VerifyResult;
  testEmail : option SendResult
}.

Definition test_smtp (env : Env) (verify : Verifier) (relay : Smtp)
    (queryTestEmail : option string) (st : State) : SmtpReport * State :=
  let diagnosis := diagnoseSMTPConfig env in
  let '(v, st1) := verifySMTPConnection env verify st in
  let '(testResult, st2) :=
    if truthy queryTestEmail then
      let '(r, st') := sendOTPEmail Number env relay queryTestEmail "123456" (Some "test") st1 in
      (Some r, st')
    else (None, st1) in
  ({| configValid := diagnosis;
      envPath := if truthy (EMAIL_HOST env) then "SET" else "NOT SET";
      emailHost := or_lit (EMAIL_HOST env) "NOT SET";
      emailPort := or_lit (EMAIL_PORT env) "NOT SET";
      emailUser := if truthy (EMAIL_USER env)
                   then substring0 3 (or_lit (EMAIL_USER env) "") ++ "***"
                   else "NOT SET";
      emailPass := if truthy (EMAIL_PASS env) then "SET" else "NOT SET";
      verification := v;
      testEmail := testResult |}, st2).

End Runtime.
End Diagnostics.

(** ** What the OTP routes may change in a user *)
Module Frames.
Import Js Auth.

(** [u'] is [u] with, at most, another slot, another password and flags
    raised. *)
Definition same_identity (u u' : User) : Prop :=
  user_id u' = user_id u
  /\ name u' = name u
  /\ email u' = email u
  /\ phone u' = phone u
  /\ isActive u' = isActive u
  /\ role u' = role u
  /\ (isVerified_email u = true -> isVerified_email u' = true)
  /\ (isVerified_phone u = true -> isVerified_phone u' = true).

(** The request is a [reset-password]. *)
Definition resets (rq : Request) : bool :=
  match rq with
  | ResetPassword _ _ _ => true
  | _ => false
  end.

(** The request takes the application branch of its route. *)
Definition is_application (rq : Request) : bool :=
  match rq with
  | SendOtp _ _ pu => is_lit pu "application"
  | VerifyOtp _ _ _ pu => is_lit pu "application"
  | _ => false
  end.

(** What is stored of a user besides slot, password and flags. *)
Definition identity (u : User) : nat * string * string * string * bool * string :=
  (user_id u, name u, email u, phone u, isActive u, role u).

End Frames.

(** ** The account routes ([register], [login], [firebase-login] of
    [routes/auth.routes.js]) *)
Module Accounts.
Import Js Auth.
Local Open Scope route_scope.

(** [s.split('@')[0]] *)
Fixpoint before_at (s : string) : string :=
  match s with
  | EmptyString => EmptyString
  | String c r => if Ascii.eqb c "@" then EmptyString else String c (before_at r)
  end.

(** The [_id] a new user gets: one that no stored user has. *)
Definition fresh_user_id (l : list User) : nat := S (list_max (map user_id l)).

(** The filter [{ $or: [{ email }, { phone }] }]. *)
Definition email_or_phone (e p : option string) (u : User) : bool :=
  is_lit e (email u) || is_lit p (phone u).

(** The [user] object of a reply. *)
Definition user_view (u : User) : JVal :=
  JObj [("id", JNum (Z.of_nat (user_id u)));
        ("name", JStr (name u));
        ("email", JStr (email u));
        ("phone", JStr (phone u));
        ("role", JStr (role u))].

Section Routes.

(** The collaborators: the token issuer, the hashing the user model applies
    to a password it saves and its [comparePassword], and the defaults of
    the user schema ([models/User.model.js]) for the fields a creation does
    not give. *)
Variable generateToken : nat -> string.
Variable hashPassword : string -> string.
Variable comparePassword : string -> string -> bool.
Variable defaultRole : string.
Variable defaultActive : bool.
Variable defaultVerified : bool * bool.

(** What [User.create] raises, if anything, for a new document with this
    name, email, phone and password over the stored users (the validation and
    the unique indexes of the schema): the message of the error. *)
Variable createError : list User -> string -> string -> string -> string -> option string.

(** [User.create({ name, email, phone, password, isVerified })]; an error it
    raises reaches the [catch] of the route, which replies
    [res.status(500).json({ success: false, message: error.message || 'Server error' })]. *)
Definition User_create (n e p pw : string) (v : bool * bool) : Route User :=
  fun w =>
    match createError (users w) n e p pw with
    | Some message => (Reply (fail 500 (or_lit (Some message) "Server error") []), w)
    | None =>
        let u := {| user_id := fresh_user_id (users w); name := n; email := e; phone := p;
                    password := hashPassword pw; otp := None;
                    isVerified_email := fst v; isVerified_phone := snd v;
                    isActive := defaultActive; role := defaultRole |} in
        (Go u, set_users (users w ++ [u]) w)
    end.

(** POST /register *)
Definition register (reqName reqEmail reqPhone reqPassword : option string)
    : Route Response :=
  when (negb (truthy reqName) || negb (truthy reqEmail) || negb (truthy reqPhone)
        || negb (truthy reqPassword))
    (fail 400 "Please provide all required fields" []) ;;
  userExists <- (fun w => (Go (find (email_or_phone reqEmail reqPhone) (users w)), w)) ;;
  match userExists with
  | Some _ => reply (fail 400 "User already exists with this email or phone" [])
  | None =>
      newUser <- User_create (or_lit reqName "") (or_lit reqEmail "")
                   (or_lit reqPhone "") (or_lit reqPassword "") defaultVerified ;;
      let token := generateToken (user_id newUser) in
      reply {| status := 201;
               body := [("success", JBool true);
                        ("message", JStr "User registered successfully");
                        ("token", JStr token);
                        ("user", user_view newUser)] |}
  end.

(** The success reply of [login] and [firebase-login]. *)
Definition logged_in (u : User) : Response :=
  ok "Login successful"
    [("token", JStr (generateToken (user_id u))); ("user", user_view u)].

(** POST /login *)
Definition login (reqEmail reqPassword : option string) : Route Response :=
  when (negb (truthy reqEmail) || negb (truthy reqPassword))
    (fail 400 "Please provide email and password" []) ;;
  user <- User_findOne (by_email reqEmail) ;;
  match user with
  | None => reply (fail 401 "Invalid credentials" [])
  | Some user =>
      when (negb (comparePassword (password user) (or_lit reqPassword "")))
        (fail 401 "Invalid credentials" []) ;;
      when (negb (isActive user)) (fail 401 "Account is deactivated" []) ;;
      reply (logged_in user)
  end.

(** POST /firebase-login *)
Definition firebase_login (idToken reqEmail reqName : option string) : Route Response :=
  when (negb (truthy idToken) || negb (truthy reqEmail))
    (fail 400 "Please provide Firebase ID token and email" []) ;;
  found <- User_findOne (by_email reqEmail) ;;
  user <- match found with
          | Some u => ret u
          | None =>
              User_create
                (if truthy reqName then or_lit reqName ""
                 else before_at (or_lit reqEmail ""))
                (or_lit reqEmail "") "" "" (true, false)
          end ;;
  when (negb (isActive user)) (fail 401 "Account is deactivated" []) ;;
  reply (logged_in user).

(** The user [register] creates. *)
Definition registered (n e p pw : option string) (w : World) : User :=
  {| user_id := fresh_user_id (users w); name := or_lit n ""; email := or_lit e "";
     phone := or_lit p ""; password := hashPassword (or_lit pw ""); otp := None;
     isVerified_email := fst defaultVerified; isVerified_phone := snd defaultVerified;
     isActive := defaultActive; role := defaultRole |}.

End Routes.

(** Emails, phones and identifiers are pairwise distinct. *)
Definition distinct_accounts (l : list User) : Prop :=
  NoDup (map user_id l) /\ NoDup (map email l) /\ NoDup (map phone l).

End Accounts.

(** ** Cross-origin requests ([server.js]) *)
Module Server.
Import Js.

(** [array.includes(v)] for an array of strings. *)
Definition list_includes (l : list string) (v : option string) : bool :=
  existsb (fun s => is_lit v s) l.

(** [allowedOrigins]: the three fixed origins and [process.env.FRONTEND_URL],
    with [.filter(Boolean)]. *)
Definition allowedOrigins (frontendUrl : option string) : list string :=
  flat_map (fun v => match v with
                     | Some s => if s =? "" then [] else [s]
                     | None => []
                     end)
    [Some "http://localhost:5173"; Some "http://localhost:3000";
     Some "https://before-salary-frontend.onrender.com"; frontendUrl].

(** The [origin] function given to [cors]: the second argument it passes to
    its callback (the first is always [null]). *)
Definition cors_origin (nodeEnv frontendUrl origin : option string) : bool :=
  if negb (truthy origin) then true
  else if negb (is_lit nodeEnv "production") then true
  else if list_includes (allowedOrigins frontendUrl) origin
          || includes "localhost" (or_lit origin "")
  then true
  else true.

(** The middleware that adds the CORS headers by hand: the value it gives
    [Access-Control-Allow-Origin], if it sets that header, and whether it
    answers the request itself (an OPTIONS request) instead of passing it
    on. *)
Definition cors_headers (frontendUrl origin : option string) (method : string)
    : option string * bool :=
  (if list_includes (allowedOrigins frontendUrl) origin
      || negb (truthy origin)
      || includes "localhost" (or_lit origin "")
   then Some (or_lit origin "*")
   else None,
   method =? "OPTIONS").

End Server.

(** ** More sample data *)
Module MoreSamples.
Import Js Mail Auth Samples.

(** A schema that accepts every new document. *)
Definition accepts_all (stored : list User) (n e p pw : string) : option string := None.

(** A [comparePassword] for passwords stored as they are. *)
Definition plain_compare (stored candidate : string) : bool := stored =? candidate.

(** The store with Alice alone, no code pending. *)
Definition alice_alone : World :=
  {| users := [alice]; otps := []; otp_seq := 0; mail := Mail.initial |}.

(** A context whose relay times out. *)
Definition failing_ctx (t : Z) (generated : string) : Ctx :=
  {| env := env_with_pass "secret"; now := t; generateOTP := generated;
     smtp := relay_times_out |}.

End MoreSamples.

(** * Properties of the mail transport adapter *)
Module MailFacts.
Import Js Mail Samples.

Example email_shape_accepts : matches email_re "a@x.com" = true.
Proof. reflexivity. Qed.

Example email_shape_rejects :
  matches email_re "not-an-email" = false
  /\ matches email_re "a b@x.com" = false
  /\ matches email_re "a@b@x.com" = false
  /\ matches email_re "a@x." = false.
Proof. repeat split; reflexivity. Qed.

Lemma or_lit_empty (s : string) : or_lit (Some s) "" = s.
Proof.
  unfold or_lit. destruct (String.eqb_spec s ""); congruence.
Qed.

(** The fingerprint reads the host, the port and the user, never the
    credential. *)
Lemma getConfigHash_three_inputs (e1 e2 : Env) :
  EMAIL_HOST e1 = EMAIL_HOST e2 ->
  EMAIL_PORT e1 = EMAIL_PORT e2 ->
  EMAIL_USER e1 = EMAIL_USER e2 ->
  getConfigHash e1 = getConfigHash e2.
Proof.
  intros Hh Hp Hu. unfold getConfigHash. now rewrite Hh, Hp, Hu.
Qed.

(** A client whose fingerprint is the current one is returned as it is. *)
Lemma getTransporter_reuses (Number : string -> option Q) (env : Env) (st : State) :
  transporterInitialized st = true ->
  lastConfigHash st = Some (getConfigHash env) ->
  getTransporter Number env st = (transporter st, st).
Proof.
  intros Hi Hl. unfold getTransporter, hash_differs.
  rewrite Hi, Hl, String.eqb_refl. reflexivity.
Qed.

(** A first call, or a fingerprint that differs, runs [createTransporter]
    and stores its result with the new fingerprint. *)
Lemma getTransporter_rebuilds (Number : string -> option Q) (env : Env) (st : State) :
  transporterInitialized st = false
  \/ lastConfigHash st <> Some (getConfigHash env) ->
  let t := option_map (fun c => {| serial := built st; options := c |})
             (createTransporter Number env) in
  fst (getTransporter Number env st) = t
  /\ transporter (snd (getTransporter Number env st)) = t
  /\ lastConfigHash (snd (getTransporter Number env st)) = Some (getConfigHash env)
  /\ transporterInitialized (snd (getTransporter Number env st)) = true.
Proof.
  intros H t. unfold getTransporter.
  assert (G : negb (transporterInitialized st)
              || hash_differs (lastConfigHash st) (getConfigHash env) = true).
  { destruct H as [H | H].
    - now rewrite H.
    - apply orb_true_iff. right. unfold hash_differs.
      destruct (lastConfigHash st) as [h |]; [| reflexivity].
      destruct (String.eqb_spec h (getConfigHash env)); [congruence | reflexivity]. }
  rewrite G. cbn. repeat split; reflexivity.
Qed.

(** C6, at the failing input: a client is built under the credential
    [old-secret]; the credential alone is then changed to [new-secret]. The
    next [getTransporter] builds nothing and returns the cached client, which
    still carries [old-secret], and the next [sendEmail] hands the message to
    that client, although [createTransporter] on the new configuration
    would carry [new-secret]. *)
Theorem getTransporter_keeps_client_on_credential_change :
  let env1 := env_with_pass "old-secret" in
  let env2 := env_with_pass "new-secret" in
  let first := getTransporter Number_of_digits env1 initial in
  let second := getTransporter Number_of_digits env2 (snd first) in
  let sent := sendEmail Number_of_digits env2 relay_accepts (Some "a@x.com")
                (Some "hello") None (Some "text") (snd first) in
  built (snd first) = 1%nat
  /\ fst second = fst first
  /\ built (snd second) = 1%nat
  /\ option_map (fun t => auth_pass (options t)) (fst second) = Some (Some "old-secret")
  /\ option_map auth_pass (createTransporter Number_of_digits env2) = Some (Some "new-secret")
  /\ map (fun a => auth_pass (options (fst a))) (outbox (snd sent)) = [Some "old-secret"].
Proof.
  cbv zeta. repeat split; vm_compute; reflexivity.
Qed.

(** C8: a recipient that does not match the email shape gets the
    [EINVALID] failure, and the adapter's state is left as it was: no client
    is looked up or built and [sendMail] is not called. *)
Theorem sendOTPEmail_rejects_malformed_address
    (Number : string -> option Q) (env : Env) (relay : Smtp) (to otp : string)
    (purpose : option string) (st : State) :
  matches email_re to = false ->
  let '(r, st') := sendOTPEmail Number env relay (Some to) otp purpose st in
  success r = false
  /\ code r = Some "EINVALID"
  /\ error r = Some "Invalid email address format"
  /\ outbox st' = outbox st
  /\ st' = st.
Proof.
  intros Hshape. unfold sendOTPEmail.
  rewrite or_lit_empty, Hshape, orb_true_r.
  cbn. repeat split; reflexivity.
Qed.

Lemma sendOTPEmail_rejects_malformed_address_witness :
  matches email_re "not-an-email" = false
  /\ let '(r, st') := sendOTPEmail Number_of_digits (env_with_pass "secret")
                       relay_accepts (Some "not-an-email") "123456"
                       (Some "login") initial in
     success r = false
     /\ code r = Some "EINVALID"
     /\ error r = Some "Invalid email address format"
     /\ outbox st' = outbox initial
     /\ st' = initial.
Proof.
  split.
  - reflexivity.
  - apply (sendOTPEmail_rejects_malformed_address Number_of_digits
             (env_with_pass "secret") relay_accepts "not-an-email" "123456"
             (Some "login") initial).
    reflexivity.
Defined.

(** An absent or empty recipient is refused in the same way. *)
Lemma sendOTPEmail_rejects_missing_address
    (Number : string -> option Q) (env : Env) (relay : Smtp) (to : option string)
    (otp : string) (purpose : option string) (st : State) :
  truthy to = false ->
  sendOTPEmail Number env relay to otp purpose st
  = (failure "Invalid email address format" "EINVALID", st).
Proof.
  intros H. unfold sendOTPEmail. rewrite H. reflexivity.
Qed.

(** A well-formed recipient reaches [sendEmail]. *)
Lemma sendOTPEmail_forwards (Number : string -> option Q) (env : Env) (relay : Smtp)
    (to otp purpose : string) (st : State) :
  to <> "" ->
  matches email_re to = true ->
  sendOTPEmail Number env relay (Some to) otp (Some purpose) st
  = sendEmail Number env relay (Some to) (Some ("Your OTP for " ++ purpose))
      (Some (otp_html otp purpose)) (Some (otp_text otp purpose)) st.
Proof.
  intros Hne Hshape. unfold sendOTPEmail.
  rewrite or_lit_empty, Hshape. cbn.
  destruct (String.eqb_spec to ""); [contradiction | reflexivity].
Qed.

(** The cached client is kept exactly as long as the fingerprint of host,
    port and user is the one it was built under; a first call or a changed
    fingerprint runs [createTransporter] and records the new fingerprint. *)
Theorem client_memoized_by_fingerprint
    (Number : string -> option Q) (env : Env) (st : State) :
  transporterInitialized st = true ->
  (lastConfigHash st = Some (getConfigHash env) ->
   getTransporter Number env st = (transporter st, st))
  /\ (lastConfigHash st <> Some (getConfigHash env) ->
      fst (getTransporter Number env st)
      = option_map (fun c => {| serial := built st; options := c |})
          (createTransporter Number env)
      /\ lastConfigHash (snd (getTransporter Number env st)) = Some (getConfigHash env)).
Proof.
  intros Hi. split.
  - intros Hl. apply getTransporter_reuses; assumption.
  - intros Hl.
    destruct (getTransporter_rebuilds Number env st (or_intror Hl)) as (A & _ & B & _).
    split; assumption.
Qed.

Lemma client_memoized_by_fingerprint_witness :
  let st := snd (getTransporter Number_of_digits (env_with_pass "secret") initial) in
  transporterInitialized st = true
  /\ getTransporter Number_of_digits (env_with_pass "secret") st = (transporter st, st).
Proof.
  cbv zeta. split; [reflexivity |].
  apply (client_memoized_by_fingerprint Number_of_digits (env_with_pass "secret")
           (snd (getTransporter Number_of_digits (env_with_pass "secret") initial))
           eq_refl).
  reflexivity.
Defined.

End MailFacts.

(** * Properties of the OTP routes *)
Module AuthFacts.
Import Js Auth Samples.
Local Open Scope route_scope.

(** ** Small facts on values *)

Lemma is_lit_true (v : option string) (l : string) :
  is_lit v l = true <-> v = Some l.
Proof.
  unfold is_lit. destruct v as [s |].
  - destruct (String.eqb_spec s l); split; congruence.
  - split; discriminate.
Qed.

Lemma truthy_some (v : option string) :
  truthy v = true -> exists s, v = Some s /\ s <> "".
Proof.
  unfold truthy. destruct v as [s |]; [| discriminate].
  destruct (String.eqb_spec s ""); [discriminate |]. intros _. now exists s.
Qed.

Lemma truthy_lit (s : string) : s <> "" -> truthy (Some s) = true.
Proof.
  intros H. unfold truthy. destruct (String.eqb_spec s ""); [contradiction | reflexivity].
Qed.

Lemma is_lit_self (s : string) : is_lit (Some s) s = true.
Proof. apply is_lit_true. reflexivity. Qed.

(** ** The handlers in explicit state-passing form *)

Ltac unroute :=
  unfold run, bind, when, reply, ret, User_findOne, User_save, OTP_findOne,
    OTP_deleteMany, OTP_create, OTP_deleteOne, OTP_save; cbn beta iota.

Section Explicit.

Variable Number : string -> option Q.
Variable generateToken : nat -> string.
Variable hashPassword : string -> string.

Lemma run_verify_otp_guard c e p o pu w :
  negb (truthy o) || (negb (truthy e) && negb (truthy p)) = true ->
  run (verify_otp generateToken c e p o pu) w
  = (fail 400 "Please provide OTP and email or phone" [], w).
Proof.
  intros G. unfold verify_otp. unroute. rewrite G. reflexivity.
Qed.

Lemma run_verify_otp_application c e p o pu w :
  negb (truthy o) || (negb (truthy e) && negb (truthy p)) = false ->
  is_lit pu "application" = true ->
  run (verify_otp generateToken c e p o pu) w
  = match find (otp_matches (verify_query e p)) (otps w) with
    | None => (fail 400 "Invalid OTP or OTP not found" [], w)
    | Some r =>
        if expired c (otp_expiresAt r) then
          (fail 400 "OTP has expired" [], set_otps (delete_one (otp_id r) (otps w)) w)
        else if is_lit o (otp_code r) then
          (ok "OTP verified successfully" (spread_if "email" e ++ spread_if "phone" p),
           set_otps (save_otp (mark_verified r) (otps w)) w)
        else (fail 400 "Invalid OTP" [], w)
    end.
Proof.
  intros G A. unfold verify_otp, verify_otp_application, verify_query. unroute.
  rewrite G, A. cbn beta iota.
  apply orb_false_iff in G. destruct G as [_ G].
  destruct (truthy e) eqn:He.
  - cbn. destruct (find _ (otps w)) as [r |]; [| reflexivity].
    destruct (expired c (otp_expiresAt r)); [reflexivity |].
    destruct (is_lit o (otp_code r)); reflexivity.
  - destruct (truthy p) eqn:Hp; [| discriminate G].
    cbn. destruct (find _ (otps w)) as [r |]; [| reflexivity].
    destruct (expired c (otp_expiresAt r)); [reflexivity |].
    destruct (is_lit o (otp_code r)); reflexivity.
Qed.

Lemma run_verify_otp_user c e p o pu w :
  negb (truthy o) || (negb (truthy e) && negb (truthy p)) = false ->
  is_lit pu "application" = false ->
  run (verify_otp generateToken c e p o pu) w
  = match find (user_matches (verify_user_query e p)) (users w) with
    | None => (fail 400 "Invalid OTP or OTP not found" [], w)
    | Some u =>
        match otp u with
        | None => (fail 400 "Invalid OTP or OTP not found" [], w)
        | Some slot =>
            if expired c (expiresAt slot) then (fail 400 "OTP has expired" [], w)
            else if is_lit o (code slot) then
              (verified_reply generateToken (verified_user e p pu u),
               set_users (save_user (verified_user e p pu u) (users w)) w)
            else (fail 400 "Invalid OTP" [], w)
        end
    end.
Proof.
  intros G A. unfold verify_otp, verify_otp_user, verify_user_query. unroute.
  rewrite G, A. cbn beta iota.
  destruct (find _ (users w)) as [u |]; [| reflexivity].
  destruct (otp u) as [slot |]; [| reflexivity].
  destruct (expired c (expiresAt slot)); [reflexivity |].
  cbn. destruct (is_lit o (code slot)); reflexivity.
Qed.

Lemma run_reset_password c e o n w :
  run (reset_password hashPassword c e o n) w
  = if negb (truthy e) || negb (truthy o) || negb (truthy n) then
      (fail 400 "Please provide email, OTP and new password" [], w)
    else
      match find (user_matches (by_email e)) (users w) with
      | None => (fail 400 "Invalid OTP or user not found" [], w)
      | Some u =>
          match otp u with
          | None => (fail 400 "Invalid OTP or user not found" [], w)
          | Some slot =>
              if negb (purpose slot =? "password_reset") || negb (is_lit o (code slot))
              then (fail 400 "Invalid OTP" [], w)
              else if expired c (expiresAt slot) then (fail 400 "OTP has expired" [], w)
              else
                (ok "Password has been reset successfully. You can now log in." [],
                 set_users
                   (save_user (with_otp None (with_password (hashPassword (or_lit n "")) u))
                      (users w)) w)
          end
      end.
Proof.
  unfold reset_password. unroute.
  destruct (negb (truthy e) || negb (truthy o) || negb (truthy n)); [reflexivity |].
  cbn beta iota.
  destruct (find _ (users w)) as [u |]; [| reflexivity].
  destruct (otp u) as [slot |]; [| reflexivity].
  destruct (negb (purpose slot =? "password_reset") || negb (is_lit o (code slot)));
    [reflexivity |].
  cbn beta iota. destruct (expired c (expiresAt slot)); reflexivity.
Qed.

End Explicit.

(** ** What the issuing routes leave in the store *)

Section Issue.

Variable Number : string -> option Q.

Lemma subject_of_email e p s :
  subject_of e p = Some s -> truthy e = true -> exists x, e = Some x /\ s = ByEmail x.
Proof.
  unfold subject_of. intros H T. rewrite T in H.
  destruct e as [x |]; [| discriminate]. exists x. cbn in H. split; congruence.
Qed.

Lemma subject_of_phone e p s :
  subject_of e p = Some s -> truthy e = false ->
  truthy p = true /\ exists x, p = Some x /\ s = ByPhone x.
Proof.
  unfold subject_of. intros H T. rewrite T in H.
  destruct (truthy p) eqn:Tp; [| discriminate].
  split; [reflexivity |].
  destruct p as [x |]; [| discriminate]. exists x. cbn in H. split; congruence.
Qed.

(** An application Issue deletes the subject's records and appends the new
    one; the users are not touched. *)
Lemma send_otp_application_store c e p pu s w :
  is_lit pu "application" = true ->
  subject_of e p = Some s ->
  let w' := snd (run (send_otp Number c e p pu) w) in
  otps w' = (filter (fun r => negb (otp_matches (subject_query s) r)) (otps w)
             ++ [issued_doc c (otp_seq w) s])%list
  /\ otp_seq w' = S (otp_seq w)
  /\ users w' = users w.
Proof.
  intros A S. cbv zeta. unfold send_otp. rewrite A.
  unfold send_otp_application, sendOTPEmail. unroute.
  destruct (truthy e) eqn:Te.
  - destruct (subject_of_email _ _ _ S Te) as (x & -> & ->).
    cbn beta iota.
    destruct (Mail.sendOTPEmail _ _ _ _ _ _ _) as [r m]. cbn beta iota.
    destruct (negb (Mail.success r)); cbn; repeat split; reflexivity.
  - destruct (subject_of_phone _ _ _ S Te) as (Tp & x & -> & ->).
    rewrite Tp. cbn. repeat split; reflexivity.
Qed.

(** An application request with no subject changes nothing. *)
Lemma send_otp_application_no_subject c e p pu w :
  is_lit pu "application" = true ->
  subject_of e p = None ->
  run (send_otp Number c e p pu) w
  = (fail 400 "Please provide email or phone for application OTP" [], w).
Proof.
  intros A S. unfold send_otp. rewrite A.
  unfold send_otp_application, subject_of in *.
  destruct (truthy e) eqn:Te.
  - destruct (truthy_some _ Te) as (x & -> & _). discriminate S.
  - destruct (truthy p) eqn:Tp; [| reflexivity].
    destruct (truthy_some _ Tp) as (x & -> & _). discriminate S.
Qed.

(** A user-based Issue writes the slot of the user it found, and nothing
    else in the store. *)
Lemma send_otp_user_store c e p pu w :
  is_lit pu "application" = false ->
  truthy e || truthy p = true ->
  let w' := snd (run (send_otp Number c e p pu) w) in
  otps w' = otps w
  /\ otp_seq w' = otp_seq w
  /\ users w' = match find (user_matches (user_query_of e p)) (users w) with
                | Some u =>
                    save_user (with_otp (Some (issued_slot c (or_lit pu "verification"))) u)
                      (users w)
                | None => users w
                end.
Proof.
  intros A T. cbv zeta. unfold send_otp, user_query_of, lookup_user, sendOTPEmail.
  rewrite A. unroute.
  destruct (truthy e) eqn:Te; cbn [negb andb orb]; cbn beta iota.
  - rewrite andb_false_r.
    destruct (find _ (users w)) as [u |]; cbn beta iota.
    + destruct (Mail.sendOTPEmail _ _ _ _ _ _ _) as [r m]. cbn beta iota.
      destruct (negb (Mail.success r)); cbn; repeat split; reflexivity.
    + destruct (negb (is_lit pu "login")); cbn beta iota; [repeat split; reflexivity |].
      destruct (Mail.sendOTPEmail _ _ _ _ _ _ _) as [r m]. cbn beta iota.
      destruct (negb (Mail.success r)); cbn; repeat split; reflexivity.
  - cbn in T. rewrite T. cbn [negb andb orb]. cbn beta iota.
    destruct (find _ (users w)) as [u |]; cbn beta iota.
    + repeat split; reflexivity.
    + destruct (negb (is_lit pu "login")); cbn; repeat split; reflexivity.
Qed.

(** [forgot-password] writes the slot of the user it found, and nothing else
    in the store. *)
Lemma forgot_password_store c e w :
  let w' := snd (run (forgot_password Number c e) w) in
  otps w' = otps w
  /\ otp_seq w' = otp_seq w
  /\ users w' = if truthy e then
                  match find (user_matches (by_email e)) (users w) with
                  | Some u =>
                      save_user (with_otp (Some (issued_slot c "password_reset")) u) (users w)
                  | None => users w
                  end
                else users w.
Proof.
  cbv zeta. unfold forgot_password, sendOTPEmail. unroute.
  destruct (truthy e); cbn [negb]; cbn beta iota; [| repeat split; reflexivity].
  destruct (find _ (users w)) as [u |]; cbn beta iota; [| repeat split; reflexivity].
  destruct (Mail.sendOTPEmail _ _ _ _ _ _ _) as [r m]. cbn beta iota.
  destruct (negb (Mail.success r)); cbn; repeat split; reflexivity.
Qed.

End Issue.

(** ** Lists of documents *)

Lemma find_save_user (q : UserQuery) (l : list User) (u u' : User) :
  find (user_matches q) l = Some u ->
  user_id u' = user_id u ->
  user_matches q u' = true ->
  find (user_matches q) (save_user u' l) = Some u'.
Proof.
  intros F I M. induction l as [| x l IH]; [discriminate |].
  cbn in F |- *. destruct (user_matches q x) eqn:Mx.
  - injection F as ->. rewrite I, Nat.eqb_refl, M. reflexivity.
  - destruct (user_id x =? user_id u')%nat.
    + rewrite M. reflexivity.
    + rewrite Mx. apply IH, F.
Qed.

Lemma find_none_stronger {A} (f g : A -> bool) (l : list A) :
  (forall x, g x = true -> f x = true) ->
  find f l = None -> find g l = None.
Proof.
  intros I F. induction l as [| x l IH]; [reflexivity |].
  cbn in F |- *. destruct (f x) eqn:Fx; [discriminate |].
  destruct (g x) eqn:Gx.
  - apply I in Gx. congruence.
  - apply IH, F.
Qed.

Lemma filter_none {A} (f : A -> bool) (l : list A) :
  filter f (filter (fun x => negb (f x)) l) = [].
Proof.
  induction l as [| x l IH]; [reflexivity |].
  cbn. destruct (f x) eqn:Fx; cbn; [exact IH | rewrite Fx; exact IH].
Qed.

Lemma find_app_last {A} (f : A -> bool) (l : list A) (x : A) :
  find f l = None -> find f (l ++ [x]) = if f x then Some x else None.
Proof.
  intros F. induction l as [| y l IH]; [reflexivity |].
  cbn in F |- *. destruct (f y); [discriminate | apply IH, F].
Qed.

Lemma find_filtered_out {A} (f g : A -> bool) (l : list A) :
  (forall x, g x = true -> f x = true) ->
  find g (filter (fun x => negb (f x)) l) = None.
Proof.
  intros I. induction l as [| x l IH]; [reflexivity |].
  cbn. destruct (f x) eqn:Fx; cbn; [exact IH |].
  destruct (g x) eqn:Gx; [apply I in Gx; congruence | exact IH].
Qed.

Lemma otp_matches_spec (q : OtpQuery) (r : OtpDoc) :
  otp_matches q r = true <->
  opt_field_is (oq_email q) (otp_email r) = true
  /\ opt_field_is (oq_phone q) (otp_phone r) = true
  /\ field_is (oq_purpose q) (otp_purpose r) = true
  /\ match oq_verified q with
     | Some b => Bool.eqb b (verified r)
     | None => true
     end = true.
Proof.
  unfold otp_matches. rewrite !andb_true_iff. tauto.
Qed.

(** A record of the subject matches the filter of [verify-otp] only if it
    matches the filter of [send-otp]. *)
Lemma verify_query_subject e p s r :
  subject_of e p = Some s ->
  otp_matches (verify_query e p) r = true ->
  otp_matches (subject_query s) r = true.
Proof.
  intros S M. unfold verify_query in M. unfold subject_of in S.
  destruct (truthy e) eqn:Te.
  - destruct e as [x |]; [| discriminate]. injection S as <-.
    apply otp_matches_spec in M. destruct M as (Me & _ & Mp & _).
    apply otp_matches_spec. cbn in *. now rewrite Me, Mp.
  - destruct (truthy p) eqn:Tp; [| discriminate].
    destruct p as [x |]; [| discriminate]. injection S as <-.
    apply otp_matches_spec in M. destruct M as (_ & Mph & Mp & _).
    apply otp_matches_spec. cbn in *. now rewrite Mph, Mp.
Qed.

(** The record an Issue adds matches the filter of [verify-otp] for its
    subject. *)
Lemma issued_doc_matches c i e p s :
  subject_of e p = Some s ->
  otp_matches (verify_query e p) (issued_doc c i s) = true
  /\ otp_matches (subject_query s) (issued_doc c i s) = true.
Proof.
  intros S. unfold verify_query. unfold subject_of in S.
  destruct (truthy e) eqn:Te.
  - destruct e as [x |]; [| discriminate]. injection S as <-.
    unfold otp_matches. cbn. rewrite String.eqb_refl. split; reflexivity.
  - destruct (truthy p) eqn:Tp; [| discriminate].
    destruct p as [x |]; [| discriminate]. injection S as <-.
    unfold otp_matches. cbn. rewrite String.eqb_refl. split; reflexivity.
Qed.

(** ** Replies *)

Ltac split_route :=
  repeat (cbn [negb andb orb]; cbn beta iota;
          match goal with
          | |- context [Mail.sendOTPEmail ?a ?b ?c ?d ?e ?f ?g] =>
              destruct (Mail.sendOTPEmail a b c d e f g) as [? ?]
          | |- context [match find ?f ?l with _ => _ end] => destruct (find f l)
          | |- context [if ?b then _ else _] => destruct b
          end).

Lemma succeeded_fail st msg rest : succeeded (fail st msg rest) = false.
Proof. reflexivity. Qed.

Lemma succeeded_ok msg rest : succeeded (ok msg rest) = true.
Proof. reflexivity. Qed.

Lemma verdict_ok msg rest : verdict (ok msg rest) = OK.
Proof. reflexivity. Qed.

(** Every reply of [send-otp] is a failure or announces 600 seconds. *)
Lemma send_otp_replies (Number : string -> option Q) c e p pu w :
  let r := fst (run (send_otp Number c e p pu) w) in
  (exists st msg rest, r = fail st msg rest)
  \/ (exists msg, r = ok msg (("otpExpiresIn", JNum 600) :: devOtp c)).
Proof.
  cbv zeta. unfold send_otp, send_otp_application, lookup_user, sendOTPEmail.
  unroute. split_route; cbn [fst];
    solve [left; do 3 eexists; reflexivity | right; eexists; reflexivity].
Qed.

Lemma otpExpiresIn_of_ok msg rest :
  field "otpExpiresIn" (body (ok msg (("otpExpiresIn", JNum 600) :: rest))) = JNum 600.
Proof. reflexivity. Qed.

(** ** Issue *)

Lemma user_matches_with_otp q v u : user_matches q (with_otp v u) = user_matches q u.
Proof. reflexivity. Qed.

(** C7: every Issue stores [expiresAt] = issuance time + 10 minutes (600000
    milliseconds): [forgot-password] in the slot of the user it found, the
    application [send-otp] in the one record it leaves for the subject, the
    user-based [send-otp] in the slot of the user it found; and every
    successful [send-otp] response carries [otpExpiresIn] = 600. For the two
    user-based flows the [expiresAt], the code and the purpose are read from
    the slot of the user the same lookup finds afterwards. *)
Theorem issue_expires_after_ten_minutes
    (Number : string -> option Q) (c : Ctx) (e p pu : option string) (w : World) :
  (forall u,
      truthy e = true ->
      find (user_matches (by_email e)) (users w) = Some u ->
      exists u',
        find (user_matches (by_email e)) (users (snd (run (forgot_password Number c e) w)))
        = Some u'
        /\ u' = with_otp (Some {| code := generateOTP c; expiresAt := now c + 600000;
                                  purpose := "password_reset" |}) u
        /\ option_map expiresAt (otp u') = Some (now c + 600000)%Z
        /\ option_map code (otp u') = Some (generateOTP c)
        /\ option_map purpose (otp u') = Some "password_reset")
  /\ (forall s,
         is_lit pu "application" = true ->
         subject_of e p = Some s ->
         exists r,
           filter (otp_matches (subject_query s))
             (otps (snd (run (send_otp Number c e p pu) w))) = [r]
           /\ otp_code r = generateOTP c
           /\ otp_expiresAt r = (now c + 600000)%Z
           /\ verified r = false)
  /\ (forall u,
         is_lit pu "application" = false ->
         truthy e || truthy p = true ->
         find (user_matches (user_query_of e p)) (users w) = Some u ->
         exists u',
           find (user_matches (user_query_of e p))
             (users (snd (run (send_otp Number c e p pu) w))) = Some u'
           /\ u' = with_otp (Some {| code := generateOTP c; expiresAt := now c + 600000;
                                     purpose := or_lit pu "verification" |}) u
           /\ option_map expiresAt (otp u') = Some (now c + 600000)%Z
           /\ option_map code (otp u') = Some (generateOTP c)
           /\ option_map purpose (otp u') = Some (or_lit pu "verification"))
  /\ (succeeded (fst (run (send_otp Number c e p pu) w)) = true ->
      field "otpExpiresIn" (body (fst (run (send_otp Number c e p pu) w))) = JNum 600).
Proof.
  split; [| split; [| split]].
  - intros u Te F.
    destruct (forgot_password_store Number c e w) as (_ & _ & U).
    rewrite U, Te, F. eexists. split; [| split; [reflexivity | repeat split]].
    apply find_save_user with (u := u); [exact F | reflexivity |].
    rewrite user_matches_with_otp. apply (find_some _ _ F).
  - intros s A S.
    destruct (send_otp_application_store Number c e p pu s w A S) as (O & _ & _).
    exists (issued_doc c (otp_seq w) s). rewrite O, filter_app, filter_none.
    cbn [filter app].
    destruct (issued_doc_matches c (otp_seq w) e p s S) as [_ M]. rewrite M.
    repeat split; reflexivity.
  - intros u A T F.
    destruct (send_otp_user_store Number c e p pu w A T) as (_ & _ & U).
    rewrite U, F. eexists. split; [| split; [reflexivity | repeat split]].
    apply find_save_user with (u := u); [exact F | reflexivity |].
    rewrite user_matches_with_otp. apply (find_some _ _ F).
  - intros Hs.
    destruct (send_otp_replies Number c e p pu w) as [(st & msg & rest & R) | (msg & R)];
      rewrite R in Hs |- *.
    + rewrite succeeded_fail in Hs. discriminate.
    + apply otpExpiresIn_of_ok.
Qed.

Lemma verdict_fail_not_ok st msg rest : verdict (fail st msg rest) <> OK.
Proof.
  unfold verdict. rewrite succeeded_fail.
  repeat match goal with |- context [if ?b then _ else _] => destruct b end;
    discriminate.
Qed.

(** C3, as stated, fails when the generator returns the same code twice:
    after two Issues that both produced 123456, validating with the
    first-issued code returns OK. *)
Lemma reissue_with_repeated_code_validates :
  let issue t :=
    send_otp Number_of_digits (sample_ctx t "123456")
      (Some "b@x.com") None (Some "application") in
  let w1 := snd (run (issue 1000%Z) empty_world) in
  let w2 := snd (run (issue 2000%Z) w1) in
  verdict (fst (run (verify_otp sample_token (sample_ctx 3000 "") (Some "b@x.com") None
                       (Some "123456") (Some "application")) w2)) = OK.
Proof. vm_compute. reflexivity. Qed.

(** C3, amended: two sequential application Issues for one subject leave
    exactly one record of that subject; it holds the second code and is
    active; and validating with the first-issued code does not return OK
    whenever the second code differs from the first. *)
Theorem reissue_supersedes
    (Number : string -> option Q) (generateToken : nat -> string)
    (c1 c2 c3 : Ctx) (e1 p1 e2 p2 e3 p3 : option string) (s : Subject) (w : World) :
  subject_of e1 p1 = Some s ->
  subject_of e2 p2 = Some s ->
  let w1 := snd (run (send_otp Number c1 e1 p1 (Some "application")) w) in
  let w2 := snd (run (send_otp Number c2 e2 p2 (Some "application")) w1) in
  (exists r,
      filter (otp_matches (subject_query s)) (otps w2) = [r]
      /\ otp_code r = generateOTP c2
      /\ active (now c2) r = true)
  /\ (generateOTP c1 <> generateOTP c2 ->
      subject_of e3 p3 = Some s ->
      verdict (fst (run (verify_otp generateToken c3 e3 p3 (Some (generateOTP c1))
                           (Some "application")) w2)) <> OK).
Proof.
  intros S1 S2 w1 w2.
  destruct (send_otp_application_store Number c2 e2 p2 (Some "application") s w1
              (is_lit_self _) S2) as (O & _ & _).
  fold w2 in O. split.
  - exists (issued_doc c2 (otp_seq w1) s).
    rewrite O, filter_app, filter_none. cbn [filter app].
    destruct (issued_doc_matches c2 (otp_seq w1) e2 p2 s S2) as [_ M]. rewrite M.
    repeat split. unfold active. cbn.
    apply negb_true_iff, Z.ltb_ge. lia.
  - intros Hne S3.
    destruct (negb (truthy (Some (generateOTP c1)))
              || (negb (truthy e3) && negb (truthy p3))) eqn:G.
    + rewrite (run_verify_otp_guard generateToken c3 e3 p3 _ _ w2 G).
      apply verdict_fail_not_ok.
    + rewrite (run_verify_otp_application generateToken c3 e3 p3 _ _ w2 G (is_lit_self _)).
      rewrite O, find_app_last.
      2:{ apply find_filtered_out. intros x. apply verify_query_subject, S3. }
      destruct (issued_doc_matches c2 (otp_seq w1) e3 p3 s S3) as [M _]. rewrite M.
      destruct (expired c3 _); [apply verdict_fail_not_ok |].
      cbn [is_lit otp_code issued_doc].
      destruct (String.eqb_spec (generateOTP c1) (generateOTP c2)); [contradiction |].
      apply verdict_fail_not_ok.
Qed.

Lemma reissue_supersedes_witness :
  let s := ByEmail "b@x.com" in
  let c1 := sample_ctx 1000 "111111" in
  let c2 := sample_ctx 2000 "222222" in
  let c3 := sample_ctx 3000 "" in
  let e := Some "b@x.com" in
  let w1 := snd (run (send_otp Number_of_digits c1 e None (Some "application"))
                   empty_world) in
  let w2 := snd (run (send_otp Number_of_digits c2 e None (Some "application")) w1) in
  (exists r,
      filter (otp_matches (subject_query s)) (otps w2) = [r]
      /\ otp_code r = generateOTP c2
      /\ active (now c2) r = true)
  /\ (generateOTP c1 <> generateOTP c2 ->
      subject_of e None = Some s ->
      verdict (fst (run (verify_otp sample_token c3 e None (Some (generateOTP c1))
                           (Some "application")) w2)) <> OK).
Proof.
  exact (reissue_supersedes Number_of_digits sample_token
           (sample_ctx 1000 "111111") (sample_ctx 2000 "222222") (sample_ctx 3000 "")
           (Some "b@x.com") None (Some "b@x.com") None (Some "b@x.com") None
           (ByEmail "b@x.com") empty_world eq_refl eq_refl).
Defined.

(** ** Validate *)

Lemma find_all_false {A} (f : A -> bool) (l : list A) :
  (forall x, In x l -> f x = false) -> find f l = None.
Proof.
  intros H. induction l as [| x l IH]; [reflexivity |].
  cbn. rewrite (H x (or_introl eq_refl)). apply IH. intros y Hy. apply H. now right.
Qed.

(** Two records that match the filter of one subject share that subject. *)
Lemma verify_query_same_subject e p r1 r2 :
  truthy e || truthy p = true ->
  otp_matches (verify_query e p) r1 = true ->
  otp_matches (verify_query e p) r2 = true ->
  same_subject r1 r2
  /\ otp_purpose r1 = "application" /\ otp_purpose r2 = "application".
Proof.
  intros T M1 M2. unfold verify_query in *.
  apply otp_matches_spec in M1. apply otp_matches_spec in M2.
  destruct (truthy e) eqn:Te.
  - destruct (truthy_some _ Te) as (x & -> & _).
    destruct M1 as (E1 & _ & P1 & _). destruct M2 as (E2 & _ & P2 & _).
    cbn [oq_email oq_phone oq_purpose opt_field_is field_is] in *.
    apply is_lit_true in E1, E2.
    apply String.eqb_eq in P1, P2. repeat split; try congruence.
    left. exists x. split; assumption.
  - cbn in T. destruct (truthy_some _ T) as (x & -> & _).
    destruct M1 as (_ & E1 & P1 & _). destruct M2 as (_ & E2 & P2 & _).
    cbn [oq_email oq_phone oq_purpose opt_field_is field_is] in *.
    apply is_lit_true in E1, E2.
    apply String.eqb_eq in P1, P2. repeat split; try congruence.
    right. exists x. split; assumption.
Qed.

Lemma verify_query_unverified e p r :
  otp_matches (verify_query e p) r = true -> verified r = false.
Proof.
  intros M. apply otp_matches_spec in M. destruct M as (_ & _ & _ & V).
  unfold verify_query in V. destruct (truthy e); cbn in V;
    destruct (verified r); [discriminate | reflexivity | discriminate | reflexivity].
Qed.

(** Once the found record is marked, no record of the subject is left for
    the filter of [verify-otp]. *)
Lemma find_after_mark_verified e p l r :
  one_per_subject l ->
  truthy e || truthy p = true ->
  find (otp_matches (verify_query e p)) l = Some r ->
  find (otp_matches (verify_query e p)) (save_otp (mark_verified r) l) = None.
Proof.
  intros W T F. apply find_all_false. intros x' Hx'.
  unfold save_otp in Hx'. apply in_map_iff in Hx'. destruct Hx' as (x & <- & Hx).
  destruct (find_some _ _ F) as [Hr Mr].
  destruct (Nat.eqb_spec (otp_id x) (otp_id (mark_verified r))) as [I | I].
  - destruct (otp_matches (verify_query e p) (mark_verified r)) eqn:M; [| reflexivity].
    apply verify_query_unverified in M. discriminate M.
  - destruct (otp_matches (verify_query e p) x) eqn:M; [| reflexivity].
    exfalso. apply I.
    destruct (verify_query_same_subject e p x r T M Mr) as (Hs & P1 & P2).
    apply (W x r Hx Hr P1 P2 Hs).
Qed.

Lemma verdict_not_found_otp rest :
  verdict (fail 400 "Invalid OTP or OTP not found" rest) = NOT_FOUND.
Proof. reflexivity. Qed.

(** C4: after a validation that returned OK, the same validation again
    returns NOT_FOUND. In the standalone shape the record found was saved
    with [verified = true] and the lookup, which filters [verified = false],
    finds nothing; in the embedded shape the user found has its slot
    cleared. The OTP collection holds at most one application record per
    subject, as the Issues leave it. *)
Theorem validated_otp_is_single_use
    (generateToken : nat -> string) (c1 c2 : Ctx) (e p o pu : option string) (w : World) :
  one_per_subject (otps w) ->
  verdict (fst (run (verify_otp generateToken c1 e p o pu) w)) = OK ->
  let w' := snd (run (verify_otp generateToken c1 e p o pu) w) in
  (is_lit pu "application" = true ->
   exists r,
     find (otp_matches (verify_query e p)) (otps w) = Some r
     /\ otps w' = save_otp (mark_verified r) (otps w)
     /\ find (otp_matches (verify_query e p)) (otps w') = None)
  /\ (is_lit pu "application" = false ->
      exists u,
        find (user_matches (verify_user_query e p)) (users w') = Some u
        /\ otp u = None)
  /\ verdict (fst (run (verify_otp generateToken c2 e p o pu) w')) = NOT_FOUND.
Proof.
  intros W V w'. subst w'.
  destruct (negb (truthy o) || (negb (truthy e) && negb (truthy p))) eqn:G.
  { rewrite (run_verify_otp_guard generateToken c1 e p o pu w G) in V.
    now apply verdict_fail_not_ok in V. }
  assert (T : truthy e || truthy p = true).
  { apply orb_false_iff in G. destruct G as [_ G].
    destruct (truthy e), (truthy p); try reflexivity. discriminate G. }
  destruct (is_lit pu "application") eqn:A.
  - rewrite (run_verify_otp_application generateToken c1 e p o pu w G A) in V |- *.
    destruct (find (otp_matches (verify_query e p)) (otps w)) as [r |] eqn:F;
      [| now apply verdict_fail_not_ok in V].
    destruct (expired c1 (otp_expiresAt r)); [now apply verdict_fail_not_ok in V |].
    destruct (is_lit o (otp_code r)); [| now apply verdict_fail_not_ok in V].
    cbn [snd].
    pose proof (find_after_mark_verified e p (otps w) r W T F) as N.
    split; [| split].
    + intros _. exists r. repeat split. exact N.
    + discriminate.
    + rewrite (run_verify_otp_application generateToken c2 e p o pu _ G A).
      cbn [otps set_otps]. rewrite N. reflexivity.
  - rewrite (run_verify_otp_user generateToken c1 e p o pu w G A) in V |- *.
    destruct (find (user_matches (verify_user_query e p)) (users w)) as [u |] eqn:F;
      [| now apply verdict_fail_not_ok in V].
    destruct (otp u) as [slot |]; [| now apply verdict_fail_not_ok in V].
    destruct (expired c1 (expiresAt slot)); [now apply verdict_fail_not_ok in V |].
    destruct (is_lit o (code slot)); [| now apply verdict_fail_not_ok in V].
    cbn [snd].
    assert (N : find (user_matches (verify_user_query e p))
                  (save_user (verified_user e p pu u) (users w))
                = Some (verified_user e p pu u)).
    { apply find_save_user with (u := u); [exact F | reflexivity |].
      apply (find_some _ _ F). }
    split; [| split].
    + discriminate.
    + intros _. exists (verified_user e p pu u). split; [exact N | reflexivity].
    + rewrite (run_verify_otp_user generateToken c2 e p o pu _ G A).
      cbn [users set_users]. rewrite N. reflexivity.
Qed.

(** ** The shape of the OTP collection is kept by the four routes *)

Lemma drawn_from_refl l : drawn_from l l.
Proof. intros x Hx. exists x. repeat split; assumption. Qed.

Lemma one_per_subject_drawn l' l :
  drawn_from l' l -> one_per_subject l -> one_per_subject l'.
Proof.
  intros D W r1 r2 H1 H2 P1 P2 S.
  destruct (D r1 H1) as (x1 & I1 & Id1 & E1 & Ph1 & Pu1).
  destruct (D r2 H2) as (x2 & I2 & Id2 & E2 & Ph2 & Pu2).
  rewrite Id1, Id2. apply W; try assumption; try congruence.
  destruct S as [(e & A & B) | (p & A & B)].
  - left. exists e. split; congruence.
  - right. exists p. split; congruence.
Qed.

Lemma bounded_drawn n l' l :
  drawn_from l' l ->
  (forall r, In r l -> (otp_id r < n)%nat) ->
  forall r, In r l' -> (otp_id r < n)%nat.
Proof.
  intros D B r Hr. destruct (D r Hr) as (x & I & Id & _). rewrite Id. apply B, I.
Qed.

Lemma drawn_filter f l : drawn_from (filter f l) l.
Proof.
  intros x Hx. apply filter_In in Hx. exists x. repeat split; tauto.
Qed.

Lemma delete_one_incl i l x : In x (delete_one i l) -> In x l.
Proof.
  induction l as [| y l IH]; cbn; [tauto |].
  destruct (otp_id y =? i)%nat; cbn; intuition.
Qed.

Lemma drawn_delete_one i l : drawn_from (delete_one i l) l.
Proof.
  intros x Hx. exists x. repeat split. eapply delete_one_incl, Hx.
Qed.

Lemma drawn_save_mark r l : In r l -> drawn_from (save_otp (mark_verified r) l) l.
Proof.
  intros Hr x' Hx'. unfold save_otp in Hx'. apply in_map_iff in Hx'.
  destruct Hx' as (x & <- & Hx).
  destruct (otp_id x =? otp_id (mark_verified r))%nat.
  - exists r. repeat split. exact Hr.
  - exists x. repeat split. exact Hx.
Qed.

Lemma NoDup_ids_filter f l :
  NoDup (map otp_id l) -> NoDup (map otp_id (filter f l)).
Proof.
  induction l as [| x l IH]; cbn; intros N; [constructor |].
  inversion N as [| ? ? Nx Nl]; subst.
  destruct (f x); cbn; [constructor |]; auto.
  intros I. apply Nx. apply in_map_iff in I. destruct I as (y & E & Hy).
  apply in_map_iff. exists y. split; [exact E |]. apply filter_In in Hy. tauto.
Qed.

Lemma NoDup_ids_delete_one i l :
  NoDup (map otp_id l) -> NoDup (map otp_id (delete_one i l)).
Proof.
  induction l as [| x l IH]; cbn; intros N; [constructor |].
  inversion N as [| ? ? Nx Nl]; subst.
  destruct (otp_id x =? i)%nat; cbn; [exact Nl |].
  constructor; [| auto].
  intros I. apply Nx. apply in_map_iff in I. destruct I as (y & E & Hy).
  apply in_map_iff. exists y. split; [exact E |]. eapply delete_one_incl, Hy.
Qed.

Lemma ids_save_mark r l : map otp_id (save_otp (mark_verified r) l) = map otp_id l.
Proof.
  unfold save_otp. rewrite map_map. apply map_ext_in. intros x _.
  destruct (Nat.eqb_spec (otp_id x) (otp_id (mark_verified r))) as [E | E];
    [symmetry; exact E | reflexivity].
Qed.

Lemma NoDup_ids_append n l r :
  NoDup (map otp_id l) ->
  (forall x, In x l -> (otp_id x < n)%nat) ->
  otp_id r = n ->
  NoDup (map otp_id (l ++ [r])).
Proof.
  intros N B I. rewrite map_app. cbn.
  apply NoDup_app; [exact N | constructor; [intros [] | constructor] |].
  intros i Hi [<- | []]. apply in_map_iff in Hi. destruct Hi as (x & E & Hx).
  specialize (B x Hx). lia.
Qed.

(** Appending the issued record after the subject's records were deleted. *)
Lemma one_per_subject_issue c n s l :
  one_per_subject l ->
  one_per_subject
    (filter (fun r => negb (otp_matches (subject_query s) r)) l ++ [issued_doc c n s]).
Proof.
  intros W. set (l' := filter _ l).
  assert (W' : one_per_subject l')
    by (apply (one_per_subject_drawn l' l); [apply drawn_filter | exact W]).
  assert (Out : forall x, In x l' -> otp_purpose x = "application" ->
                          same_subject x (issued_doc c n s) -> False).
  { intros x Hx P S. apply filter_In in Hx. destruct Hx as [_ Hx].
    apply negb_true_iff in Hx.
    assert (M : otp_matches (subject_query s) x = true); [| congruence].
    apply otp_matches_spec.
    destruct s as [e | p]; cbn [subject_query app_query oq_email oq_phone oq_purpose
                                  oq_verified opt_field_is field_is];
      destruct S as [(v & A & B) | (v & A & B)]; cbn in B; try discriminate;
      injection B as <-; rewrite A, P; cbn [is_lit];
      rewrite !String.eqb_refl; repeat split. }
  intros r1 r2 H1 H2 P1 P2 S.
  apply in_app_or in H1. apply in_app_or in H2.
  destruct H1 as [H1 | [<- | []]], H2 as [H2 | [<- | []]].
  - apply W'; assumption.
  - exfalso. apply (Out r1 H1 P1 S).
  - exfalso. apply (Out r2 H2 P2).
    destruct S as [(v & A & B) | (v & A & B)]; [left | right]; exists v; tauto.
  - reflexivity.
Qed.

Section Invariant.

Variable Number : string -> option Q.
Variable generateToken : nat -> string.
Variable hashPassword : string -> string.

Lemma send_otp_user_otps c e p pu w :
  is_lit pu "application" = false ->
  otps (snd (run (send_otp Number c e p pu) w)) = otps w
  /\ otp_seq (snd (run (send_otp Number c e p pu) w)) = otp_seq w.
Proof.
  intros A. unfold send_otp, lookup_user, sendOTPEmail. rewrite A.
  unroute. split_route; cbn; split; reflexivity.
Qed.

Lemma wf_same_otps w w' :
  otps w' = otps w -> otp_seq w' = otp_seq w -> wf w -> wf w'.
Proof.
  unfold wf. intros -> ->. tauto.
Qed.

Lemma wf_drawn w l :
  drawn_from l (otps w) -> NoDup (map otp_id l) -> wf w -> wf (set_otps l w).
Proof.
  intros D N (_ & B & W). repeat split; cbn.
  - exact N.
  - apply (bounded_drawn _ _ _ D B).
  - apply (one_per_subject_drawn _ _ D W).
Qed.

Lemma wf_send_otp c e p pu w :
  wf w -> wf (snd (run (send_otp Number c e p pu) w)).
Proof.
  intros (N & B & W).
  destruct (is_lit pu "application") eqn:A.
  - destruct (subject_of e p) as [s |] eqn:S.
    + destruct (send_otp_application_store Number c e p pu s w A S) as (O & Q & _).
      unfold wf. rewrite O, Q.
      assert (D := drawn_filter (fun r => negb (otp_matches (subject_query s) r)) (otps w)).
      repeat split.
      * apply NoDup_ids_append with (n := otp_seq w);
          [apply NoDup_ids_filter, N | apply (bounded_drawn _ _ _ D B) | reflexivity].
      * intros r Hr. apply in_app_or in Hr. destruct Hr as [Hr | [<- | []]].
        -- apply Nat.lt_lt_succ_r. apply (bounded_drawn _ _ _ D B), Hr.
        -- cbn. lia.
      * apply one_per_subject_issue, W.
    + rewrite (send_otp_application_no_subject Number c e p pu w A S). cbn.
      repeat split; assumption.
  - destruct (send_otp_user_otps c e p pu w A) as [O Q].
    apply (wf_same_otps w); [exact O | exact Q | repeat split; assumption].
Qed.

Lemma wf_verify_otp c e p o pu w :
  wf w -> wf (snd (run (verify_otp generateToken c e p o pu) w)).
Proof.
  intros H.
  destruct (negb (truthy o) || (negb (truthy e) && negb (truthy p))) eqn:G.
  { rewrite (run_verify_otp_guard generateToken c e p o pu w G). exact H. }
  destruct (is_lit pu "application") eqn:A.
  - rewrite (run_verify_otp_application generateToken c e p o pu w G A).
    destruct (find _ (otps w)) as [r |] eqn:F; [| exact H].
    destruct (expired c (otp_expiresAt r)); cbn [snd].
    + apply wf_drawn; [apply drawn_delete_one | | exact H].
      apply NoDup_ids_delete_one, H.
    + destruct (is_lit o (otp_code r)); cbn [snd]; [| exact H].
      apply wf_drawn; [apply drawn_save_mark, (find_some _ _ F) | | exact H].
      rewrite ids_save_mark. apply H.
  - rewrite (run_verify_otp_user generateToken c e p o pu w G A).
    destruct (find _ (users w)) as [u |]; [| exact H].
    destruct (otp u) as [slot |]; [| exact H].
    destruct (expired c (expiresAt slot)); [exact H |].
    destruct (is_lit o (code slot)); exact H.
Qed.

Lemma wf_reset_password c e o n w :
  wf w -> wf (snd (run (reset_password hashPassword c e o n) w)).
Proof.
  intros H. rewrite run_reset_password.
  repeat match goal with
         | |- context [if ?b then _ else _] => destruct b
         | |- context [match find ?f ?l with _ => _ end] => destruct (find f l)
         | |- context [match otp ?u with _ => _ end] => destruct (otp u)
         end; exact H.
Qed.

Lemma wf_forgot_password c e w :
  wf w -> wf (snd (run (forgot_password Number c e) w)).
Proof.
  intros H. destruct (forgot_password_store Number c e w) as (O & Q & _).
  apply (wf_same_otps w); assumption.
Qed.

(** The four routes keep the shape of the OTP collection. *)
Lemma wf_handle c rq w :
  wf w -> wf (snd (run (handle Number generateToken hashPassword c rq) w)).
Proof.
  destruct rq; cbn [handle].
  - apply wf_forgot_password.
  - apply wf_reset_password.
  - apply wf_send_otp.
  - apply wf_verify_otp.
Qed.

(** Every store the routes reach from an empty OTP collection has it. *)
Theorem reachable_wf w :
  reachable Number generateToken hashPassword w -> wf w.
Proof.
  induction 1 as [us | w c rq _ IH].
  - repeat split; cbn; [constructor | intros r [] | intros r1 r2 []].
  - apply wf_handle, IH.
Qed.

Corollary reachable_one_per_subject w :
  reachable Number generateToken hashPassword w -> one_per_subject (otps w).
Proof.
  intros R. apply reachable_wf in R. apply R.
Qed.

End Invariant.

Lemma validated_otp_is_single_use_witness :
  let issue := send_otp Number_of_digits (sample_ctx 1000 "123456")
                 (Some "b@x.com") None (Some "application") in
  let w := snd (run issue empty_world) in
  let check t := verify_otp sample_token (sample_ctx t "") (Some "b@x.com") None
                   (Some "123456") (Some "application") in
  one_per_subject (otps w)
  /\ verdict (fst (run (check 2000%Z) w)) = OK
  /\ verdict (fst (run (check 3000%Z) (snd (run (check 2000%Z) w)))) = NOT_FOUND.
Proof.
  cbv zeta.
  set (w := snd (run (send_otp Number_of_digits (sample_ctx 1000 "123456")
                        (Some "b@x.com") None (Some "application")) empty_world)).
  assert (W : one_per_subject (otps w)).
  { apply (reachable_one_per_subject Number_of_digits sample_token no_hash).
    apply (reach_request _ _ _ empty_world (sample_ctx 1000 "123456")
             (SendOtp (Some "b@x.com") None (Some "application"))).
    apply (reach_start _ _ _ []). }
  assert (V : verdict (fst (run (verify_otp sample_token (sample_ctx 2000 "")
                                   (Some "b@x.com") None (Some "123456")
                                   (Some "application")) w)) = OK)
    by (vm_compute; reflexivity).
  split; [exact W | split; [exact V |]].
  apply (validated_otp_is_single_use sample_token (sample_ctx 2000 "") (sample_ctx 3000 "")
           (Some "b@x.com") None (Some "123456") (Some "application") w W V).
Defined.

(** With distinct identifiers, [deleteOne] removes the record that was found
    and no other. *)
Lemma delete_one_removes_found (d : OtpDoc) (l : list OtpDoc) :
  NoDup (map otp_id l) ->
  In d l ->
  ~ In d (delete_one (otp_id d) l)
  /\ forall x, In x l -> otp_id x <> otp_id d -> In x (delete_one (otp_id d) l).
Proof.
  intros N I. induction l as [| y l IH]; [destruct I |].
  cbn in N. inversion N as [| ? ? Ny Nl]; subst.
  cbn [delete_one]. destruct (Nat.eqb_spec (otp_id y) (otp_id d)) as [E | E].
  - split.
    + intros Hd. apply Ny. rewrite E. apply in_map, Hd.
    + intros x [-> | Hx] Hne; [contradiction | exact Hx].
  - destruct I as [-> | I]; [contradiction |].
    destruct (IH Nl I) as [A B]. split.
    + intros [-> | Hd]; [contradiction | exact (A Hd)].
    + intros x [-> | Hx] Hne; [now left | right; apply B; assumption].
Qed.

Lemma verdict_guard_reply :
  verdict (fail 400 "Please provide OTP and email or phone" []) = OTHER.
Proof. reflexivity. Qed.

Lemma verdict_expired_reply : verdict (fail 400 "OTP has expired" []) = EXPIRED.
Proof. reflexivity. Qed.

Lemma verdict_mismatch_reply : verdict (fail 400 "Invalid OTP" []) = MISMATCH.
Proof. reflexivity. Qed.

(** A failed [verify-otp] leaves the store as it was, unless it is the
    application branch replying that the record has expired; the user-based
    branch changes nothing; after a MISMATCH the stored code still
    validates up to [expiresAt]. *)
Lemma failed_validation_cases
    (generateToken : nat -> string) (c : Ctx) (e p o pu : option string) (w : World) :
  let r := fst (run (verify_otp generateToken c e p o pu) w) in
  let w' := snd (run (verify_otp generateToken c e p o pu) w) in
  succeeded r = false ->
  (w' = w
   \/ (is_lit pu "application" = true
       /\ verdict r = EXPIRED
       /\ exists d,
           find (otp_matches (verify_query e p)) (otps w) = Some d
           /\ expired c (otp_expiresAt d) = true
           /\ w' = set_otps (delete_one (otp_id d) (otps w)) w
           /\ (NoDup (map otp_id (otps w)) ->
               ~ In d (otps w')
               /\ forall x, In x (otps w) -> otp_id x <> otp_id d -> In x (otps w'))))
  /\ (is_lit pu "application" = false -> w' = w)
  /\ (verdict r = MISMATCH ->
      w' = w
      /\ exists stored exp,
          pending e p pu w = Some (stored, exp)
          /\ (stored <> "" ->
              forall c2, (now c2 <= exp)%Z ->
                verdict (fst (run (verify_otp generateToken c2 e p (Some stored) pu) w'))
                = OK)).
Proof.
  cbv zeta. intros Hf.
  destruct (negb (truthy o) || (negb (truthy e) && negb (truthy p))) eqn:G.
  { rewrite (run_verify_otp_guard generateToken c e p o pu w G). cbn [fst snd].
    split; [now left | split; [reflexivity |]].
    rewrite verdict_guard_reply. discriminate. }
  assert (G2 : forall s, s <> "" ->
             negb (truthy (Some s)) || (negb (truthy e) && negb (truthy p)) = false).
  { intros s Hs. apply orb_false_iff in G. destruct G as [_ G].
    rewrite G, (truthy_lit s Hs). reflexivity. }
  unfold pending.
  destruct (is_lit pu "application") eqn:A.
  - rewrite (run_verify_otp_application generateToken c e p o pu w G A) in Hf |- *.
    destruct (find (otp_matches (verify_query e p)) (otps w)) as [d |] eqn:F.
    2:{ cbn [fst snd]. split; [now left | split; [discriminate |]].
        rewrite verdict_not_found_otp. discriminate. }
    destruct (expired c (otp_expiresAt d)) eqn:X; cbn [fst snd].
    + split; [right | split; [discriminate | rewrite verdict_expired_reply; discriminate]].
      split; [reflexivity | split; [apply verdict_expired_reply |]].
      exists d. split; [reflexivity | split; [exact X | split; [reflexivity |]]].
      intros N. cbn [otps set_otps].
      apply (delete_one_removes_found d (otps w) N (proj1 (find_some _ _ F))).
    + destruct (is_lit o (otp_code d)); cbn [fst snd] in Hf |- *;
        [rewrite succeeded_ok in Hf; discriminate |].
      split; [now left | split; [discriminate |]].
      intros _. split; [reflexivity |].
      exists (otp_code d), (otp_expiresAt d). split; [reflexivity |].
      intros Hs c2 Hc2.
      rewrite (run_verify_otp_application generateToken c2 e p _ pu w (G2 _ Hs) A), F.
      unfold expired. destruct (Z.ltb_spec (otp_expiresAt d) (now c2)); [lia |].
      rewrite is_lit_self. apply verdict_ok.
  - rewrite (run_verify_otp_user generateToken c e p o pu w G A) in Hf |- *.
    destruct (find (user_matches (verify_user_query e p)) (users w)) as [u |] eqn:F.
    2:{ cbn [fst snd]. split; [now left | split; [reflexivity |]].
        rewrite verdict_not_found_otp. discriminate. }
    destruct (otp u) as [slot |] eqn:Su.
    2:{ cbn [fst snd]. split; [now left | split; [reflexivity |]].
        rewrite verdict_not_found_otp. discriminate. }
    destruct (expired c (expiresAt slot)); cbn [fst snd].
    { split; [now left | split; [reflexivity |]].
      rewrite verdict_expired_reply. discriminate. }
    destruct (is_lit o (code slot)); cbn [fst snd] in Hf |- *;
      [unfold verified_reply in Hf; rewrite succeeded_ok in Hf; discriminate |].
    split; [now left | split; [reflexivity |]].
    intros _. split; [reflexivity |].
    exists (code slot), (expiresAt slot). split; [reflexivity |].
    intros Hs c2 Hc2.
    rewrite (run_verify_otp_user generateToken c2 e p _ pu w (G2 _ Hs) A), F, Su.
    unfold expired. destruct (Z.ltb_spec (expiresAt slot) (now c2)); [lia |].
    rewrite is_lit_self. apply verdict_ok.
Qed.

Lemma delete_one_length (d : OtpDoc) (l : list OtpDoc) :
  In d l -> S (length (delete_one (otp_id d) l)) = length l.
Proof.
  induction l as [| y l IH]; [intros [] |].
  intros I. cbn [delete_one].
  destruct (Nat.eqb_spec (otp_id y) (otp_id d)) as [E | E]; [reflexivity |].
  destruct I as [-> | I]; [contradiction |].
  cbn [length]. now rewrite (IH I).
Qed.

Lemma guard_passes (e p o : option string) :
  truthy o = true ->
  truthy e || truthy p = true ->
  negb (truthy o) || (negb (truthy e) && negb (truthy p)) = false.
Proof.
  intros -> T. destruct (truthy e), (truthy p); try reflexivity; discriminate T.
Qed.

(** C5: a failed [verify-otp] changes the store in one case only. An
    application record found expired is deleted by [deleteOne]: the reply is
    EXPIRED, the collection has one record less and, the [_id]s being
    distinct, the record found is gone and every other one is kept. An
    expired slot of a user is answered EXPIRED and stays in the user; the
    user-based branch changes nothing on any failure. A MISMATCH changes
    nothing in either shape, and the stored code then still validates at any
    time up to [expiresAt]. *)
Theorem failed_validation_frame
    (generateToken : nat -> string) (c : Ctx) (e p o pu : option string) (w : World) :
  let r := fst (run (verify_otp generateToken c e p o pu) w) in
  let w' := snd (run (verify_otp generateToken c e p o pu) w) in
  succeeded r = false ->
  (w' = w
   \/ (is_lit pu "application" = true
       /\ verdict r = EXPIRED
       /\ exists d,
           find (otp_matches (verify_query e p)) (otps w) = Some d
           /\ expired c (otp_expiresAt d) = true
           /\ w' = set_otps (delete_one (otp_id d) (otps w)) w
           /\ (NoDup (map otp_id (otps w)) ->
               ~ In d (otps w')
               /\ forall x, In x (otps w) -> otp_id x <> otp_id d -> In x (otps w'))))
  /\ (is_lit pu "application" = false -> w' = w)
  /\ (verdict r = MISMATCH ->
      w' = w
      /\ exists stored exp,
          pending e p pu w = Some (stored, exp)
          /\ (stored <> "" ->
              forall c2, (now c2 <= exp)%Z ->
                verdict (fst (run (verify_otp generateToken c2 e p (Some stored) pu) w'))
                = OK))
  /\ (is_lit pu "application" = true ->
      truthy o = true ->
      truthy e || truthy p = true ->
      forall d,
        find (otp_matches (verify_query e p)) (otps w) = Some d ->
        expired c (otp_expiresAt d) = true ->
        verdict r = EXPIRED
        /\ users w' = users w
        /\ S (length (otps w')) = length (otps w)
        /\ (NoDup (map otp_id (otps w)) ->
            ~ In d (otps w')
            /\ forall x, In x (otps w) -> otp_id x <> otp_id d -> In x (otps w')))
  /\ (is_lit pu "application" = false ->
      truthy o = true ->
      truthy e || truthy p = true ->
      forall u slot,
        find (user_matches (verify_user_query e p)) (users w) = Some u ->
        otp u = Some slot ->
        expired c (expiresAt slot) = true ->
        verdict r = EXPIRED
        /\ option_map otp (find (user_matches (verify_user_query e p)) (users w'))
           = Some (Some slot)).
Proof.
  cbv zeta. intros Hf.
  pose proof (failed_validation_cases generateToken c e p o pu w Hf) as K.
  cbv zeta in K. destruct K as (K1 & K2 & K3).
  split; [exact K1 | split; [exact K2 | split; [exact K3 | split]]].
  - intros A To T d F X.
    rewrite (run_verify_otp_application generateToken c e p o pu w
               (guard_passes e p o To T) A), F, X.
    cbn [fst snd otps users set_otps].
    split; [apply verdict_expired_reply | split; [reflexivity | split]].
    + apply delete_one_length, (find_some _ _ F).
    + intros N. apply (delete_one_removes_found d (otps w) N (proj1 (find_some _ _ F))).
  - intros A To T u slot F Su X.
    rewrite (run_verify_otp_user generateToken c e p o pu w
               (guard_passes e p o To T) A), F, Su, X.
    cbn [fst snd]. split; [apply verdict_expired_reply |].
    rewrite F. cbn [option_map]. now rewrite Su.
Qed.

Lemma failed_validation_frame_witness :
  let issue := send_otp Number_of_digits (sample_ctx 1000 "123456")
                 (Some "b@x.com") None (Some "application") in
  let w := snd (run issue empty_world) in
  let check t given := verify_otp sample_token (sample_ctx t "") (Some "b@x.com") None
                         (Some given) (Some "application") in
  (succeeded (fst (run (check 2000%Z "000000") w)) = false
   /\ verdict (fst (run (check 2000%Z "000000") w)) = MISMATCH
   /\ snd (run (check 2000%Z "000000") w) = w)
  /\ (succeeded (fst (run (check 700000%Z "123456") w)) = false
      /\ verdict (fst (run (check 700000%Z "123456") w)) = EXPIRED
      /\ S (length (otps (snd (run (check 700000%Z "123456") w)))) = length (otps w)).
Proof.
  cbv zeta.
  set (w := snd (run (send_otp Number_of_digits (sample_ctx 1000 "123456")
                        (Some "b@x.com") None (Some "application")) empty_world)).
  assert (Hf : succeeded (fst (run (verify_otp sample_token (sample_ctx 2000 "")
                                      (Some "b@x.com") None (Some "000000")
                                      (Some "application")) w)) = false)
    by (vm_compute; reflexivity).
  assert (Hm : verdict (fst (run (verify_otp sample_token (sample_ctx 2000 "")
                                    (Some "b@x.com") None (Some "000000")
                                    (Some "application")) w)) = MISMATCH)
    by (vm_compute; reflexivity).
  assert (Hx : succeeded (fst (run (verify_otp sample_token (sample_ctx 700000 "")
                                      (Some "b@x.com") None (Some "123456")
                                      (Some "application")) w)) = false)
    by (vm_compute; reflexivity).
  split.
  - split; [exact Hf | split; [exact Hm |]].
    destruct (failed_validation_frame sample_token (sample_ctx 2000 "") (Some "b@x.com")
                None (Some "000000") (Some "application") w Hf) as (_ & _ & M & _).
    exact (proj1 (M Hm)).
  - split; [exact Hx |].
    destruct (failed_validation_frame sample_token (sample_ctx 700000 "") (Some "b@x.com")
                None (Some "123456") (Some "application") w Hx) as (_ & _ & _ & D & _).
    destruct (D eq_refl eq_refl eq_refl
                (issued_doc (sample_ctx 1000 "123456") 0 (ByEmail "b@x.com"))
                eq_refl eq_refl) as (V & _ & L & _).
    split; [exact V | exact L].
Defined.

(** ** Precedence of the checks *)

(** C2, as stated, fails for [reset-password]: Alice's code 123456 expired at
    601000; at 700000 a reset with the wrong code 000000 is answered
    [Invalid OTP], not [OTP has expired]. *)
Lemma reset_password_expired_and_wrong_is_mismatch :
  let r := fst (run (reset_password no_hash (sample_ctx 700000 "") (Some "a@x.com")
                       (Some "000000") (Some "new-password")) alice_resetting) in
  option_map (fun u => option_map expiresAt (otp u))
    (find (user_matches (by_email (Some "a@x.com"))) (users alice_resetting))
  = Some (Some 601000%Z)
  /\ verdict r = MISMATCH
  /\ verdict r <> EXPIRED.
Proof.
  cbv zeta. split; [vm_compute; reflexivity |].
  assert (V : verdict (fst (run (reset_password no_hash (sample_ctx 700000 "")
                                   (Some "a@x.com") (Some "000000")
                                   (Some "new-password")) alice_resetting)) = MISMATCH)
    by (vm_compute; reflexivity).
  split; [exact V | rewrite V; discriminate].
Qed.

Lemma verdict_not_found_user rest :
  verdict (fail 400 "Invalid OTP or user not found" rest) = NOT_FOUND.
Proof. reflexivity. Qed.

(** C2, amended: both branches of [verify-otp] check existence, then expiry,
    then the code, so a record that has expired is reported EXPIRED whatever
    the code; [reset-password] checks existence, then purpose and code, then
    expiry, so it reports EXPIRED only for a matching code and MISMATCH for an
    expired slot with a wrong code. *)
Theorem validation_precedence
    (generateToken : nat -> string) (hashPassword : string -> string)
    (c : Ctx) (e p o pu n : option string) (w : World) :
  verdict (fst (run (verify_otp generateToken c e p o pu) w))
  = (if negb (truthy o) || (negb (truthy e) && negb (truthy p)) then OTHER
     else match pending e p pu w with
          | None => NOT_FOUND
          | Some (stored, exp) =>
              if expired c exp then EXPIRED
              else if is_lit o stored then OK
              else MISMATCH
          end)
  /\ verdict (fst (run (reset_password hashPassword c e o n) w))
     = (if negb (truthy e) || negb (truthy o) || negb (truthy n) then OTHER
        else match find (user_matches (by_email e)) (users w) with
             | None => NOT_FOUND
             | Some u =>
                 match otp u with
                 | None => NOT_FOUND
                 | Some slot =>
                     if negb (purpose slot =? "password_reset")
                        || negb (is_lit o (code slot))
                     then MISMATCH
                     else if expired c (expiresAt slot) then EXPIRED
                     else OK
                 end
             end).
Proof.
  split.
  - destruct (negb (truthy o) || (negb (truthy e) && negb (truthy p))) eqn:G.
    { rewrite (run_verify_otp_guard generateToken c e p o pu w G). reflexivity. }
    unfold pending. destruct (is_lit pu "application") eqn:A.
    + rewrite (run_verify_otp_application generateToken c e p o pu w G A).
      destruct (find _ (otps w)) as [d |]; [| reflexivity].
      cbn [option_map]. destruct (expired c (otp_expiresAt d)); [reflexivity |].
      destruct (is_lit o (otp_code d)); reflexivity.
    + rewrite (run_verify_otp_user generateToken c e p o pu w G A).
      destruct (find _ (users w)) as [u |]; [| reflexivity].
      destruct (otp u) as [slot |]; [| reflexivity].
      cbn [option_map]. destruct (expired c (expiresAt slot)); [reflexivity |].
      destruct (is_lit o (code slot)); reflexivity.
  - rewrite run_reset_password.
    destruct (negb (truthy e) || negb (truthy o) || negb (truthy n)); [reflexivity |].
    destruct (find _ (users w)) as [u |]; [| reflexivity].
    destruct (otp u) as [slot |]; [| reflexivity].
    destruct (negb (purpose slot =? "password_reset") || negb (is_lit o (code slot)));
      [reflexivity |].
    destruct (expired c (expiresAt slot)); reflexivity.
Qed.

(** C1, at the failing input: Alice holds the code 123456 issued by
    [forgot-password] under the purpose [password_reset]; a [verify-otp] with
    that code and the purpose [email] is answered OK, clears her slot and
    sets her email-verified flag. *)
Theorem verify_otp_ignores_stored_purpose :
  let r := run (verify_otp sample_token (sample_ctx 2000 "") (Some "a@x.com") None
                  (Some "123456") (Some "email")) alice_resetting in
  map (fun u => option_map purpose (otp u)) (users alice_resetting)
  = [Some "password_reset"]
  /\ verdict (fst r) = OK
  /\ verdict (fst r) <> NOT_FOUND
  /\ map otp (users (snd r)) = [None]
  /\ map isVerified_email (users (snd r)) = [true].
Proof.
  cbv zeta.
  assert (V : verdict (fst (run (verify_otp sample_token (sample_ctx 2000 "")
                                   (Some "a@x.com") None (Some "123456") (Some "email"))
                              alice_resetting)) = OK)
    by (vm_compute; reflexivity).
  repeat split; try (vm_compute; reflexivity).
  rewrite V. discriminate.
Qed.

(** ** Login codes for unknown subjects *)

(** C9, as stated, fails when the delivery fails: for the unknown, well-formed
    address ghost@x.com and a relay that times out, the login [send-otp] is
    answered with status 500 and [success: false]. It also fails for a later
    [verify-otp] under the purpose [application]: that one reads the OTP
    collection, so a record issued for the same address before the login
    request still validates after it. *)
Lemma login_otp_for_unknown_email_can_fail :
  let c := {| env := env_with_pass "secret"; now := 1000;
              generateOTP := "123456"; smtp := relay_times_out |} in
  let login w := send_otp Number_of_digits c (Some "ghost@x.com") None (Some "login") w in
  let r := fst (run login empty_world) in
  let applied :=
    snd (run (send_otp Number_of_digits (sample_ctx 500 "654321") (Some "ghost@x.com")
                None (Some "application")) empty_world) in
  find (user_matches (user_query_of (Some "ghost@x.com") None)) (users empty_world) = None
  /\ succeeded r = false
  /\ status r = 500%Z
  /\ field "otpExpiresIn" (body r) = JUndef
  /\ verdict (fst (run (verify_otp sample_token (sample_ctx 2000 "") (Some "ghost@x.com")
                          None (Some "654321") (Some "application"))
                     (snd (run login applied)))) = OK.
Proof. cbv zeta. repeat split; vm_compute; reflexivity. Qed.

Lemma verify_user_query_stronger e p u :
  truthy e || truthy p = true ->
  user_matches (verify_user_query e p) u = true ->
  user_matches (user_query_of e p) u = true.
Proof.
  unfold verify_user_query, user_query_of, user_matches, by_email, by_phone.
  cbn [q_email q_phone]. intros T M.
  destruct (truthy e).
  - apply andb_true_iff in M. destruct M as [M _].
    apply andb_true_iff. split; [exact M | reflexivity].
  - cbn in T. rewrite T in M. exact M.
Qed.

(** C9, amended: a login [send-otp] whose subject matches no user stores no
    OTP in either shape; it attempts the delivery exactly when an email was
    supplied; it answers with success and [otpExpiresIn] = 600 exactly when
    no email was supplied or the delivery succeeded, and with status 500
    otherwise; and every later [verify-otp] for that subject that carries a
    code and a purpose other than [application] returns NOT_FOUND. *)
Theorem login_otp_for_unknown_subject
    (Number : string -> option Q) (generateToken : nat -> string)
    (c : Ctx) (e p : option string) (w : World) :
  truthy e || truthy p = true ->
  find (user_matches (user_query_of e p)) (users w) = None ->
  let r := fst (run (send_otp Number c e p (Some "login")) w) in
  let w' := snd (run (send_otp Number c e p (Some "login")) w) in
  let delivery :=
    Mail.sendOTPEmail Number (env c) (smtp c) e (generateOTP c) (Some "login") (mail w) in
  users w' = users w
  /\ otps w' = otps w
  /\ mail w' = (if truthy e then snd delivery else mail w)
  /\ succeeded r = (if truthy e then Mail.success (fst delivery) else true)
  /\ (succeeded r = true -> field "otpExpiresIn" (body r) = JNum 600)
  /\ (succeeded r = false -> status r = 500%Z)
  /\ (forall c2 o2 pu2,
         truthy o2 = true ->
         is_lit pu2 "application" = false ->
         verdict (fst (run (verify_otp generateToken c2 e p o2 pu2) w')) = NOT_FOUND).
Proof.
  intros T F. cbv zeta.
  assert (U : users (snd (run (send_otp Number c e p (Some "login")) w)) = users w).
  { destruct (send_otp_user_store Number c e p (Some "login") w eq_refl T) as (_ & _ & U).
    rewrite U, F. reflexivity. }
  split; [exact U |].
  split; [apply (send_otp_user_otps Number c e p (Some "login") w eq_refl) |].
  assert (R : mail (snd (run (send_otp Number c e p (Some "login")) w))
              = (if truthy e
                 then snd (Mail.sendOTPEmail Number (env c) (smtp c) e (generateOTP c)
                             (Some "login") (mail w))
                 else mail w)
              /\ succeeded (fst (run (send_otp Number c e p (Some "login")) w))
                 = (if truthy e
                    then Mail.success (fst (Mail.sendOTPEmail Number (env c) (smtp c) e
                                              (generateOTP c) (Some "login") (mail w)))
                    else true)
              /\ (succeeded (fst (run (send_otp Number c e p (Some "login")) w)) = false ->
                  status (fst (run (send_otp Number c e p (Some "login")) w)) = 500%Z)).
  { unfold user_query_of in F.
    unfold send_otp, lookup_user, sendOTPEmail. unroute.
    cbn [is_lit String.eqb Ascii.eqb Bool.eqb].
    destruct (truthy e) eqn:Te; cbn [negb andb orb]; cbn beta iota.
    - rewrite andb_false_r, F. cbn [is_lit or_lit String.eqb Ascii.eqb Bool.eqb negb].
      cbn beta iota.
      destruct (Mail.sendOTPEmail _ _ _ _ _ _ _) as [res m]. cbn [fst snd].
      destruct (Mail.success res); cbn; repeat split; congruence.
    - cbn in T. rewrite T. cbn [negb andb orb]. cbn beta iota. rewrite F.
      cbn. repeat split. discriminate. }
  destruct R as (Rm & Rs & Rf).
  split; [exact Rm | split; [exact Rs | split; [| split; [exact Rf |]]]].
  - intros Hs.
    destruct (send_otp_replies Number c e p (Some "login") w)
      as [(st & msg & rest & E) | (msg & E)]; rewrite E in Hs |- *.
    + rewrite succeeded_fail in Hs. discriminate.
    + apply otpExpiresIn_of_ok.
  - intros c2 o2 pu2 To A.
    assert (G : negb (truthy o2) || (negb (truthy e) && negb (truthy p)) = false).
    { rewrite To. destruct (truthy e), (truthy p); try reflexivity. discriminate T. }
    rewrite (run_verify_otp_user generateToken c2 e p o2 pu2 _ G A), U.
    rewrite (find_none_stronger _ _ _ (fun u => verify_user_query_stronger e p u T) F).
    reflexivity.
Qed.

Lemma login_otp_for_unknown_subject_witness :
  let c := sample_ctx 1000 "123456" in
  let e := Some "ghost@x.com" in
  let r := fst (run (send_otp Number_of_digits c e None (Some "login"))
                  empty_world) in
  let w' := snd (run (send_otp Number_of_digits c e None (Some "login"))
                   empty_world) in
  (truthy e || truthy None = true
   /\ find (user_matches (user_query_of e None)) (users empty_world) = None)
  /\ users w' = []
  /\ otps w' = []
  /\ succeeded r = true
  /\ verdict (fst (run (verify_otp sample_token (sample_ctx 2000 "") e None
                          (Some "123456") (Some "login")) w')) = NOT_FOUND.
Proof.
  cbv zeta.
  pose proof (login_otp_for_unknown_subject Number_of_digits sample_token
                (sample_ctx 1000 "123456") (Some "ghost@x.com") None empty_world
                eq_refl eq_refl) as H.
  cbv zeta in H. destruct H as (U & O & _ & S & _ & _ & V).
  split; [split; reflexivity |].
  split; [exact U | split; [exact O | split]].
  - rewrite S. vm_compute. reflexivity.
  - apply V; reflexivity.
Defined.

(** ** Reset *)

(** C10: [reset-password] changes the store by one [save] of the user it
    found, which replaces the password and clears the slot together: after a
    success the user the lookup finds has the hash of the new password as
    its [password] and no slot, and every user of the store that was not
    there before has both; on every failure reply it changes nothing. *)
Theorem reset_password_all_or_nothing
    (hashPassword : string -> string) (c : Ctx) (e o n : option string) (w : World) :
  let r := fst (run (reset_password hashPassword c e o n) w) in
  let w' := snd (run (reset_password hashPassword c e o n) w) in
  (succeeded r = false -> w' = w)
  /\ (succeeded r = true ->
      exists u slot newPassword u',
        n = Some newPassword
        /\ find (user_matches (by_email e)) (users w) = Some u
        /\ otp u = Some slot
        /\ purpose slot = "password_reset"
        /\ o = Some (code slot)
        /\ expired c (expiresAt slot) = false
        /\ u' = with_otp None (with_password (hashPassword newPassword) u)
        /\ w' = set_users (save_user u' (users w)) w
        /\ find (user_matches (by_email e)) (users w') = Some u'
        /\ password u' = hashPassword newPassword
        /\ otp u' = None
        /\ user_id u' = user_id u
        /\ email u' = email u)
  /\ (forall u, In u (users w') ->
        In u (users w)
        \/ (succeeded r = true /\ otp u = None
            /\ password u = hashPassword (or_lit n "")
            /\ exists v, In v (users w) /\ user_id v = user_id u)).
Proof.
  cbv zeta. rewrite run_reset_password.
  destruct (negb (truthy e) || negb (truthy o) || negb (truthy n)) eqn:G;
    [cbn; repeat split; try discriminate; auto |].
  apply orb_false_iff in G. destruct G as [G Tn].
  apply negb_false_iff in Tn. destruct (truthy_some _ Tn) as (np & -> & Hnp).
  destruct (find (user_matches (by_email e)) (users w)) as [u |] eqn:F;
    [| cbn; repeat split; try discriminate; auto].
  destruct (otp u) as [slot |] eqn:Su; [| cbn; repeat split; try discriminate; auto].
  destruct (negb (purpose slot =? "password_reset") || negb (is_lit o (code slot))) eqn:M;
    [cbn; repeat split; try discriminate; auto |].
  destruct (expired c (expiresAt slot)) eqn:X;
    [cbn; repeat split; try discriminate; auto |].
  apply orb_false_iff in M. destruct M as [Mp Mc].
  apply negb_false_iff in Mp, Mc.
  apply String.eqb_eq in Mp. apply is_lit_true in Mc.
  assert (Enp : or_lit (Some np) "" = np) by apply MailFacts.or_lit_empty.
  rewrite Enp. cbn [fst snd]. split; [rewrite succeeded_ok; discriminate |]. split.
  - intros _.
    exists u, slot, np, (with_otp None (with_password (hashPassword np) u)).
    repeat split; try assumption.
    cbn [users set_users].
    apply find_save_user with (u := u); [exact F | reflexivity |].
    apply (find_some _ _ F).
  - intros v Hv. cbn [users set_users] in Hv. unfold save_user in Hv.
    apply in_map_iff in Hv. destruct Hv as (x & <- & Hx).
    destruct (Nat.eqb_spec (user_id x)
                (user_id (with_otp None (with_password (hashPassword np) u)))) as [E | E].
    + right. split; [apply succeeded_ok | split; [reflexivity | split; [reflexivity |]]].
      exists x. split; [exact Hx | exact E].
    + now left.
Qed.

(** ** Further properties *)

(** Every store the four routes reach from an empty OTP collection keeps the
    identifiers of its OTP records distinct and holds at most one application
    record per subject. *)
Theorem routes_keep_one_record_per_subject
    (Number : string -> option Q) (generateToken : nat -> string)
    (hashPassword : string -> string) (w : World) :
  reachable Number generateToken hashPassword w ->
  NoDup (map otp_id (otps w)) /\ one_per_subject (otps w).
Proof.
  intros R. destruct (reachable_wf Number generateToken hashPassword w R) as (N & _ & W).
  split; assumption.
Qed.

Lemma routes_keep_one_record_per_subject_witness :
  let w := snd (run (send_otp Number_of_digits (sample_ctx 1000 "123456")
                       (Some "b@x.com") None (Some "application")) empty_world) in
  reachable Number_of_digits sample_token no_hash w
  /\ NoDup (map otp_id (otps w)) /\ one_per_subject (otps w).
Proof.
  cbv zeta.
  assert (R : reachable Number_of_digits sample_token no_hash
                (snd (run (send_otp Number_of_digits (sample_ctx 1000 "123456")
                             (Some "b@x.com") None (Some "application")) empty_world))).
  { apply (reach_request _ _ _ empty_world (sample_ctx 1000 "123456")
             (SendOtp (Some "b@x.com") None (Some "application"))).
    apply (reach_start _ _ _ []). }
  split; [exact R |].
  apply (routes_keep_one_record_per_subject Number_of_digits sample_token no_hash _ R).
Defined.

(** An application Issue followed by a validation with the issued code, no
    later than ten minutes after the Issue, returns OK and marks the record:
    the collection then holds a record with the [_id] and the code of the
    issued one and [verified = true]. *)
Theorem issue_then_validate
    (Number : string -> option Q) (generateToken : nat -> string)
    (c1 c2 : Ctx) (e1 p1 e2 p2 : option string) (s : Subject) (w : World) :
  subject_of e1 p1 = Some s ->
  subject_of e2 p2 = Some s ->
  generateOTP c1 <> "" ->
  (now c2 <= now c1 + 600000)%Z ->
  let w1 := snd (run (send_otp Number c1 e1 p1 (Some "application")) w) in
  let v := run (verify_otp generateToken c2 e2 p2 (Some (generateOTP c1))
                  (Some "application")) w1 in
  verdict (fst v) = OK
  /\ otps (snd v) = save_otp (mark_verified (issued_doc c1 (otp_seq w) s)) (otps w1)
  /\ exists r,
      In r (otps (snd v))
      /\ otp_id r = otp_seq w
      /\ otp_code r = generateOTP c1
      /\ verified r = true.
Proof.
  intros S1 S2 Hc Ht w1 v. subst v.
  destruct (send_otp_application_store Number c1 e1 p1 (Some "application") s w
              (is_lit_self _) S1) as (O & _ & _).
  fold w1 in O.
  assert (G : negb (truthy (Some (generateOTP c1)))
              || (negb (truthy e2) && negb (truthy p2)) = false).
  { rewrite (truthy_lit _ Hc). unfold subject_of in S2.
    destruct (truthy e2); [reflexivity |]. destruct (truthy p2); [reflexivity | discriminate]. }
  rewrite (run_verify_otp_application generateToken c2 e2 p2 _ _ w1 G (is_lit_self _)).
  rewrite O, find_app_last.
  2:{ apply find_filtered_out. intros x. apply verify_query_subject, S2. }
  destruct (issued_doc_matches c1 (otp_seq w) e2 p2 s S2) as [M _]. rewrite M.
  unfold expired. cbn [otp_expiresAt otp_code issued_doc].
  destruct (Z.ltb_spec (now c1 + 600000) (now c2)); [lia |].
  rewrite is_lit_self. cbn [fst snd otps set_otps].
  split; [apply verdict_ok | split; [reflexivity |]].
  exists (mark_verified (issued_doc c1 (otp_seq w) s)).
  split; [| repeat split].
  unfold save_otp. apply in_map_iff. exists (issued_doc c1 (otp_seq w) s). split.
  - cbn [otp_id mark_verified issued_doc]. now rewrite Nat.eqb_refl.
  - apply in_or_app. right. left. reflexivity.
Qed.

Lemma issue_then_validate_witness :
  let c1 := sample_ctx 1000 "123456" in
  let c2 := sample_ctx 601000 "" in
  let e := Some "b@x.com" in
  let w1 := snd (run (send_otp Number_of_digits c1 e None (Some "application"))
                   empty_world) in
  (generateOTP c1 <> "" /\ (now c2 <= now c1 + 600000)%Z)
  /\ verdict (fst (run (verify_otp sample_token c2 e None (Some (generateOTP c1))
                          (Some "application")) w1)) = OK
  /\ map verified (otps w1) = [false]
  /\ map verified
       (otps (snd (run (verify_otp sample_token c2 e None (Some (generateOTP c1))
                          (Some "application")) w1))) = [true].
Proof.
  cbv zeta.
  assert (Hc : generateOTP (sample_ctx 1000 "123456") <> "") by discriminate.
  assert (Ht : (now (sample_ctx 601000 "") <= now (sample_ctx 1000 "123456") + 600000)%Z)
    by (cbn; lia).
  split; [split; assumption |].
  split; [| split; reflexivity].
  apply (issue_then_validate Number_of_digits sample_token (sample_ctx 1000 "123456")
           (sample_ctx 601000 "") (Some "b@x.com") None (Some "b@x.com") None
           (ByEmail "b@x.com") empty_world eq_refl eq_refl Hc Ht).
Defined.

(** A password reset is single-use: after a [reset-password] that succeeded,
    the same request again is answered [Invalid OTP or user not found]. *)
Theorem reset_password_is_single_use
    (hashPassword : string -> string) (c1 c2 : Ctx) (e o n : option string) (w : World) :
  succeeded (fst (run (reset_password hashPassword c1 e o n) w)) = true ->
  verdict (fst (run (reset_password hashPassword c2 e o n)
                  (snd (run (reset_password hashPassword c1 e o n) w)))) = NOT_FOUND.
Proof.
  intros Hs. rewrite !run_reset_password. rewrite run_reset_password in Hs.
  destruct (negb (truthy e) || negb (truthy o) || negb (truthy n)); [discriminate Hs |].
  destruct (find (user_matches (by_email e)) (users w)) as [u |] eqn:F;
    [| discriminate Hs].
  destruct (otp u) as [slot |]; [| discriminate Hs].
  destruct (negb (purpose slot =? "password_reset") || negb (is_lit o (code slot)));
    [discriminate Hs |].
  destruct (expired c1 (expiresAt slot)); [discriminate Hs |].
  cbn [snd users set_users].
  rewrite (find_save_user (by_email e) (users w) u
             (with_otp None (with_password (hashPassword (or_lit n "")) u)) F eq_refl
             (proj2 (find_some _ _ F))).
  reflexivity.
Qed.

Lemma reset_password_is_single_use_witness :
  let reset t := reset_password no_hash (sample_ctx t "") (Some "a@x.com")
                   (Some "123456") (Some "new-password") in
  succeeded (fst (run (reset 2000%Z) alice_resetting)) = true
  /\ verdict (fst (run (reset 3000%Z) (snd (run (reset 2000%Z) alice_resetting))))
     = NOT_FOUND.
Proof.
  cbv zeta.
  assert (Hs : succeeded (fst (run (reset_password no_hash (sample_ctx 2000 "")
                                      (Some "a@x.com") (Some "123456")
                                      (Some "new-password")) alice_resetting)) = true)
    by (vm_compute; reflexivity).
  split; [exact Hs |].
  apply (reset_password_is_single_use no_hash (sample_ctx 2000 "") (sample_ctx 3000 "")
           (Some "a@x.com") (Some "123456") (Some "new-password") alice_resetting Hs).
Defined.

End AuthFacts.

(** * The email pattern *)
Module RegexFacts.
Import Js Regex.

Lemma append_nil_r (s : string) : s ++ "" = s.
Proof. induction s as [| c s IH]; cbn; [reflexivity | now rewrite IH]. Qed.

Lemma append_assoc (a b c : string) : (a ++ b) ++ c = a ++ (b ++ c).
Proof. induction a as [| x a IH]; cbn; [reflexivity | now rewrite IH]. Qed.

Lemma append_eq_nil (a b : string) : a ++ b = "" -> a = "" /\ b = "".
Proof. destruct a; cbn; [intros ->; split; reflexivity | discriminate]. Qed.

Lemma nullable_lang (r : re) : nullable r = true <-> lang r "".
Proof.
  split.
  - induction r as [| | p | r1 IH1 r2 IH2 | r1 IH1 r2 IH2 | r IH]; cbn; intros H;
      try discriminate.
    + constructor.
    + apply andb_true_iff in H. destruct H as [H1 H2].
      change "" with ("" ++ ""). constructor; auto.
    + apply orb_true_iff in H. destruct H as [H | H];
        [apply lang_alt_l | apply lang_alt_r]; auto.
    + constructor.
  - intros H. remember "" as s eqn:E.
    induction H as [| p c Hc | r1 r2 s1 s2 H1 IH1 H2 IH2 | r1 r2 s H1 IH1
                   | r1 r2 s H2 IH2 | r | r s1 s2 H1 IH1 H2 IH2]; cbn; try reflexivity.
    + discriminate.
    + apply append_eq_nil in E. destruct E as [-> ->].
      rewrite IH1, IH2; reflexivity.
    + rewrite IH1; [reflexivity | exact E].
    + rewrite IH2; [apply orb_true_r | exact E].
Qed.

Lemma deriv_sound (c : ascii) (r : re) :
  forall s, lang (deriv c r) s -> lang r (String c s).
Proof.
  induction r as [| | p | r1 IH1 r2 IH2 | r1 IH1 r2 IH2 | r IH]; cbn; intros s H.
  - inversion H.
  - inversion H.
  - destruct (p c) eqn:Pc; inversion H; subst. now constructor.
  - destruct (nullable r1) eqn:N.
    + inversion H as [| | | ? ? ? HL | ? ? ? HR | |]; subst.
      * inversion HL as [| | ? ? s1 s2 Ha Hb | | | |]; subst.
        change (String c (s1 ++ s2)) with (String c s1 ++ s2).
        constructor; auto.
      * change (String c s) with ("" ++ String c s).
        constructor; [apply nullable_lang, N | auto].
    + inversion H as [| | ? ? s1 s2 Ha Hb | | | |]; subst.
      change (String c (s1 ++ s2)) with (String c s1 ++ s2).
      constructor; auto.
  - inversion H; subst; [apply lang_alt_l | apply lang_alt_r]; auto.
  - inversion H as [| | ? ? s1 s2 Ha Hb | | | |]; subst.
    change (String c (s1 ++ s2)) with (String c s1 ++ s2).
    constructor; auto.
Qed.

Lemma deriv_complete (c : ascii) (r : re) (t : string) :
  lang r t -> forall s, t = String c s -> lang (deriv c r) s.
Proof.
  intros H.
  induction H as [| p x Hx | r1 r2 s1 s2 H1 IH1 H2 IH2 | r1 r2 t H1 IH1
                 | r1 r2 t H2 IH2 | r | r s1 s2 H1 IH1 H2 IH2]; intros s E; cbn.
  - discriminate.
  - injection E as -> <-. rewrite Hx. constructor.
  - destruct s1 as [| y s1'].
    + cbn in E. assert (N : nullable r1 = true) by (apply nullable_lang, H1).
      rewrite N. apply lang_alt_r. now apply IH2.
    + cbn in E. injection E as -> <-.
      destruct (nullable r1); [apply lang_alt_l |]; constructor; auto.
  - apply lang_alt_l. auto.
  - apply lang_alt_r. auto.
  - discriminate.
  - destruct s1 as [| y s1'].
    + cbn in E. now apply IH2.
    + cbn in E. injection E as -> <-. constructor; auto.
Qed.

(** The matcher decides the language of the pattern. *)
Lemma matches_lang (r : re) (s : string) : matches r s = true <-> lang r s.
Proof.
  revert r. induction s as [| c s IH]; intros r; cbn.
  - apply nullable_lang.
  - rewrite IH. split; [apply deriv_sound | intros H; now apply (deriv_complete c r _ H)].
Qed.

Lemma lang_star_cls (p : ascii -> bool) (s : string) :
  lang (Star (Cls p)) s <-> all_chars p s = true.
Proof.
  split.
  - intros H. remember (Star (Cls p)) as r eqn:E.
    induction H as [| q c Hc | r1 r2 s1 s2 H1 IH1 H2 IH2 | r1 r2 t H1 IH1
                   | r1 r2 t H2 IH2 | r | r s1 s2 H1 IH1 H2 IH2]; try discriminate.
    + reflexivity.
    + injection E as ->. inversion H1; subst. cbn.
      rewrite IH2 by reflexivity. now rewrite andb_true_r.
  - induction s as [| c s IH]; cbn; intros H; [constructor |].
    apply andb_true_iff in H. destruct H as [Hc Hs].
    change (String c s) with (String c "" ++ s).
    constructor; [now constructor | auto].
Qed.

Lemma lang_plus_cls (p : ascii -> bool) (s : string) :
  lang (Plus (Cls p)) s <-> s <> "" /\ all_chars p s = true.
Proof.
  unfold Plus. split.
  - intros H. inversion H as [| | ? ? s1 s2 H1 H2 | | | |]; subst.
    inversion H1; subst. cbn. apply lang_star_cls in H2.
    split; [discriminate | now rewrite H2, andb_true_r].
  - intros [Hn H]. destruct s as [| c s]; [contradiction |].
    cbn in H. apply andb_true_iff in H. destruct H as [Hc Hs].
    change (String c s) with (String c "" ++ s).
    constructor; [now constructor | now apply lang_star_cls].
Qed.

Lemma lang_chr (a : ascii) (s : string) : lang (chr a) s <-> s = String a "".
Proof.
  unfold chr. split.
  - intros H. inversion H as [| ? c Hc | | | | |]; subst.
    apply Ascii.eqb_eq in Hc. now subst.
  - intros ->. constructor. apply Ascii.eqb_refl.
Qed.

(** The pattern [/^[^\s@]+@[^\s@]+\.[^\s@]+$/] accepts exactly the strings of
    the shape [a@b.c]. *)
Lemma email_re_shape (s : string) : matches email_re s = true <-> email_shape s.
Proof.
  rewrite matches_lang. unfold email_re, email_shape. split.
  - intros H.
    inversion H as [| | ? ? a s1 Ha H1 | | | |]; subst.
    inversion H1 as [| | ? ? at_ s2 Hat H2 | | | |]; subst.
    inversion H2 as [| | ? ? b s3 Hb H3 | | | |]; subst.
    inversion H3 as [| | ? ? dot c Hdot Hc | | | |]; subst.
    apply lang_chr in Hat, Hdot. subst.
    apply lang_plus_cls in Ha, Hb, Hc.
    exists a, b, c. cbn. tauto.
  - intros (a & b & c & -> & Na & Nb & Nc & Ha & Hb & Hc).
    constructor; [now apply lang_plus_cls |].
    constructor; [now apply lang_chr |].
    constructor; [now apply lang_plus_cls |].
    constructor; [now apply lang_chr | now apply lang_plus_cls].
Qed.

End RegexFacts.

(** * More on the mail transport adapter *)
Module MailMore.
Import Js Mail Regex Diagnostics Samples MoreSamples.

(** ** Recipients *)

Lemma all_chars_app (p : ascii -> bool) (a b : string) :
  all_chars p (a ++ b) = all_chars p a && all_chars p b.
Proof.
  induction a as [| c a IH]; cbn; [reflexivity | now rewrite IH, andb_assoc].
Qed.

Lemma all_chars_weaken (p q : ascii -> bool) (s : string) :
  (forall c, p c = true -> q c = true) ->
  all_chars p s = true -> all_chars q s = true.
Proof.
  intros I. induction s as [| c s IH]; cbn; [reflexivity |].
  intros H. apply andb_true_iff in H. destruct H as [Hc Hs].
  now rewrite (I c Hc), IH.
Qed.

(** [sendOTPEmail] hands to [sendEmail] exactly the recipients of the shape
    [a@b.c] (three non-empty parts without white space or [@]) and answers
    every other recipient with EINVALID, leaving the adapter as it was; a
    recipient it accepts contains no white space. *)
Theorem sendOTPEmail_accepts_exactly_the_email_shape
    (Number : string -> option Q) (env : Env) (relay : Smtp) (to otp purpose : string)
    (st : State) :
  (email_shape to ->
   sendOTPEmail Number env relay (Some to) otp (Some purpose) st
   = sendEmail Number env relay (Some to) (Some ("Your OTP for " ++ purpose))
       (Some (otp_html otp purpose)) (Some (otp_text otp purpose)) st
   /\ all_chars (fun c => negb (is_space c)) to = true)
  /\ (~ email_shape to ->
      sendOTPEmail Number env relay (Some to) otp (Some purpose) st
      = (failure "Invalid email address format" "EINVALID", st)).
Proof.
  split.
  - intros H. pose proof (proj2 (RegexFacts.email_re_shape to) H) as M.
    destruct H as (a & b & c & -> & Na & _ & _ & Ha & Hb & Hc). split.
    + apply MailFacts.sendOTPEmail_forwards; [| exact M].
      destruct a; [contradiction | discriminate].
    + assert (W : forall s, all_chars not_space_at s = true ->
                            all_chars (fun c => negb (is_space c)) s = true).
      { intros s. apply all_chars_weaken. intros x Hx. unfold not_space_at in Hx.
        apply andb_true_iff in Hx. tauto. }
      rewrite !all_chars_app. rewrite (W a Ha), (W b Hb), (W c Hc). reflexivity.
  - intros H. unfold sendOTPEmail. rewrite MailFacts.or_lit_empty.
    destruct (matches email_re to) eqn:M.
    + exfalso. apply H, RegexFacts.email_re_shape, M.
    + now rewrite orb_true_r.
Qed.

(** ** Building the client *)

Lemma is_loopback_trim (h : string) : is_loopback h = true -> is_loopback (trim h) = true.
Proof.
  unfold is_loopback. intros H. apply orb_true_iff in H.
  destruct H as [H | H]; apply String.eqb_eq in H; subst; reflexivity.
Qed.

(** A configuration that passes [validateSMTPConfig] passes
    [diagnoseSMTPConfig]. *)
Lemma validate_implies_diagnose (Number : string -> option Q) (env : Env) :
  validateSMTPConfig Number env = true -> diagnoseSMTPConfig env = true.
Proof.
  unfold validateSMTPConfig, diagnoseSMTPConfig.
  destruct (EMAIL_HOST env) as [h |]; [| cbn; discriminate].
  destruct (h =? "") eqn:Eh; destruct (trim h =? "") eqn:Et;
    destruct (is_loopback h) eqn:El;
    try (apply is_loopback_trim in El);
    destruct (EMAIL_PORT env) as [p |], (EMAIL_USER env) as [u |],
      (EMAIL_PASS env) as [pw |];
    cbn -[String.eqb trim is_loopback Qle_bool];
    rewrite ?Eh, ?Et, ?El;
    cbn -[String.eqb trim is_loopback Qle_bool];
    try discriminate; try reflexivity.
  all: intros H; exfalso; revert H;
    repeat match goal with
           | |- context [if ?b then _ else _] => destruct b
           | |- context [match ?x with _ => _ end] => destruct x
           end; discriminate.
Qed.

Lemma createTransporter_invalid (Number : string -> option Q) (env : Env) :
  validateSMTPConfig Number env = false -> createTransporter Number env = None.
Proof.
  intros V. unfold createTransporter. rewrite V.
  destruct (diagnoseSMTPConfig env); reflexivity.
Qed.

Lemma validate_needs_host_and_port (Number : string -> option Q) (env : Env) :
  validateSMTPConfig Number env = true ->
  exists h p, EMAIL_HOST env = Some h /\ EMAIL_PORT env = Some p.
Proof.
  unfold validateSMTPConfig. intros V.
  destruct (EMAIL_HOST env) as [h |], (EMAIL_PORT env) as [p |];
    try (exists h, p; split; reflexivity);
    exfalso; revert V;
    repeat match goal with
           | |- context [if ?b then _ else _] => destruct b
           end; discriminate.
Qed.

(** [createTransporter] builds a client exactly for the configurations that
    pass [validateSMTPConfig]. The options it hands to
    [nodemailer.createTransport] always name smtp-relay.brevo.com, port 465,
    [secure] off and no check of the server certificate, whatever EMAIL_HOST
    and EMAIL_PORT say, with EMAIL_USER and EMAIL_PASS as credentials;
    EMAIL_HOST decides one option only, [service], which is [gmail] exactly
    when the trimmed host contains gmail.com and is not set otherwise. What
    nodemailer makes of [service] is its own business and not stated here. *)
Theorem createTransporter_builds_iff_valid (Number : string -> option Q) (env : Env) :
  match createTransporter Number env with
  | None => validateSMTPConfig Number env = false
  | Some cfg =>
      validateSMTPConfig Number env = true
      /\ host cfg = "smtp-relay.brevo.com"
      /\ port cfg = 465%Z
      /\ secure cfg = false
      /\ tls_rejectUnauthorized cfg = false
      /\ auth_user cfg = EMAIL_USER env
      /\ auth_pass cfg = EMAIL_PASS env
      /\ service cfg
         = (if includes "gmail.com" (trim (or_lit (EMAIL_HOST env) "")) then Some "gmail"
            else None)
  end.
Proof.
  destruct (validateSMTPConfig Number env) eqn:V.
  - destruct (validate_needs_host_and_port Number env V) as (h & p & Eh & Ep).
    unfold createTransporter.
    rewrite V, (validate_implies_diagnose Number env V), Eh, Ep.
    rewrite MailFacts.or_lit_empty.
    cbn [negb host port secure tls_rejectUnauthorized auth_user auth_pass service].
    repeat split; reflexivity.
  - now rewrite (createTransporter_invalid Number env V).
Qed.

(** ** The memoised client *)

(** Whatever the state, [getTransporter] leaves it initialised under the
    current fingerprint, and builds at most one client. *)
Lemma getTransporter_settles (Number : string -> option Q) (env : Env) (st : State) :
  let st1 := snd (getTransporter Number env st) in
  transporterInitialized st1 = true
  /\ (transporterInitialized st = true ->
      lastConfigHash st = Some (getConfigHash env) -> st1 = st)
  /\ (transporterInitialized st = false \/ lastConfigHash st <> Some (getConfigHash env) ->
      lastConfigHash st1 = Some (getConfigHash env))
  /\ transporter st1 = fst (getTransporter Number env st)
  /\ outbox st1 = outbox st
  /\ (built st <= built st1 <= S (built st))%nat.
Proof.
  cbv zeta. unfold getTransporter, hash_differs.
  destruct (transporterInitialized st) eqn:I; cbn [negb orb].
  - destruct (lastConfigHash st) as [h |] eqn:L.
    + destruct (String.eqb_spec h (getConfigHash env)) as [-> | D]; cbn [negb fst snd].
      * repeat split; try assumption; try reflexivity; try lia.
        intros [F | F]; [discriminate | contradiction].
      * cbn. destruct (createTransporter Number env); cbn;
          repeat split; try reflexivity; try lia; try congruence.
    + cbn. destruct (createTransporter Number env); cbn;
        repeat split; try reflexivity; try lia; try congruence.
  - cbn. destruct (createTransporter Number env); cbn;
      repeat split; try reflexivity; try lia; try congruence.
Qed.

Lemma getTransporter_is_stable_helper
    (Number : string -> option Q) (env env' : Env) (st : State) :
  getConfigHash env' = getConfigHash env ->
  getTransporter Number env' (snd (getTransporter Number env st))
  = getTransporter Number env st.
Proof.
  intros H.
  destruct (getTransporter_settles Number env st) as (I & Same & Diff & T & _).
  cbv zeta in *.
  assert (L : lastConfigHash (snd (getTransporter Number env st))
              = Some (getConfigHash env)).
  { destruct (transporterInitialized st) eqn:Is.
    - destruct (lastConfigHash st) as [h |] eqn:Ls.
      + destruct (String.eqb_spec h (getConfigHash env)) as [-> | D].
        * rewrite (Same eq_refl eq_refl). exact Ls.
        * apply Diff. right. congruence.
      + apply Diff. right. discriminate.
    - apply Diff. now left. }
  rewrite (MailFacts.getTransporter_reuses Number env' _ I); [| now rewrite H].
  rewrite T. now destruct (getTransporter Number env st).
Qed.

(** After one call of [getTransporter], every further call under an
    environment with the same fingerprint returns the same answer and changes
    nothing: a client is not rebuilt, and a configuration that failed to
    build is not tried again, until host, port or user change. *)
Theorem getTransporter_is_stable_under_the_fingerprint
    (Number : string -> option Q) (env env' : Env) (st : State) :
  getConfigHash env' = getConfigHash env ->
  getTransporter Number env' (snd (getTransporter Number env st))
  = getTransporter Number env st.
Proof.
  exact (getTransporter_is_stable_helper Number env env' st).
Qed.

Lemma getTransporter_is_stable_under_the_fingerprint_witness :
  let unset := {| EMAIL_HOST := Some "smtp.example.com"; EMAIL_PORT := Some "587";
                  EMAIL_USER := Some "bot@example.com"; EMAIL_PASS := None;
                  EMAIL_FROM := None; NODE_ENV := None; SMTP_DEBUG := None |} in
  let set := env_with_pass "secret" in
  getConfigHash set = getConfigHash unset
  /\ createTransporter Number_of_digits set <> None
  /\ getTransporter Number_of_digits set
       (snd (getTransporter Number_of_digits unset initial))
     = getTransporter Number_of_digits unset initial
  /\ fst (getTransporter Number_of_digits unset initial) = None.
Proof.
  cbv zeta. split; [reflexivity | split; [discriminate | split; [| reflexivity]]].
  apply (getTransporter_is_stable_under_the_fingerprint Number_of_digits _
           (env_with_pass "secret") initial).
  reflexivity.
Defined.

(** ** Sending *)

(** While the configuration does not pass [validateSMTPConfig] and no client
    is cached, [sendEmail] answers ENOCONFIG, builds nothing and does not call
    [sendMail]; and it leaves the adapter without a client, so this holds for
    every later call as well. *)
Theorem sendEmail_without_configuration
    (Number : string -> option Q) (env : Env) (relay : Smtp)
    (to subject html text : option string) (st : State) :
  validateSMTPConfig Number env = false ->
  transporter st = None ->
  let '(r, st') := sendEmail Number env relay to subject html text st in
  success r = false
  /\ code r = Some "ENOCONFIG"
  /\ transporter st' = None
  /\ built st' = built st
  /\ outbox st' = outbox st.
Proof.
  intros V T. unfold sendEmail, getTransporter.
  rewrite (createTransporter_invalid Number env V), T.
  destruct (negb (transporterInitialized st)
            || hash_differs (lastConfigHash st) (getConfigHash env));
    cbn; repeat split; try reflexivity; exact T.
Qed.

Lemma sendEmail_without_configuration_witness :
  let blank := {| EMAIL_HOST := Some "   "; EMAIL_PORT := Some "587";
                  EMAIL_USER := Some "bot@example.com"; EMAIL_PASS := Some "secret";
                  EMAIL_FROM := None; NODE_ENV := None; SMTP_DEBUG := None |} in
  (validateSMTPConfig Number_of_digits blank = false /\ transporter initial = None)
  /\ let '(r, st') := sendEmail Number_of_digits blank relay_accepts (Some "a@x.com")
                        (Some "hello") None (Some "text") initial in
     success r = false
     /\ code r = Some "ENOCONFIG"
     /\ transporter st' = None
     /\ built st' = built initial
     /\ outbox st' = outbox initial.
Proof.
  cbv zeta. split; [split; reflexivity |].
  apply (sendEmail_without_configuration Number_of_digits _ relay_accepts
           (Some "a@x.com") (Some "hello") None (Some "text") initial);
    reflexivity.
Defined.

Lemma classify_fields (env : Env) (message : string) (c : option string) :
  success (classify env message c) = false
  /\ code (classify env message c) = c
  /\ originalError (classify env message c) = Some message
  /\ messageId (classify env message c) = None.
Proof.
  unfold classify.
  repeat match goal with
         | |- context [if ?b then _ else _] => destruct b
         end; cbn; repeat split; reflexivity.
Qed.

Lemma sendEmail_cases
    (Number : string -> option Q) (env : Env) (relay : Smtp)
    (to subject html text : option string) (st : State) :
  let r := fst (sendEmail Number env relay to subject html text st) in
  let st' := snd (sendEmail Number env relay to subject html text st) in
  (outbox st' = outbox st /\ success r = false
   /\ (code r = Some "ENOCONFIG" \/ code r = Some "EMISSING"))
  \/ (exists t m,
        fst (getTransporter Number env st) = Some t
        /\ truthy to = true /\ truthy subject = true
        /\ mail_to m = to /\ mail_subject m = subject
        /\ outbox st' = (outbox st ++ [(t, m)])%list
        /\ match relay t m with
           | Sent id => success r = true /\ messageId r = Some id
           | Rejected message c =>
               success r = false /\ code r = c /\ originalError r = Some message
           end).
Proof.
  cbv zeta. unfold sendEmail.
  destruct (getTransporter_settles Number env st) as (_ & _ & _ & _ & O & _).
  cbv zeta in O.
  destruct (getTransporter Number env st) as [[t |] st1]; cbn [fst snd] in *.
  - destruct (truthy to) eqn:Tt; cbn [negb orb].
    + destruct (truthy subject) eqn:Ts; cbn [negb].
      * right. eexists t, _. split; [reflexivity |].
        split; [reflexivity | split; [reflexivity |]].
        destruct (relay t _) eqn:R; cbn [fst snd outbox].
        -- rewrite O, R. repeat split; reflexivity.
        -- rewrite O, R. destruct (classify_fields env message code0) as (A & B & C & _).
           repeat split; assumption.
      * left. cbn. repeat split; [exact O | now right].
    + left. cbn. repeat split; [exact O | now right].
  - left. cbn. repeat split; [exact O | now left].
Qed.

(** One call of [sendEmail] calls [sendMail] at most once, with the client
    [getTransporter] returned; it reports success exactly when that one call
    was answered, with the relay's message id; and it makes no call when it
    answers ENOCONFIG or EMISSING. *)
Theorem sendEmail_makes_one_attempt
    (Number : string -> option Q) (env : Env) (relay : Smtp)
    (to subject html text : option string) (st : State) :
  let r := fst (sendEmail Number env relay to subject html text st) in
  let st' := snd (sendEmail Number env relay to subject html text st) in
  (outbox st' = outbox st /\ success r = false
   /\ (code r = Some "ENOCONFIG" \/ code r = Some "EMISSING"))
  \/ (exists t m,
        fst (getTransporter Number env st) = Some t
        /\ truthy to = true /\ truthy subject = true
        /\ mail_to m = to /\ mail_subject m = subject
        /\ outbox st' = (outbox st ++ [(t, m)])%list
        /\ match relay t m with
           | Sent id => success r = true /\ messageId r = Some id
           | Rejected message c =>
               success r = false /\ code r = c /\ originalError r = Some message
           end).
Proof.
  exact (sendEmail_cases Number env relay to subject html text st).
Qed.

(** The [ETIMEDOUT] branch of the error classification is never taken: a
    time-out is classified with the connection errors before it, so the hint
    written for it is never returned. *)
Theorem classify_never_gives_the_timeout_hint
    (env : Env) (message : string) (c : option string) :
  hint (classify env message c)
  <> Some "The SMTP server did not respond in time. Check your network connection and EMAIL_HOST."
  /\ (c = Some "ETIMEDOUT" ->
      hint (classify env message c)
      = Some "Please set EMAIL_HOST in your .env file (e.g., smtp.gmail.com for Gmail)."
      \/ hint (classify env message c)
         = Some "Please verify EMAIL_HOST and EMAIL_PORT are correct. Check your firewall and network connection.").
Proof.
  unfold classify. split.
  - destruct (code_is c "EAUTH"); [cbn; discriminate |].
    destruct (code_is c "ECONNECTION" || code_is c "ETIMEDOUT" || code_is c "ESOCKET") eqn:K.
    + destruct ((or_lit (EMAIL_HOST env) "NOT SET" =? "NOT SET")
                || (trim (or_lit (EMAIL_HOST env) "NOT SET") =? "")
                || is_loopback (or_lit (EMAIL_HOST env) "NOT SET"));
        cbn; discriminate.
    + destruct (code_is c "EENVELOPE"); [cbn; discriminate |].
      destruct (code_is c "ETIMEDOUT") eqn:T; [| cbn; discriminate].
      destruct (code_is c "ECONNECTION"); cbn in K; discriminate K.
  - intros ->. cbn [code_is is_lit].
    change ("ETIMEDOUT" =? "EAUTH") with false.
    change ("ETIMEDOUT" =? "ECONNECTION") with false.
    change ("ETIMEDOUT" =? "ETIMEDOUT") with true.
    cbn [orb].
    destruct ((or_lit (EMAIL_HOST env) "NOT SET" =? "NOT SET")
              || (trim (or_lit (EMAIL_HOST env) "NOT SET") =? "")
              || is_loopback (or_lit (EMAIL_HOST env) "NOT SET"));
      cbn; [now left | now right].
Qed.

Lemma classify_never_gives_the_timeout_hint_witness :
  let r := classify (env_with_pass "secret") "Connection timeout" (Some "ETIMEDOUT") in
  hint r
  = Some "Please verify EMAIL_HOST and EMAIL_PORT are correct. Check your firewall and network connection."
  /\ hint r
     <> Some "The SMTP server did not respond in time. Check your network connection and EMAIL_HOST.".
Proof.
  cbv zeta. split; [reflexivity |].
  apply (classify_never_gives_the_timeout_hint (env_with_pass "secret")
           "Connection timeout" (Some "ETIMEDOUT")).
Defined.

(** ** The fingerprint *)

Lemma split_at_underscore (a a' b b' : string) :
  no_underscore a -> no_underscore a' ->
  a ++ "_" ++ b = a' ++ "_" ++ b' -> a = a' /\ b = b'.
Proof.
  unfold no_underscore. revert a'.
  induction a as [| c a IH]; intros [| c' a'] Ha Ha' E; cbn in *.
  - injection E as ->. split; reflexivity.
  - injection E as <- _. rewrite Ascii.eqb_refl in Ha'. discriminate Ha'.
  - injection E as -> _. rewrite Ascii.eqb_refl in Ha. discriminate Ha.
  - injection E as -> E.
    apply andb_true_iff in Ha, Ha'. destruct Ha as [_ Ha], Ha' as [_ Ha'].
    destruct (IH a' Ha Ha' E) as [-> ->]. split; reflexivity.
Qed.

(** For hosts and ports without an underscore, two environments have the
    same fingerprint only if they agree on host, port and user (an unset
    variable counting as the empty string). *)
Theorem getConfigHash_separates_plain_configurations (e1 e2 : Env) :
  no_underscore (or_lit (EMAIL_HOST e1) "") ->
  no_underscore (or_lit (EMAIL_HOST e2) "") ->
  no_underscore (or_lit (EMAIL_PORT e1) "") ->
  no_underscore (or_lit (EMAIL_PORT e2) "") ->
  getConfigHash e1 = getConfigHash e2 ->
  or_lit (EMAIL_HOST e1) "" = or_lit (EMAIL_HOST e2) ""
  /\ or_lit (EMAIL_PORT e1) "" = or_lit (EMAIL_PORT e2) ""
  /\ or_lit (EMAIL_USER e1) "" = or_lit (EMAIL_USER e2) "".
Proof.
  unfold getConfigHash. intros H1 H2 P1 P2 E.
  destruct (split_at_underscore _ _ _ _ H1 H2 E) as [Eh E'].
  destruct (split_at_underscore _ _ _ _ P1 P2 E') as [Ep Eu].
  repeat split; assumption.
Qed.

Lemma getConfigHash_separates_plain_configurations_witness :
  let e1 := env_with_pass "old-secret" in
  let e2 := env_with_pass "new-secret" in
  or_lit (EMAIL_HOST e1) "" = or_lit (EMAIL_HOST e2) ""
  /\ or_lit (EMAIL_PORT e1) "" = or_lit (EMAIL_PORT e2) ""
  /\ or_lit (EMAIL_USER e1) "" = or_lit (EMAIL_USER e2) "".
Proof.
  cbv zeta.
  apply (getConfigHash_separates_plain_configurations (env_with_pass "old-secret")
           (env_with_pass "new-secret")); reflexivity.
Defined.

(** With an underscore the fingerprint does not separate: a valid
    configuration and one whose port is no number share theirs, so the second
    inherits the client of the first. *)
Example getConfigHash_collides :
  let valid := {| EMAIL_HOST := Some "mail_out"; EMAIL_PORT := Some "587";
                  EMAIL_USER := Some "bot"; EMAIL_PASS := Some "secret";
                  EMAIL_FROM := None; NODE_ENV := None; SMTP_DEBUG := None |} in
  let broken := {| EMAIL_HOST := Some "mail"; EMAIL_PORT := Some "out_587";
                   EMAIL_USER := Some "bot"; EMAIL_PASS := Some "secret";
                   EMAIL_FROM := None; NODE_ENV := None; SMTP_DEBUG := None |} in
  getConfigHash valid = getConfigHash broken
  /\ createTransporter Number_of_digits broken = None
  /\ fst (getTransporter Number_of_digits broken
            (snd (getTransporter Number_of_digits valid initial))) <> None.
Proof. cbv zeta. repeat split; vm_compute; discriminate. Qed.

(** ** The connection check *)

Lemma verifySMTPConnection_checks_the_cached_helper
    (Number : string -> option Q) (env : Env) (verify : Verifier) (st : State) :
  snd (verifySMTPConnection Number env verify st) = snd (getTransporter Number env st)
  /\ snd (getTransporter Number env (snd (verifySMTPConnection Number env verify st)))
     = snd (getTransporter Number env st).
Proof.
  assert (S : snd (verifySMTPConnection Number env verify st)
              = snd (getTransporter Number env st)).
  { unfold verifySMTPConnection.
    destruct (getTransporter Number env st) as [[t |] st1]; [| reflexivity].
    destruct (verify t) as [[m c] |]; reflexivity. }
  split; [exact S |].
  rewrite S. now rewrite (getTransporter_is_stable_helper Number env env st eq_refl).
Qed.

(** [verifySMTPConnection] changes the adapter only by its call of
    [getTransporter]; it succeeds exactly when that call returned a client
    and [verify] raised nothing; without a client it does not consult
    [verify]; and the client it checked is the one the next [getTransporter]
    under the same environment returns. *)
Theorem verifySMTPConnection_checks_the_cached_client
    (Number : string -> option Q) (env : Env) (verify verify' : Verifier) (st : State) :
  let g := getTransporter Number env st in
  let v := verifySMTPConnection Number env verify st in
  snd v = snd g
  /\ (v_success (fst v) = true <-> exists t, fst g = Some t /\ verify t = None)
  /\ (fst g = None -> verifySMTPConnection Number env verify' st = v)
  /\ getTransporter Number env (snd v) = g.
Proof.
  cbv zeta.
  assert (S : snd (verifySMTPConnection Number env verify st)
              = snd (getTransporter Number env st)).
  { unfold verifySMTPConnection.
    destruct (getTransporter Number env st) as [[t |] st1]; [| reflexivity].
    destruct (verify t) as [[m c] |]; reflexivity. }
  split; [exact S | split; [| split]].
  - unfold verifySMTPConnection.
    destruct (getTransporter Number env st) as [[t |] st1]; cbn [fst snd].
    + destruct (verify t) as [[m c] |] eqn:V; cbn [fst v_success]; split.
      * discriminate.
      * intros (t' & E & V'). injection E as <-. congruence.
      * intros _. now exists t.
      * reflexivity.
    + cbn. split; [discriminate | intros (t & E & _); discriminate].
  - unfold verifySMTPConnection.
    destruct (getTransporter Number env st) as [[t |] st1]; cbn [fst];
      [discriminate | reflexivity].
  - rewrite S.
    apply (getTransporter_is_stable_helper Number env env st eq_refl).
Qed.

Lemma sendEmail_state (Number : string -> option Q) (env : Env) (relay : Smtp)
    (to subject html text : option string) (st : State) :
  let st1 := snd (getTransporter Number env st) in
  let st' := snd (sendEmail Number env relay to subject html text st) in
  built st' = built st1
  /\ transporter st' = transporter st1
  /\ transporterInitialized st' = transporterInitialized st1
  /\ lastConfigHash st' = lastConfigHash st1.
Proof.
  cbv zeta. unfold sendEmail.
  destruct (getTransporter Number env st) as [[t |] st1]; cbn [snd].
  - destruct (negb (truthy to) || negb (truthy subject)); cbn [snd].
    + repeat split; reflexivity.
    + destruct (relay t _); cbn; repeat split; reflexivity.
  - repeat split; reflexivity.
Qed.

(** ** GET /api/test-smtp *)

(** One request to [/api/test-smtp] builds at most one client, since the
    connection check and the test email share it, and calls [sendMail] at
    most once; it calls it only for a [testEmail] of the email shape, with
    the subject [Your OTP for test]. *)
Theorem test_smtp_builds_and_sends_at_most_once
    (Number : string -> option Q) (env : Env) (verify : Verifier) (relay : Smtp)
    (q : option string) (st : State) :
  let st' := snd (test_smtp Number env verify relay q st) in
  (built st <= built st' <= S (built st))%nat
  /\ (outbox st' = outbox st
      \/ exists t m s,
          q = Some s /\ email_shape s
          /\ mail_to m = q
          /\ mail_subject m = Some "Your OTP for test"
          /\ outbox st' = (outbox st ++ [(t, m)])%list).
Proof.
  cbv zeta. unfold test_smtp.
  destruct (verifySMTPConnection_checks_the_cached_helper Number env verify st)
    as (S & G).
  destruct (verifySMTPConnection Number env verify st) as [v st1]. cbn [snd] in S, G.
  destruct (getTransporter_settles Number env st) as (_ & _ & _ & _ & O & B).
  cbv zeta in O, B. rewrite <- S in O, B.
  destruct (truthy q) eqn:Tq; cbn [snd]; [| split; [exact B | now left]].
  destruct (AuthFacts.truthy_some q Tq) as (s & -> & Hs).
  destruct (matches email_re s) eqn:M.
  - rewrite (MailFacts.sendOTPEmail_forwards Number env relay s "123456" "test" st1 Hs M).
    destruct (sendEmail_state Number env relay (Some s) (Some "Your OTP for test")
                (Some (otp_html "123456" "test")) (Some (otp_text "123456" "test")) st1)
      as (Bs & _).
    destruct (sendEmail_cases Number env relay (Some s) (Some "Your OTP for test")
                (Some (otp_html "123456" "test")) (Some (otp_text "123456" "test")) st1)
      as [(Os & _) | (t & m & _ & _ & _ & Mt & Ms & Os & _)].
    all: cbv zeta in Bs; rewrite G, <- S in Bs.
    all: destruct (sendEmail Number env relay _ _ _ _ st1) as [r st2];
      cbn [fst snd] in *.
    + split; [rewrite Bs; exact B | left; congruence].
    + split; [rewrite Bs; exact B | right].
      exists t, m, s. repeat split; try assumption.
      * apply RegexFacts.email_re_shape, M.
      * congruence.
  - unfold sendOTPEmail. rewrite MailFacts.or_lit_empty, M, orb_true_r. cbn [snd].
    split; [exact B | now left].
Qed.

End MailMore.

(** * More on the OTP routes *)
Module AuthMore.
Import Js Auth Frames Samples MoreSamples AuthFacts.
Local Open Scope route_scope.

Lemma same_identity_with_otp (v : option OtpSlot) (u : User) :
  same_identity u (with_otp v u).
Proof. unfold same_identity. cbn. repeat split; auto. Qed.

(** ** What a request may change *)

Section Frames.

Variable Number : string -> option Q.
Variable generateToken : nat -> string.
Variable hashPassword : string -> string.

(** The users after a request: the same, or one [save] of a user that was
    found, which differs from the stored one at most in its slot, in flags
    that were raised, and - for a [reset-password] that succeeded - in its
    password. *)
Lemma handle_users (c : Ctx) (rq : Request) (w : World) :
  let r := fst (run (handle Number generateToken hashPassword c rq) w) in
  let w' := snd (run (handle Number generateToken hashPassword c rq) w) in
  users w' = users w
  \/ exists u u',
      In u (users w)
      /\ users w' = save_user u' (users w)
      /\ same_identity u u'
      /\ (password u' = password u
          \/ (resets rq = true /\ succeeded r = true)).
Proof.
  cbv zeta. destruct rq as [e | e o n | e p pu | e p o pu]; cbn [handle].
  - destruct (forgot_password_store Number c e w) as (_ & _ & U). cbv zeta in U.
    rewrite U. destruct (truthy e); [| now left].
    destruct (find _ (users w)) as [u |] eqn:F; [| now left].
    right. exists u, (with_otp (Some (issued_slot c "password_reset")) u).
    split; [apply (find_some _ _ F) |].
    split; [reflexivity | split; [apply same_identity_with_otp | now left]].
  - rewrite run_reset_password.
    destruct (negb (truthy e) || negb (truthy o) || negb (truthy n)); [now left |].
    destruct (find _ (users w)) as [u |] eqn:F; [| now left].
    destruct (otp u) as [slot |]; [| now left].
    destruct (negb (purpose slot =? "password_reset") || negb (is_lit o (code slot)));
      [now left |].
    destruct (expired c (expiresAt slot)); [now left |].
    right. exists u, (with_otp None (with_password (hashPassword (or_lit n "")) u)).
    split; [apply (find_some _ _ F) |].
    split; [reflexivity | split; [| right; split; reflexivity]].
    unfold same_identity. cbn. repeat split; auto.
  - destruct (is_lit pu "application") eqn:A.
    + left. destruct (subject_of e p) as [s |] eqn:S.
      * apply (send_otp_application_store Number c e p pu s w A S).
      * now rewrite (send_otp_application_no_subject Number c e p pu w A S).
    + destruct (truthy e || truthy p) eqn:T.
      * destruct (send_otp_user_store Number c e p pu w A T) as (_ & _ & U).
        cbv zeta in U. rewrite U.
        destruct (find _ (users w)) as [u |] eqn:F; [| now left].
        right. exists u, (with_otp (Some (issued_slot c (or_lit pu "verification"))) u).
        split; [apply (find_some _ _ F) |].
        split; [reflexivity | split; [apply same_identity_with_otp | now left]].
      * left. apply orb_false_iff in T. destruct T as [Te Tp].
        unfold send_otp, lookup_user, sendOTPEmail. rewrite A, Te, Tp. reflexivity.
  - destruct (negb (truthy o) || (negb (truthy e) && negb (truthy p))) eqn:G.
    { rewrite (run_verify_otp_guard generateToken c e p o pu w G). now left. }
    destruct (is_lit pu "application") eqn:A.
    + left. rewrite (run_verify_otp_application generateToken c e p o pu w G A).
      destruct (find _ (otps w)) as [d |]; [| reflexivity].
      destruct (expired c (otp_expiresAt d)); [reflexivity |].
      destruct (is_lit o (otp_code d)); reflexivity.
    + rewrite (run_verify_otp_user generateToken c e p o pu w G A).
      destruct (find _ (users w)) as [u |] eqn:F; [| now left].
      destruct (otp u) as [slot |]; [| now left].
      destruct (expired c (expiresAt slot)); [now left |].
      destruct (is_lit o (code slot)); [| now left].
      right. exists u, (verified_user e p pu u).
      split; [apply (find_some _ _ F) |].
      split; [reflexivity | split; [| now left]].
      unfold verified_user, same_identity. cbn.
      repeat split; try reflexivity; intros ->;
        repeat match goal with |- context [if ?b then _ else _] => destruct b end;
        reflexivity.
Qed.

Lemma NoDup_ids_same (l : list User) (x y : User) :
  NoDup (map user_id l) -> In x l -> In y l -> user_id x = user_id y -> x = y.
Proof.
  induction l as [| z l IH]; cbn; intros N Hx Hy E; [destruct Hx |].
  inversion N as [| ? ? Nz Nl]; subst.
  destruct Hx as [-> | Hx], Hy as [-> | Hy].
  - reflexivity.
  - exfalso. apply Nz. rewrite E. now apply in_map.
  - exfalso. apply Nz. rewrite <- E. now apply in_map.
  - now apply IH.
Qed.

Lemma same_identity_refl (u : User) : same_identity u u.
Proof. unfold same_identity. repeat split; auto. Qed.

Lemma save_user_Forall2 (l : list User) (u u' : User) :
  NoDup (map user_id l) -> In u l -> same_identity u u' ->
  Forall2 same_identity l (save_user u' l).
Proof.
  intros N Hu S.
  assert (K : forall x, In x l -> user_id x = user_id u' -> x = u).
  { intros x Hx E. apply (NoDup_ids_same l x u N Hx Hu).
    destruct S as (I & _). congruence. }
  clear N Hu. induction l as [| x l IH]; cbn; constructor.
  - destruct (Nat.eqb_spec (user_id x) (user_id u')) as [E | E].
    + rewrite (K x (or_introl eq_refl) E). exact S.
    + apply same_identity_refl.
  - apply IH. intros y Hy. apply K. now right.
Qed.

Lemma save_user_map {A} (f : User -> A) (l : list User) (u u' : User) :
  NoDup (map user_id l) -> In u l -> user_id u' = user_id u -> f u' = f u ->
  map f (save_user u' l) = map f l.
Proof.
  intros N Hu I E. unfold save_user. rewrite map_map. apply map_ext_in.
  intros x Hx. destruct (Nat.eqb_spec (user_id x) (user_id u')) as [Ex | Ex];
    [| reflexivity].
  rewrite E. f_equal. symmetry. apply (NoDup_ids_same l x u N Hx Hu). congruence.
Qed.

Lemma Forall2_same_identity_refl (l : list User) : Forall2 same_identity l l.
Proof. induction l; constructor; [apply same_identity_refl | assumption]. Qed.

(** None of the four routes adds or removes a user or changes a user's
    [_id], name, email, phone, [isActive] or role, and none lowers a
    verification flag: the users after a request are, one for one, the users
    before it up to slot, password and raised flags. *)
Theorem routes_keep_user_identities (c : Ctx) (rq : Request) (w : World) :
  NoDup (map user_id (users w)) ->
  let w' := snd (run (handle Number generateToken hashPassword c rq) w) in
  Forall2 same_identity (users w) (users w')
  /\ map identity (users w') = map identity (users w).
Proof.
  intros N. cbv zeta.
  destruct (handle_users c rq w) as [E | (u & u' & Hu & E & S & _)];
    cbv zeta in E; rewrite E.
  - split; [apply Forall2_same_identity_refl | reflexivity].
  - split; [now apply (save_user_Forall2 _ u u') |].
    destruct S as (I & Sn & Se & Sp & Sa & Sr & _).
    apply (save_user_map identity _ u u' N Hu I).
    unfold identity. congruence.
Qed.

(** A stored password changes only in a [reset-password] that succeeded. *)
Theorem only_a_successful_reset_changes_a_password
    (c : Ctx) (rq : Request) (w : World) :
  NoDup (map user_id (users w)) ->
  let r := fst (run (handle Number generateToken hashPassword c rq) w) in
  let w' := snd (run (handle Number generateToken hashPassword c rq) w) in
  resets rq = false \/ succeeded r = false ->
  map password (users w') = map password (users w).
Proof.
  intros N. cbv zeta. intros H.
  destruct (handle_users c rq w) as [E | (u & u' & Hu & E & S & P)];
    cbv zeta in *; rewrite E; [reflexivity |].
  destruct S as (I & _).
  apply (save_user_map password _ u u' N Hu I).
  destruct P as [P | [P1 P2]]; [exact P |].
  destruct H as [H | H]; congruence.
Qed.

(** The application branches never write a user, and every other request
    leaves the OTP collection as it was. *)
Theorem application_and_user_stores_are_separate
    (c : Ctx) (rq : Request) (w : World) :
  let w' := snd (run (handle Number generateToken hashPassword c rq) w) in
  (is_application rq = true -> users w' = users w)
  /\ (is_application rq = false -> otps w' = otps w /\ otp_seq w' = otp_seq w).
Proof.
  cbv zeta. destruct rq as [e | e o n | e p pu | e p o pu];
    cbn [handle is_application].
  - split; [discriminate | intros _].
    destruct (forgot_password_store Number c e w) as (O & Q & _). split; assumption.
  - split; [discriminate | intros _]. rewrite run_reset_password.
    repeat match goal with
           | |- context [if ?b then _ else _] => destruct b
           | |- context [match find ?f ?l with _ => _ end] => destruct (find f l)
           | |- context [match otp ?u with _ => _ end] => destruct (otp u)
           end; split; reflexivity.
  - split.
    + intros A. destruct (subject_of e p) as [s |] eqn:S.
      * apply (send_otp_application_store Number c e p pu s w A S).
      * now rewrite (send_otp_application_no_subject Number c e p pu w A S).
    + intros A. apply (send_otp_user_otps Number c e p pu w A).
  - destruct (negb (truthy o) || (negb (truthy e) && negb (truthy p))) eqn:G.
    { rewrite (run_verify_otp_guard generateToken c e p o pu w G).
      split; intros _; [| split]; reflexivity. }
    split; intros A.
    + rewrite (run_verify_otp_application generateToken c e p o pu w G A).
      destruct (find _ (otps w)) as [d |]; [| reflexivity].
      destruct (expired c (otp_expiresAt d)); [reflexivity |].
      destruct (is_lit o (otp_code d)); reflexivity.
    + rewrite (run_verify_otp_user generateToken c e p o pu w G A).
      destruct (find _ (users w)) as [u |]; [| split; reflexivity].
      destruct (otp u) as [slot |]; [| split; reflexivity].
      destruct (expired c (expiresAt slot)); [split; reflexivity |].
      destruct (is_lit o (code slot)); split; reflexivity.
Qed.

End Frames.

Lemma NoDup_alice_resetting : NoDup (map user_id (users alice_resetting)).
Proof. vm_compute. constructor; [intros [] | constructor]. Qed.

Lemma routes_keep_user_identities_witness :
  let rq := VerifyOtp (Some "a@x.com") None (Some "123456") (Some "email") in
  let w' := snd (run (handle Number_of_digits sample_token no_hash (sample_ctx 2000 "") rq)
                   alice_resetting) in
  NoDup (map user_id (users alice_resetting))
  /\ Forall2 same_identity (users alice_resetting) (users w')
  /\ map identity (users w') = map identity (users alice_resetting).
Proof.
  cbv zeta. split; [exact NoDup_alice_resetting |].
  apply (routes_keep_user_identities Number_of_digits sample_token no_hash
           (sample_ctx 2000 "")
           (VerifyOtp (Some "a@x.com") None (Some "123456") (Some "email"))
           alice_resetting NoDup_alice_resetting).
Defined.

Lemma only_a_successful_reset_changes_a_password_witness :
  let rq := ResetPassword (Some "a@x.com") (Some "000000") (Some "new-password") in
  let r := fst (run (handle Number_of_digits sample_token no_hash (sample_ctx 2000 "") rq)
                  alice_resetting) in
  let w' := snd (run (handle Number_of_digits sample_token no_hash (sample_ctx 2000 "") rq)
                   alice_resetting) in
  (NoDup (map user_id (users alice_resetting)) /\ succeeded r = false)
  /\ map password (users w') = map password (users alice_resetting).
Proof.
  cbv zeta.
  assert (F : succeeded
                (fst (run (handle Number_of_digits sample_token no_hash
                             (sample_ctx 2000 "")
                             (ResetPassword (Some "a@x.com") (Some "000000")
                                (Some "new-password"))) alice_resetting)) = false)
    by (vm_compute; reflexivity).
  split; [split; [exact NoDup_alice_resetting | exact F] |].
  apply (only_a_successful_reset_changes_a_password Number_of_digits sample_token no_hash
           (sample_ctx 2000 "")
           (ResetPassword (Some "a@x.com") (Some "000000") (Some "new-password"))
           alice_resetting NoDup_alice_resetting).
  right. exact F.
Defined.

(** ** Echoing the code *)

Ltac split_reply :=
  repeat (cbn [negb andb orb]; cbn beta iota;
          match goal with
          | |- context [Mail.sendOTPEmail ?a ?b ?c ?d ?e ?f ?g] =>
              destruct (Mail.sendOTPEmail a b c d e f g) as [? ?]
          | |- context [match find ?f ?l with _ => _ end] => destruct (find f l)
          | |- context [match otp ?u with _ => _ end] => destruct (otp u)
          | |- context [match Mail.config ?r with _ => _ end] => destruct (Mail.config r)
          | |- context [if ?b then _ else _] => destruct b
          end).

(** In production no reply of the four routes carries a [devOtp] field;
    outside production every successful [send-otp] reply carries the
    generated code in it. [forgot-password] echoes the code in neither
    mode. *)
Theorem the_code_is_echoed_only_outside_production
    (Number : string -> option Q) (generateToken : nat -> string)
    (hashPassword : string -> string) (c : Ctx) (w : World) :
  (is_lit (Mail.NODE_ENV (env c)) "production" = true ->
   forall rq,
     field "devOtp" (body (fst (run (handle Number generateToken hashPassword c rq) w)))
     = JUndef)
  /\ (is_lit (Mail.NODE_ENV (env c)) "production" = false ->
      forall e p pu,
        succeeded (fst (run (send_otp Number c e p pu) w)) = true ->
        field "devOtp" (body (fst (run (send_otp Number c e p pu) w)))
        = JStr (generateOTP c))
  /\ (forall e,
        field "devOtp" (body (fst (run (forgot_password Number c e) w))) = JUndef).
Proof.
  split; [| split].
  - intros P rq.
    assert (D : devOtp c = []) by (unfold devOtp; now rewrite P).
    destruct rq as [e | e o n | e p pu | e p o pu]; cbn [handle].
    + unfold forgot_password, sendOTPEmail. unroute. split_reply; reflexivity.
    + unfold reset_password. unroute. split_reply; reflexivity.
    + unfold send_otp, send_otp_application, lookup_user, sendOTPEmail. rewrite !D.
      unroute. split_reply; reflexivity.
    + unfold verify_otp, verify_otp_application, verify_otp_user, spread_if.
      unroute. split_reply; reflexivity.
  - intros P e p pu Hs.
    assert (D : devOtp c = [("devOtp", JStr (generateOTP c))])
      by (unfold devOtp; now rewrite P).
    destruct (send_otp_replies Number c e p pu w) as [(st & msg & rest & E) | (msg & E)];
      cbv zeta in E; rewrite E in Hs |- *.
    + rewrite succeeded_fail in Hs. discriminate Hs.
    + rewrite D. reflexivity.
  - intros e. unfold forgot_password, sendOTPEmail. unroute. split_reply; reflexivity.
Qed.

(** ** Issue, then consume *)

Section RoundTrips.

Variable Number : string -> option Q.
Variable generateToken : nat -> string.
Variable hashPassword : string -> string.

Lemma not_expired_within (c1 c2 : Ctx) :
  (now c2 <= now c1 + 600000)%Z -> expired c2 (now c1 + 600000) = false.
Proof. intros H. unfold expired. apply Z.ltb_ge. exact H. Qed.

(** A [forgot-password] for an existing user followed, within ten minutes,
    by a [reset-password] with the generated code succeeds, whether or not
    the email was delivered: the [password] of the user the lookup then finds
    is the hash of the new password, and its slot is empty. *)
Theorem forgot_then_reset_replaces_the_password
    (c1 c2 : Ctx) (e n : option string) (u : User) (w : World) :
  truthy e = true ->
  truthy n = true ->
  generateOTP c1 <> "" ->
  (now c2 <= now c1 + 600000)%Z ->
  find (user_matches (by_email e)) (users w) = Some u ->
  let w1 := snd (run (forgot_password Number c1 e) w) in
  let v := run (reset_password hashPassword c2 e (Some (generateOTP c1)) n) w1 in
  succeeded (fst v) = true
  /\ find (user_matches (by_email e)) (users (snd v))
     = Some (with_otp None (with_password (hashPassword (or_lit n "")) u))
  /\ option_map password (find (user_matches (by_email e)) (users (snd v)))
     = Some (hashPassword (or_lit n ""))
  /\ option_map otp (find (user_matches (by_email e)) (users (snd v))) = Some None.
Proof.
  intros Te Tn Hc Ht F w1 v. subst v.
  destruct (forgot_password_store Number c1 e w) as (_ & _ & U). fold w1 in U.
  rewrite Te, F in U.
  set (u1 := with_otp (Some (issued_slot c1 "password_reset")) u) in *.
  assert (F1 : find (user_matches (by_email e)) (users w1) = Some u1).
  { rewrite U. apply find_save_user with (u := u); [exact F | reflexivity |].
    apply (find_some _ _ F). }
  rewrite run_reset_password, Te, Tn, (truthy_lit _ Hc), F1.
  cbn [negb orb otp u1 with_otp purpose code expiresAt issued_slot].
  rewrite String.eqb_refl, is_lit_self, (not_expired_within c1 c2 Ht).
  cbn [negb orb fst snd users set_users]. split; [reflexivity |].
  assert (Fv : find (user_matches (by_email e))
                 (save_user (with_otp None (with_password (hashPassword (or_lit n "")) u1))
                    (users w1))
               = Some (with_otp None (with_password (hashPassword (or_lit n "")) u1))).
  { apply find_save_user with (u := u1); [exact F1 | reflexivity |].
    apply (find_some _ _ F1). }
  rewrite Fv. repeat split.
Qed.

(** After a user-based [send-otp] under a purpose other than
    [password_reset], no [reset-password] for that email succeeds, whatever
    code it supplies: the new slot has replaced a pending reset code. *)
Theorem a_later_issue_cancels_a_pending_reset
    (c1 c2 : Ctx) (e p pu o n : option string) (u : User) (w : World) :
  truthy e = true ->
  is_lit pu "application" = false ->
  or_lit pu "verification" <> "password_reset" ->
  find (user_matches (by_email e)) (users w) = Some u ->
  let w1 := snd (run (send_otp Number c1 e p pu) w) in
  succeeded (fst (run (reset_password hashPassword c2 e o n) w1)) = false
  /\ snd (run (reset_password hashPassword c2 e o n) w1) = w1.
Proof.
  intros Te A Hp F w1.
  destruct (send_otp_user_store Number c1 e p pu w A) as (_ & _ & U).
  { now rewrite Te. }
  fold w1 in U. unfold user_query_of in U. rewrite Te, F in U.
  set (u1 := with_otp (Some (issued_slot c1 (or_lit pu "verification"))) u) in *.
  assert (F1 : find (user_matches (by_email e)) (users w1) = Some u1).
  { rewrite U. apply find_save_user with (u := u); [exact F | reflexivity |].
    apply (find_some _ _ F). }
  rewrite run_reset_password, F1.
  destruct (negb (truthy e) || negb (truthy o) || negb (truthy n));
    [split; reflexivity |].
  cbn [otp u1 with_otp purpose issued_slot].
  destruct (String.eqb_spec (or_lit pu "verification") "password_reset");
    [contradiction |].
  cbn [negb orb]. split; reflexivity.
Qed.

Lemma find_save_user_stronger (q q' : UserQuery) (l : list User) (u u' : User) :
  (forall x, user_matches q' x = true -> user_matches q x = true) ->
  find (user_matches q) l = Some u ->
  user_id u' = user_id u ->
  find (user_matches q') (save_user u' l)
  = if user_matches q' u' then Some u'
    else find (user_matches q')
           (filter (fun x => negb (user_id x =? user_id u')%nat) l).
Proof.
  intros S F I. unfold save_user. induction l as [| x l IH]; [discriminate |].
  cbn in F |- *. destruct (user_matches q x) eqn:Mx.
  - injection F as ->. rewrite I, Nat.eqb_refl. cbn [negb].
    destruct (user_matches q' u') eqn:M'; [reflexivity |].
    clear IH. induction l as [| y l IH]; [reflexivity |].
    cbn. destruct (user_id y =? user_id u)%nat; cbn [negb].
    + rewrite M'. exact IH.
    + cbn. destruct (user_matches q' y); [reflexivity | exact IH].
  - destruct (user_id x =? user_id u')%nat; cbn [negb].
    + destruct (user_matches q' u') eqn:M'; [reflexivity |].
      rewrite (IH F), ?M'. reflexivity.
    + cbn. destruct (user_matches q' x) eqn:M'x.
      * apply S in M'x. congruence.
      * rewrite (IH F). reflexivity.
Qed.

(** A user-based [send-otp] looks the user up by the email alone when the
    request has one, [verify-otp] by email and phone together. So the code
    validates within ten minutes when the user found also matches the filter
    of [verify-otp]; when the request carries the email of one user and a
    phone that is not that user's, and no user has both, the code was stored
    and the same email and phone can never validate it. *)
Theorem user_code_validates_when_the_body_matches
    (c1 c2 : Ctx) (e p pu : option string) (u : User) (w : World) :
  is_lit pu "application" = false ->
  truthy e || truthy p = true ->
  generateOTP c1 <> "" ->
  (now c2 <= now c1 + 600000)%Z ->
  find (user_matches (user_query_of e p)) (users w) = Some u ->
  let w1 := snd (run (send_otp Number c1 e p pu) w) in
  let v := fst (run (verify_otp generateToken c2 e p (Some (generateOTP c1)) pu) w1) in
  option_map otp (find (user_matches (user_query_of e p)) (users w1))
  = Some (Some (issued_slot c1 (or_lit pu "verification")))
  /\ (user_matches (verify_user_query e p) u = true -> verdict v = OK)
  /\ (find (user_matches (verify_user_query e p)) (users w) = None ->
      verdict v = NOT_FOUND).
Proof.
  intros A T Hc Ht F w1 v. subst v.
  destruct (send_otp_user_store Number c1 e p pu w A T) as (_ & _ & U).
  fold w1 in U. rewrite F in U.
  set (u1 := with_otp (Some (issued_slot c1 (or_lit pu "verification"))) u) in *.
  assert (G : negb (truthy (Some (generateOTP c1)))
              || (negb (truthy e) && negb (truthy p)) = false).
  { rewrite (truthy_lit _ Hc). destruct (truthy e), (truthy p); try reflexivity.
    discriminate T. }
  rewrite (run_verify_otp_user generateToken c2 e p _ pu w1 G A), U.
  rewrite (find_save_user_stronger (user_query_of e p) (verify_user_query e p)
             (users w) u u1 (fun x => verify_user_query_stronger e p x T) F eq_refl).
  change (user_matches (verify_user_query e p) u1)
    with (user_matches (verify_user_query e p) u).
  split; [| split].
  - rewrite (find_save_user (user_query_of e p) (users w) u u1 F eq_refl
               (proj2 (find_some _ _ F))). reflexivity.
  - intros M. rewrite M. cbn [otp u1 with_otp expiresAt code issued_slot].
    rewrite (not_expired_within c1 c2 Ht), is_lit_self. apply verdict_ok.
  - intros N.
    destruct (user_matches (verify_user_query e p) u) eqn:M.
    + pose proof (find_some _ _ F) as [Hu _].
      pose proof (find_none _ _ N u Hu) as K. congruence.
    + rewrite find_all_false; [reflexivity |].
      intros x Hx. apply filter_In in Hx. destruct Hx as [Hx _].
      apply (find_none _ _ N x Hx).
Qed.

End RoundTrips.

Section Delivery.

Variable Number : string -> option Q.
Variable generateToken : nat -> string.

Lemma application_code_validates
    (c1 c2 : Ctx) (e1 p1 e2 p2 : option string) (s : Subject) (w : World) :
  subject_of e1 p1 = Some s ->
  subject_of e2 p2 = Some s ->
  generateOTP c1 <> "" ->
  (now c2 <= now c1 + 600000)%Z ->
  verdict (fst (run (verify_otp generateToken c2 e2 p2 (Some (generateOTP c1))
                       (Some "application"))
                  (snd (run (send_otp Number c1 e1 p1 (Some "application")) w)))) = OK.
Proof.
  intros S1 S2 Hc Ht.
  destruct (send_otp_application_store Number c1 e1 p1 (Some "application") s w
              (is_lit_self _) S1) as (O & _ & _).
  cbv zeta in O.
  assert (G : negb (truthy (Some (generateOTP c1)))
              || (negb (truthy e2) && negb (truthy p2)) = false).
  { rewrite (truthy_lit _ Hc). unfold subject_of in S2.
    destruct (truthy e2); [reflexivity |]. destruct (truthy p2); [reflexivity | discriminate]. }
  rewrite (run_verify_otp_application generateToken c2 e2 p2 _ _ _ G (is_lit_self _)).
  rewrite O, find_app_last.
  2:{ apply find_filtered_out. intros x. apply verify_query_subject, S2. }
  destruct (issued_doc_matches c1 (otp_seq w) e2 p2 s S2) as [M _]. rewrite M.
  cbn [otp_expiresAt otp_code issued_doc].
  rewrite (not_expired_within c1 c2 Ht), is_lit_self. apply verdict_ok.
Qed.

(** The application [send-otp] stores the record before it sends the email
    and does not take it back: when the delivery fails the reply is a 500
    failure, which outside production still carries the code, and the code
    validates for the next ten minutes. *)
Theorem a_failed_delivery_keeps_the_application_code
    (c1 : Ctx) (e p : option string) (w : World) :
  truthy e = true ->
  Mail.success (fst (Mail.sendOTPEmail Number (env c1) (smtp c1) e (generateOTP c1)
                       (Some "application") (mail w))) = false ->
  let r1 := fst (run (send_otp Number c1 e p (Some "application")) w) in
  let w1 := snd (run (send_otp Number c1 e p (Some "application")) w) in
  status r1 = 500%Z
  /\ succeeded r1 = false
  /\ field "devOtp" (body r1)
     = (if is_lit (Mail.NODE_ENV (env c1)) "production" then JUndef
        else JStr (generateOTP c1))
  /\ (generateOTP c1 <> "" ->
      forall c2 p2,
        (now c2 <= now c1 + 600000)%Z ->
        verdict (fst (run (verify_otp generateToken c2 e p2 (Some (generateOTP c1))
                             (Some "application")) w1)) = OK).
Proof.
  intros Te D. cbv zeta.
  assert (R : status (fst (run (send_otp Number c1 e p (Some "application")) w)) = 500%Z
              /\ succeeded (fst (run (send_otp Number c1 e p (Some "application")) w)) = false
              /\ field "devOtp"
                   (body (fst (run (send_otp Number c1 e p (Some "application")) w)))
                 = (if is_lit (Mail.NODE_ENV (env c1)) "production" then JUndef
                    else JStr (generateOTP c1))).
  { unfold send_otp, send_otp_application, sendOTPEmail, devOtp.
    cbn [is_lit]. rewrite String.eqb_refl, Te. unroute.
    cbn [mail set_otps users otps otp_seq].
    destruct (Mail.sendOTPEmail Number (env c1) (smtp c1) e (generateOTP c1)
                (Some "application") (mail w)) as [res m].
    cbn [fst] in D. rewrite D. cbn [negb]. cbn beta iota. cbn [fst status fail body].
    split; [reflexivity | split; [reflexivity |]].
    destruct (Mail.config res); destruct (is_lit (Mail.NODE_ENV (env c1)) "production");
      reflexivity. }
  destruct R as (R1 & R2 & R3).
  split; [exact R1 | split; [exact R2 | split; [exact R3 |]]].
  intros Hc c2 p2 Ht.
  assert (S : forall q, subject_of e q = subject_of e p).
  { intros q. unfold subject_of. now rewrite Te. }
  destruct (subject_of e p) as [s |] eqn:Sp.
  - apply (application_code_validates c1 c2 e p e p2 s w Sp); [| exact Hc | exact Ht].
    now rewrite S.
  - unfold subject_of in Sp. rewrite Te in Sp.
    destruct (truthy_some _ Te) as (x & -> & _). discriminate Sp.
Qed.

End Delivery.

Lemma forgot_then_reset_replaces_the_password_witness :
  let c1 := sample_ctx 1000 "123456" in
  let c2 := sample_ctx 2000 "" in
  let w1 := snd (run (forgot_password Number_of_digits c1 (Some "a@x.com")) alice_alone) in
  let v := run (reset_password no_hash c2 (Some "a@x.com") (Some "123456")
                  (Some "new-password")) w1 in
  succeeded (fst v) = true
  /\ find (user_matches (by_email (Some "a@x.com"))) (users (snd v))
     = Some (with_otp None (with_password "new-password" alice))
  /\ option_map password (find (user_matches (by_email (Some "a@x.com"))) (users (snd v)))
     = Some "new-password"
  /\ option_map otp (find (user_matches (by_email (Some "a@x.com"))) (users (snd v)))
     = Some None.
Proof.
  apply (forgot_then_reset_replaces_the_password Number_of_digits no_hash
           (sample_ctx 1000 "123456") (sample_ctx 2000 "") (Some "a@x.com")
           (Some "new-password") alice alice_alone);
    [reflexivity | reflexivity | discriminate | cbn; lia | reflexivity].
Defined.

Lemma a_later_issue_cancels_a_pending_reset_witness :
  let c1 := sample_ctx 3000 "654321" in
  let c2 := sample_ctx 3500 "" in
  let w1 := snd (run (send_otp Number_of_digits c1 (Some "a@x.com") None (Some "email"))
                   alice_resetting) in
  succeeded (fst (run (reset_password no_hash c2 (Some "a@x.com") (Some "123456")
                         (Some "new-password")) w1)) = false
  /\ snd (run (reset_password no_hash c2 (Some "a@x.com") (Some "123456")
                 (Some "new-password")) w1) = w1.
Proof.
  apply (a_later_issue_cancels_a_pending_reset Number_of_digits no_hash
           (sample_ctx 3000 "654321") (sample_ctx 3500 "") (Some "a@x.com") None
           (Some "email") (Some "123456") (Some "new-password")
           (with_otp (Some (issued_slot (sample_ctx 1000 "123456") "password_reset")) alice)
           alice_resetting);
    [reflexivity | reflexivity | discriminate | reflexivity].
Defined.

Lemma user_code_validates_when_the_body_matches_witness :
  let c1 := sample_ctx 1000 "123456" in
  let c2 := sample_ctx 2000 "" in
  let w1 := snd (run (send_otp Number_of_digits c1 (Some "a@x.com") None (Some "email"))
                   alice_alone) in
  let v := fst (run (verify_otp sample_token c2 (Some "a@x.com") None (Some "123456")
                       (Some "email")) w1) in
  user_matches (verify_user_query (Some "a@x.com") None) alice = true
  /\ verdict v = OK.
Proof.
  cbv zeta. split; [reflexivity |].
  apply (user_code_validates_when_the_body_matches Number_of_digits sample_token
           (sample_ctx 1000 "123456") (sample_ctx 2000 "") (Some "a@x.com") None
           (Some "email") alice alice_alone);
    [reflexivity | reflexivity | discriminate | cbn; lia | reflexivity | reflexivity].
Defined.

Lemma a_failed_delivery_keeps_the_application_code_witness :
  let c1 := failing_ctx 1000 "123456" in
  let r1 := fst (run (send_otp Number_of_digits c1 (Some "a@x.com") None
                        (Some "application")) empty_world) in
  let w1 := snd (run (send_otp Number_of_digits c1 (Some "a@x.com") None
                        (Some "application")) empty_world) in
  status r1 = 500%Z
  /\ succeeded r1 = false
  /\ field "devOtp" (body r1) = JUndef
  /\ verdict (fst (run (verify_otp sample_token (sample_ctx 2000 "") (Some "a@x.com") None
                          (Some "123456") (Some "application")) w1)) = OK.
Proof.
  cbv zeta.
  destruct (a_failed_delivery_keeps_the_application_code Number_of_digits sample_token
              (failing_ctx 1000 "123456") (Some "a@x.com") None empty_world
              eq_refl eq_refl) as (R1 & R2 & R3 & R4).
  split; [exact R1 | split; [exact R2 | split; [exact R3 |]]].
  apply (R4 ltac:(discriminate) (sample_ctx 2000 "") None). cbn. lia.
Defined.

End AuthMore.

(** * The account routes *)
Module AccountFacts.
Import Js Auth Accounts Samples MoreSamples AuthFacts.
Local Open Scope route_scope.

Section Accounts.

Variable generateToken : nat -> string.
Variable hashPassword : string -> string.
Variable comparePassword : string -> string -> bool.
Variable defaultRole : string.
Variable defaultActive : bool.
Variable defaultVerified : bool * bool.
Variable createError : list User -> string -> string -> string -> string -> option string.

Lemma run_register n e p pw w :
  run (register generateToken hashPassword defaultRole defaultActive defaultVerified createError
         n e p pw) w
  = if negb (truthy n) || negb (truthy e) || negb (truthy p) || negb (truthy pw) then
      (fail 400 "Please provide all required fields" [], w)
    else
      match find (email_or_phone e p) (users w) with
      | Some _ => (fail 400 "User already exists with this email or phone" [], w)
      | None =>
          match createError (users w) (or_lit n "") (or_lit e "") (or_lit p "")
                  (or_lit pw "") with
          | Some message => (fail 500 (or_lit (Some message) "Server error") [], w)
          | None =>
              ({| status := 201;
                  body := [("success", JBool true);
                           ("message", JStr "User registered successfully");
                           ("token", JStr (generateToken (fresh_user_id (users w))));
                           ("user", user_view (registered hashPassword defaultRole defaultActive defaultVerified n e p pw w))] |},
               set_users (users w ++ [registered hashPassword defaultRole defaultActive defaultVerified n e p pw w]) w)
          end
      end.
Proof.
  unfold register, User_create. unroute.
  destruct (negb (truthy n) || negb (truthy e) || negb (truthy p) || negb (truthy pw));
    [reflexivity |].
  cbn beta iota. destruct (find _ (users w)); [reflexivity |].
  destruct (createError _ _ _ _ _); reflexivity.
Qed.

Lemma run_login e pw w :
  run (login generateToken comparePassword e pw) w
  = (if negb (truthy e) || negb (truthy pw) then
       fail 400 "Please provide email and password" []
     else
       match find (user_matches (by_email e)) (users w) with
       | None => fail 401 "Invalid credentials" []
       | Some u =>
           if negb (comparePassword (password u) (or_lit pw "")) then
             fail 401 "Invalid credentials" []
           else if negb (isActive u) then fail 401 "Account is deactivated" []
           else logged_in generateToken u
       end, w).
Proof.
  unfold login. unroute.
  destruct (negb (truthy e) || negb (truthy pw)); [reflexivity |].
  cbn beta iota. destruct (find _ (users w)) as [u |]; [| reflexivity].
  destruct (negb (comparePassword (password u) (or_lit pw ""))); [reflexivity |].
  cbn beta iota. destruct (negb (isActive u)); reflexivity.
Qed.

Lemma fresh_user_id_new (l : list User) : ~ In (fresh_user_id l) (map user_id l).
Proof.
  unfold fresh_user_id. intros H.
  assert (B : Forall (fun k => (k <= list_max (map user_id l))%nat) (map user_id l))
    by (apply list_max_le; lia).
  rewrite Forall_forall in B. specialize (B _ H). lia.
Qed.

Lemma NoDup_snoc {A} (l : list A) (a : A) : NoDup l -> ~ In a l -> NoDup (l ++ [a]).
Proof.
  intros N H. apply NoDup_app; [exact N | constructor; [intros [] | constructor] |].
  intros x Hx [<- | []]. contradiction.
Qed.

Lemma email_or_phone_none e p l x :
  find (email_or_phone e p) l = None -> In x l ->
  is_lit e (email x) = false /\ is_lit p (phone x) = false.
Proof.
  intros F Hx. pose proof (find_none _ _ F x Hx) as K.
  unfold email_or_phone in K. now apply orb_false_iff in K.
Qed.

(** [register] changes nothing when it refuses (a missing field, a stored
    user with the email or the phone, an error of [User.create]); when it
    accepts it appends one user, with the hash of the password, whose email
    and phone no stored user has. So emails, phones and identifiers stay
    pairwise distinct. *)
Theorem register_keeps_accounts_distinct (n e p pw : option string) (w : World) :
  distinct_accounts (users w) ->
  let r := fst (run (register generateToken hashPassword defaultRole defaultActive
                       defaultVerified createError n e p pw) w) in
  let w' := snd (run (register generateToken hashPassword defaultRole defaultActive
                        defaultVerified createError n e p pw) w) in
  distinct_accounts (users w')
  /\ (succeeded r = false -> w' = w)
  /\ (succeeded r = true ->
      users w' = (users w ++ [registered hashPassword defaultRole defaultActive defaultVerified n e p pw w])%list
      /\ e = Some (email (registered hashPassword defaultRole defaultActive defaultVerified n e p pw w))
      /\ p = Some (phone (registered hashPassword defaultRole defaultActive defaultVerified n e p pw w))).
Proof.
  intros (Ni & Ne & Np). cbv zeta. rewrite run_register.
  destruct (negb (truthy n) || negb (truthy e) || negb (truthy p) || negb (truthy pw)) eqn:G.
  { cbn. repeat split; try assumption; discriminate. }
  destruct (find (email_or_phone e p) (users w)) eqn:F.
  { cbn. repeat split; try assumption; discriminate. }
  destruct (createError _ _ _ _ _).
  { cbn. repeat split; try assumption; discriminate. }
  apply orb_false_iff in G. destruct G as [G _].
  apply orb_false_iff in G. destruct G as [G Tp].
  apply orb_false_iff in G. destruct G as [_ Te].
  apply negb_false_iff in Te, Tp.
  destruct (truthy_some _ Te) as (es & -> & _).
  destruct (truthy_some _ Tp) as (ps & -> & _).
  cbn [fst snd users set_users].
  assert (Ee : or_lit (Some es) "" = es) by apply MailFacts.or_lit_empty.
  assert (Ep : or_lit (Some ps) "" = ps) by apply MailFacts.or_lit_empty.
  split; [| split; [discriminate |]].
  - unfold distinct_accounts. rewrite !map_app. cbn [map registered user_id email phone].
    rewrite Ee, Ep. repeat split; apply NoDup_snoc; try assumption.
    + apply fresh_user_id_new.
    + intros H. apply in_map_iff in H. destruct H as (x & E & Hx).
      destruct (email_or_phone_none _ _ _ x F Hx) as [K _].
      cbn in K. rewrite E, String.eqb_refl in K. discriminate K.
    + intros H. apply in_map_iff in H. destruct H as (x & E & Hx).
      destruct (email_or_phone_none _ _ _ x F Hx) as [_ K].
      cbn in K. rewrite E, String.eqb_refl in K. discriminate K.
  - intros _. cbn [registered email phone]. rewrite Ee, Ep. repeat split.
Qed.

(** [login] never writes; it succeeds exactly for a stored user whose
    password [comparePassword] accepts and who is active; an unknown email
    and a wrong password get the same reply. *)
Theorem login_only_reads (e pw : option string) (w : World) :
  let r := fst (run (login generateToken comparePassword e pw) w) in
  snd (run (login generateToken comparePassword e pw) w) = w
  /\ (succeeded r = true <->
      truthy e = true /\ truthy pw = true
      /\ exists u,
          find (user_matches (by_email e)) (users w) = Some u
          /\ comparePassword (password u) (or_lit pw "") = true
          /\ isActive u = true)
  /\ (truthy e = true -> truthy pw = true ->
      (forall u, find (user_matches (by_email e)) (users w) = Some u ->
                 comparePassword (password u) (or_lit pw "") = false) ->
      r = fail 401 "Invalid credentials" []).
Proof.
  cbv zeta. rewrite run_login. cbn [fst snd]. split; [reflexivity |].
  destruct (truthy e) eqn:Te, (truthy pw) eqn:Tp; cbn [negb orb].
  2-4: split; [split; [discriminate | intros (A & B & _); discriminate] | discriminate].
  destruct (find (user_matches (by_email e)) (users w)) as [u |].
  - destruct (comparePassword (password u) (or_lit pw "")) eqn:C; cbn [negb].
    + destruct (isActive u) eqn:Ia; cbn [negb]; split.
      * split; [intros _; repeat split; exists u; repeat split; assumption | reflexivity].
      * intros _ _ K. specialize (K u eq_refl). congruence.
      * split; [discriminate |].
        intros (_ & _ & u' & E & _ & Ia'). injection E as <-. congruence.
      * intros _ _ K. specialize (K u eq_refl). congruence.
    + split; [| reflexivity].
      split; [discriminate |].
      intros (_ & _ & u' & E & C' & _). injection E as <-. congruence.
  - split; [| reflexivity].
    split; [discriminate | intros (_ & _ & u' & E & _); discriminate].
Qed.

(** A user that [register] has just created can log in with the same email
    and password, provided [comparePassword] accepts a password against its
    own hash and new users are active. *)
Theorem registered_user_can_log_in (n e p pw : option string) (w : World) :
  (forall s, comparePassword (hashPassword s) s = true) ->
  defaultActive = true ->
  let reg := run (register generateToken hashPassword defaultRole defaultActive
                    defaultVerified createError n e p pw) w in
  succeeded (fst reg) = true ->
  run (login generateToken comparePassword e pw) (snd reg)
  = (logged_in generateToken (registered hashPassword defaultRole defaultActive defaultVerified n e p pw w), snd reg).
Proof.
  intros C A. cbv zeta. rewrite run_register.
  destruct (negb (truthy n) || negb (truthy e) || negb (truthy p) || negb (truthy pw)) eqn:G;
    [discriminate |].
  destruct (find (email_or_phone e p) (users w)) eqn:F; [discriminate |].
  destruct (createError _ _ _ _ _); [discriminate |].
  intros _. cbn [snd].
  apply orb_false_iff in G. destruct G as [G Tpw].
  apply orb_false_iff in G. destruct G as [G _].
  apply orb_false_iff in G. destruct G as [_ Te].
  apply negb_false_iff in Te, Tpw.
  rewrite run_login, Te, Tpw. cbn [negb orb users set_users]. f_equal.
  destruct (truthy_some _ Te) as (es & -> & _).
  rewrite find_app_last.
  2:{ apply find_all_false. intros x Hx.
      destruct (email_or_phone_none _ _ _ x F Hx) as [K _].
      unfold user_matches, by_email. cbn [q_email q_phone field_is].
      cbn [is_lit] in K. now rewrite K. }
  unfold user_matches, by_email. cbn [q_email q_phone field_is registered email].
  rewrite MailFacts.or_lit_empty, String.eqb_refl.
  cbn [andb]. unfold registered at 1 2. cbn [password isActive].
  rewrite C, A. reflexivity.
Qed.

(** After a [reset-password] that succeeded, [login] for that email is
    decided by the new password alone: the stored password is the hash of the
    new one, so a candidate is accepted exactly when [comparePassword]
    accepts it against that hash (and the user is active). *)
Theorem a_reset_takes_effect_at_login
    (c : Ctx) (e o n candidate : option string) (w : World) :
  let w' := snd (run (reset_password hashPassword c e o n) w) in
  succeeded (fst (run (reset_password hashPassword c e o n) w)) = true ->
  truthy candidate = true ->
  exists u,
    find (user_matches (by_email e)) (users w) = Some u
    /\ fst (run (login generateToken comparePassword e candidate) w')
       = if negb (comparePassword (hashPassword (or_lit n "")) (or_lit candidate ""))
         then fail 401 "Invalid credentials" []
         else if negb (isActive u) then fail 401 "Account is deactivated" []
         else logged_in generateToken
                (with_otp None (with_password (hashPassword (or_lit n "")) u)).
Proof.
  cbv zeta. rewrite run_reset_password.
  destruct (negb (truthy e) || negb (truthy o) || negb (truthy n)) eqn:G; [discriminate |].
  destruct (find (user_matches (by_email e)) (users w)) as [u |] eqn:F; [| discriminate].
  destruct (otp u) as [slot |]; [| discriminate].
  destruct (negb (purpose slot =? "password_reset") || negb (is_lit o (code slot)));
    [discriminate |].
  destruct (expired c (expiresAt slot)); [discriminate |].
  intros _ Tc. exists u. split; [reflexivity |].
  apply orb_false_iff in G. destruct G as [G _].
  apply orb_false_iff in G. destruct G as [Te _]. apply negb_false_iff in Te.
  rewrite run_login, Te, Tc. cbn [negb orb fst snd users set_users].
  rewrite (find_save_user (by_email e) (users w) u
             (with_otp None (with_password (hashPassword (or_lit n "")) u)) F eq_refl
             (proj2 (find_some _ _ F))).
  reflexivity.
Qed.

(** [firebase-login] never inspects the ID token: for the email of a stored,
    active user every non-empty token is answered with a session token for
    that user, and nothing is written. *)
Theorem firebase_login_trusts_any_token
    (idToken e n : option string) (u : User) (w : World) :
  truthy idToken = true ->
  truthy e = true ->
  find (user_matches (by_email e)) (users w) = Some u ->
  run (firebase_login generateToken hashPassword defaultRole defaultActive createError
         idToken e n) w
  = (if isActive u then logged_in generateToken u
     else fail 401 "Account is deactivated" [], w).
Proof.
  intros Tt Te F. unfold firebase_login. unroute.
  rewrite Tt, Te. cbn [negb orb]. cbn beta iota. rewrite F. cbn beta iota.
  destruct (isActive u); reflexivity.
Qed.

End Accounts.

Lemma distinct_alice_alone : distinct_accounts (users alice_alone).
Proof. repeat split; (constructor; [intros [] | constructor]). Qed.

Lemma register_keeps_accounts_distinct_witness :
  let bob := registered no_hash "user" true (false, false)
               (Some "Bob") (Some "b@x.com") (Some "5550101") (Some "pw") alice_alone in
  let w' := snd (run (register sample_token no_hash "user" true (false, false) accepts_all
                        (Some "Bob") (Some "b@x.com") (Some "5550101") (Some "pw"))
                   alice_alone) in
  distinct_accounts (users alice_alone)
  /\ distinct_accounts (users w')
  /\ users w' = [alice; bob].
Proof.
  cbv zeta. split; [exact distinct_alice_alone |].
  destruct (register_keeps_accounts_distinct sample_token no_hash "user" true
              (false, false) accepts_all (Some "Bob") (Some "b@x.com") (Some "5550101") (Some "pw")
              alice_alone distinct_alice_alone) as (D & _ & S).
  split; [exact D |]. exact (proj1 (S eq_refl)).
Defined.

Lemma registered_user_can_log_in_witness :
  let reg := run (register sample_token no_hash "user" true (false, false) accepts_all
                    (Some "Bob") (Some "b@x.com") (Some "5550101") (Some "pw"))
               alice_alone in
  succeeded (fst reg) = true
  /\ succeeded (fst (run (login sample_token plain_compare (Some "b@x.com") (Some "pw"))
                      (snd reg))) = true.
Proof.
  cbv zeta. split; [reflexivity |].
  rewrite (registered_user_can_log_in sample_token no_hash plain_compare "user" true
             (false, false) accepts_all (Some "Bob") (Some "b@x.com") (Some "5550101") (Some "pw")
             alice_alone (fun s => String.eqb_refl s) eq_refl eq_refl).
  reflexivity.
Defined.

Lemma a_reset_takes_effect_at_login_witness :
  let w' := snd (run (reset_password no_hash (sample_ctx 2000 "") (Some "a@x.com")
                        (Some "123456") (Some "new-password")) alice_resetting) in
  succeeded (fst (run (login sample_token plain_compare (Some "a@x.com")
                         (Some "new-password")) w')) = true
  /\ succeeded (fst (run (login sample_token plain_compare (Some "a@x.com")
                            (Some "old-hash")) w')) = false.
Proof.
  cbv zeta. split.
  - destruct (a_reset_takes_effect_at_login sample_token no_hash plain_compare
                (sample_ctx 2000 "") (Some "a@x.com") (Some "123456")
                (Some "new-password") (Some "new-password") alice_resetting
                eq_refl eq_refl) as (u & F & L).
    injection F as <-. rewrite L. reflexivity.
  - destruct (a_reset_takes_effect_at_login sample_token no_hash plain_compare
                (sample_ctx 2000 "") (Some "a@x.com") (Some "123456")
                (Some "new-password") (Some "old-hash") alice_resetting
                eq_refl eq_refl) as (u & F & L).
    injection F as <-. rewrite L. reflexivity.
Defined.

Lemma firebase_login_trusts_any_token_witness :
  run (firebase_login sample_token no_hash "user" true accepts_all (Some "not-a-token")
         (Some "a@x.com") None) alice_alone
  = (logged_in sample_token alice, alice_alone).
Proof.
  apply (firebase_login_trusts_any_token sample_token no_hash "user" true accepts_all
           (Some "not-a-token") (Some "a@x.com") None alice alice_alone);
    reflexivity.
Defined.

End AccountFacts.

(** * Cross-origin requests and the text fallback *)
Module ServerFacts.
Import Js Server.

(** The [origin] function of the CORS configuration allows every origin: in
    production an origin that is neither listed nor a localhost one is let
    through as well. The hand-written header middleware after it does not set
    [Access-Control-Allow-Origin] for such an origin, and sets it to [*] for
    a request without an origin. *)
Theorem cors_origin_allows_every_origin
    (nodeEnv frontendUrl origin : option string) (method : string) :
  cors_origin nodeEnv frontendUrl origin = true
  /\ (truthy origin = true ->
      list_includes (allowedOrigins frontendUrl) origin = false ->
      includes "localhost" (or_lit origin "") = false ->
      fst (cors_headers frontendUrl origin method) = None)
  /\ (truthy origin = false ->
      fst (cors_headers frontendUrl origin method) = Some "*").
Proof.
  split; [| split].
  - unfold cors_origin.
    repeat match goal with |- context [if ?b then _ else _] => destruct b end;
      reflexivity.
  - intros T L I. unfold cors_headers. now rewrite L, T, I.
  - intros T. unfold cors_headers. rewrite T, orb_true_r. cbn.
    unfold or_lit. unfold truthy in T. destruct origin as [s |]; [| reflexivity].
    destruct (s =? ""); [reflexivity | discriminate].
Qed.

(** ** The text derived from the HTML body *)

Lemma after_gt_shorter (s rest : string) :
  after_gt s = Some rest -> (String.length rest < String.length s)%nat.
Proof.
  revert rest. induction s as [| c s IH]; cbn; intros rest H; [discriminate |].
  destruct (Ascii.eqb c ">").
  - injection H as <-. lia.
  - specialize (IH _ H). lia.
Qed.

Lemma strip_tags_fuel_shorter (n : nat) (s : string) :
  (String.length (strip_tags_fuel n s) <= String.length s)%nat.
Proof.
  revert s. induction n as [| n IH]; intros s; cbn; [lia |].
  destruct s as [| c r]; cbn; [lia |].
  destruct (Ascii.eqb c "<").
  - destruct (after_gt r) as [rest |] eqn:A; cbn; [| lia].
    pose proof (after_gt_shorter _ _ A). specialize (IH rest). lia.
  - cbn. specialize (IH r). lia.
Qed.

Lemma strip_tags_fuel_stable (n : nat) :
  forall s m,
    (String.length s <= n)%nat ->
    (String.length (strip_tags_fuel n s) <= m)%nat ->
    strip_tags_fuel m (strip_tags_fuel n s) = strip_tags_fuel n s.
Proof.
  induction n as [| n IH]; intros s m Hn Hm.
  - destruct s; [| cbn in Hn; lia]. destruct m; reflexivity.
  - destruct s as [| c r]; [destruct m; reflexivity |].
    cbn in Hn. cbn [strip_tags_fuel] in *.
    destruct (Ascii.eqb c "<") eqn:Ec.
    + destruct (after_gt r) as [rest |] eqn:A.
      * pose proof (after_gt_shorter _ _ A). apply IH; [lia | exact Hm].
      * destruct m; [cbn in Hm; lia |]. cbn. now rewrite Ec, A.
    + destruct m; [cbn in Hm; lia |]. cbn in Hm |- *. rewrite Ec.
      f_equal. apply IH; lia.
Qed.

Lemma strip_tags_fuel_enough (n : nat) :
  forall s m,
    (String.length s <= n)%nat -> (String.length s <= m)%nat ->
    strip_tags_fuel n s = strip_tags_fuel m s.
Proof.
  induction n as [| n IH]; intros s m Hn Hm.
  - destruct s; [| cbn in Hn; lia]. destruct m; reflexivity.
  - destruct s as [| c r]; [destruct m; reflexivity |].
    destruct m; [cbn in Hm; lia |]. cbn in Hn, Hm |- *.
    destruct (Ascii.eqb c "<").
    + destruct (after_gt r) as [rest |] eqn:A; [| reflexivity].
      pose proof (after_gt_shorter _ _ A). apply IH; lia.
    + f_equal. apply IH; lia.
Qed.

Lemma includes_lt_cons (c : ascii) (r : string) :
  includes "<" (String c r) = Ascii.eqb c "<" || includes "<" r.
Proof.
  cbn [includes String.prefix].
  destruct (ascii_dec "<" c) as [E | E].
  - subst c. destruct r; reflexivity.
  - destruct (Ascii.eqb_spec c "<") as [E' | E']; [congruence | reflexivity].
Qed.

(** The plain text [sendEmail] derives from an HTML body has no tag left in
    it: removing the tags once more changes nothing; it is never longer than
    the body, and a body without [<] is kept as it is. *)
Theorem strip_tags_leaves_no_tag (s : string) :
  strip_tags (strip_tags s) = strip_tags s
  /\ (String.length (strip_tags s) <= String.length s)%nat
  /\ (includes "<" s = false -> strip_tags s = s).
Proof.
  unfold strip_tags. split; [| split].
  - apply strip_tags_fuel_stable; lia.
  - apply strip_tags_fuel_shorter.
  - generalize (String.length s) as n. induction s as [| c r IH]; intros n H.
    + destruct n; reflexivity.
    + destruct n; [reflexivity |].
      rewrite includes_lt_cons in H. apply orb_false_iff in H. destruct H as [Ec H].
      cbn [strip_tags_fuel]. rewrite Ec. f_equal. now apply IH.
Qed.

End ServerFacts.
